(** * Wind_Data_Format: the [Dataformatter] class

    A shallow embedding of [src/Wind_Data_Format.py] and the properties of
    its seven table transformations.

    Conventions of the model.
    - A pandas [DataFrame] is a Python object: tables live in a heap of
      objects addressed by references, and the methods of [Dataformatter]
      are computations in a state-and-exception monad over that heap, so
      that in-place mutation and aliasing are visible.
    - A [float64] cell is an exact real number or one of the IEEE special
      values (+inf, -inf, NaN).  Rounding, overflow and the sign of zero are
      not modelled: arithmetic on finite values is exact.
    - A datetime cell is the [int64] count of nanoseconds since
      1970-01-01T00:00:00 that pandas stores (wall-clock for a naive column,
      UTC for a timezone-aware one).  [NaT] is not modelled.
    - Behaviour of pandas that the model does not describe is reported by
      the exception [OutsideModel]; no statement below concludes anything
      from it. *)

From Stdlib Require Import Reals Lra ZArith Lia.
From stdpp Require Import gmap strings list.

(** ** float64: extended reals with IEEE special values *)

Module F64.

Inductive float64 : Type :=
| Fin (r : R)
| PInf
| NInf
| NaN.

Definition Rleb (x y : R) : bool := if Rle_dec x y then true else false.
Definition Rltb (x y : R) : bool := if Rlt_dec x y then true else false.
Definition Reqb (x y : R) : bool := if Req_dec_T x y then true else false.

Definition of_Z (n : Z) : float64 := Fin (IZR n).

Definition isnan (x : float64) : bool :=
  match x with NaN => true | _ => false end.

Definition isfinite (x : float64) : bool :=
  match x with Fin _ => true | _ => false end.

Definition neg (x : float64) : float64 :=
  match x with
  | Fin r => Fin (- r)
  | PInf => NInf
  | NInf => PInf
  | NaN => NaN
  end.

Definition add (x y : float64) : float64 :=
  match x, y with
  | NaN, _ | _, NaN => NaN
  | Fin a, Fin b => Fin (a + b)
  | PInf, NInf | NInf, PInf => NaN
  | PInf, _ | _, PInf => PInf
  | NInf, _ | _, NInf => NInf
  end.

Definition sub (x y : float64) : float64 := add x (neg y).

(** The infinity with the sign of [r]; NaN for [r = 0] (inf * 0). *)
Definition inf_signed (r : R) : float64 :=
  if Rltb 0 r then PInf else if Rltb r 0 then NInf else NaN.

Definition mul (x y : float64) : float64 :=
  match x, y with
  | NaN, _ | _, NaN => NaN
  | Fin a, Fin b => Fin (a * b)
  | Fin a, PInf | PInf, Fin a => inf_signed a
  | Fin a, NInf | NInf, Fin a => inf_signed (- a)
  | PInf, PInf | NInf, NInf => PInf
  | PInf, NInf | NInf, PInf => NaN
  end.

(** Division; a zero divisor is the positive zero. *)
Definition div (x y : float64) : float64 :=
  match x, y with
  | NaN, _ | _, NaN => NaN
  | Fin a, Fin b => if Reqb b 0 then inf_signed a else Fin (a / b)
  | Fin _, PInf | Fin _, NInf => Fin 0
  | PInf, Fin b => if Rltb b 0 then NInf else PInf
  | NInf, Fin b => if Rltb b 0 then PInf else NInf
  | PInf, PInf | PInf, NInf | NInf, PInf | NInf, NInf => NaN
  end.

(** [numpy.log] *)
Definition log (x : float64) : float64 :=
  match x with
  | Fin r => if Rltb 0 r then Fin (ln r) else if Reqb r 0 then NInf else NaN
  | PInf => PInf
  | NInf => NaN
  | NaN => NaN
  end.

Definition sqrt (x : float64) : float64 :=
  match x with
  | Fin r => if Rltb r 0 then NaN else Fin (R_sqrt.sqrt r)
  | PInf => PInf
  | NInf => NaN
  | NaN => NaN
  end.

(** Comparisons: every comparison with NaN is false. *)
Definition leb (x y : float64) : bool :=
  match x, y with
  | NaN, _ | _, NaN => false
  | Fin a, Fin b => Rleb a b
  | NInf, _ | _, PInf => true
  | _, _ => false
  end.

Definition ltb (x y : float64) : bool :=
  match x, y with
  | NaN, _ | _, NaN => false
  | Fin a, Fin b => Rltb a b
  | PInf, _ | _, NInf => false
  | _, _ => true
  end.

Definition geb (x y : float64) : bool := leb y x.
Definition gtb (x y : float64) : bool := ltb y x.

(** Sum of a list, left to right from 0. *)
Definition sum (xs : list float64) : float64 := foldl add (Fin 0) xs.

(** The values that are not NaN (pandas reductions skip missing values). *)
Definition dropna (xs : list float64) : list float64 :=
  List.filter (fun x => negb (isnan x)) xs.

Definition count (xs : list float64) : float64 :=
  of_Z (Z.of_nat (length xs)).

(** [Series.mean()] with [skipna=True]: 0/0 = NaN when nothing is left. *)
Definition nanmean (xs : list float64) : float64 :=
  let vs := dropna xs in div (sum vs) (count vs).

(** [Series.std(ddof=0)] with [skipna=True]: the population standard
    deviation, NaN when no value is left. *)
Definition nanvar (xs : list float64) : float64 :=
  let vs := dropna xs in
  let avg := div (sum vs) (count vs) in
  let sqr := map (fun v => let d := sub avg v in mul d d) vs in
  div (sum sqr) (count vs).

Definition nanstd (xs : list float64) : float64 := sqrt (nanvar xs).

(** What a standard deviation can be: a non-negative number, +inf or NaN. *)
Definition nonneg (s : float64) : Prop :=
  match s with
  | Fin r => (0 <= r)%R
  | NInf => False
  | _ => True
  end.

End F64.

(** ** Calendar arithmetic on [datetime64[ns]] values *)

Module Calendar.
Local Open Scope Z_scope.

Definition ns_per_second : Z := 1000000000.
Definition ns_per_hour : Z := 3600 * ns_per_second.
Definition ns_per_day : Z := 24 * ns_per_hour.

(** Days since 1970-01-01 and time within the day (floor division, as
    numpy does for instants before the epoch). *)
Definition days_of (t : Z) : Z := t / ns_per_day.
Definition hour_of (t : Z) : Z := (t mod ns_per_day) / ns_per_hour.

(** numpy's [days_to_yearsdays]: the year of a day number and the 0-based
    day within that year, through the 400/100/4-year cycles from 2000. *)
Definition days_to_yearsdays (days0 : Z) : Z * Z :=
  let days_per_400years := 400 * 365 + 100 - 4 + 1 in
  let days := days0 - (365 * 30 + 7) in
  let year := 400 * (days / days_per_400years) in
  let days := days mod days_per_400years in
  if days >=? 366 then
    let year := year + 100 * ((days - 1) / (100 * 365 + 25 - 1)) in
    let days := (days - 1) mod (100 * 365 + 25 - 1) in
    if days >=? 365 then
      let year := year + 4 * ((days + 1) / (4 * 365 + 1)) in
      let days := (days + 1) mod (4 * 365 + 1) in
      if days >=? 366 then
        (year + (days - 1) / 365 + 2000, (days - 1) mod 365)
      else (year + 2000, days)
    else (year + 2000, days)
  else (year + 2000, days).

Definition year_of (t : Z) : Z := fst (days_to_yearsdays (days_of t)).

(** [Series.dt.dayofyear]: the ordinal day of the year, from 1. *)
Definition dayofyear (t : Z) : Z := snd (days_to_yearsdays (days_of t)) + 1.

(** [Series.dt.hour] *)
Definition hour (t : Z) : Z := hour_of t.

(** The expression both [hourly_format] and [format_era5] evaluate. *)
Definition hour_of_year (t : Z) : Z := (dayofyear t - 1) * 24 + hour t.

(** [Timestamp.normalize]: midnight of the same day. *)
Definition normalize (t : Z) : Z := days_of t * ns_per_day.

(** Day number of a proleptic Gregorian date (month 1..12, day from 1). *)
Definition days_from_civil (y m d : Z) : Z :=
  let y' := if m <=? 2 then y - 1 else y in
  let era := y' / 400 in
  let yoe := y' - era * 400 in
  let mp := if m >? 2 then m - 3 else m + 9 in
  let doy := (153 * mp + 2) / 5 + d - 1 in
  let doe := yoe * 365 + yoe / 4 - yoe / 100 + doy in
  era * 146097 + doe - 719468.

(** The datetime64[ns] value of a civil date and time. *)
Definition datetime (y m d hh mm ss : Z) : Z :=
  days_from_civil y m d * ns_per_day
  + hh * ns_per_hour + mm * (60 * ns_per_second) + ss * ns_per_second.

(** Day of the week of a day number, Monday = 0 ... Sunday = 6. *)
Definition weekday (days : Z) : Z := (days + 3) mod 7.

(** Day of the month of the [n]-th Sunday of month [m] (n from 1). *)
Definition nth_sunday (y m n : Z) : Z :=
  1 + (6 - weekday (days_from_civil y m 1)) mod 7 + 7 * (n - 1).

(** Day of the month of the last Sunday of a month with [len] days. *)
Definition last_sunday (y m len : Z) : Z :=
  len - (weekday (days_from_civil y m len) + 1) mod 7.

(** Time zones the program names: the UTC it parses into and the
    'US/Mountain' it converts to. *)
Inductive tzinfo : Type := UTC | US_Mountain.

(** The daylight-saving period of US/Mountain in year [y] as the tz
    database records it from the Uniform Time Act on: the UTC instants at
    which clocks go forward (02:00 MST) and back (02:00 MDT). *)
Definition mountain_dst_start (y : Z) : Z :=
  if y >=? 2007 then datetime y 3 (nth_sunday y 3 2) 9 0 0
  else if y >=? 1987 then datetime y 4 (nth_sunday y 4 1) 9 0 0
  else if y =? 1975 then datetime y 2 23 9 0 0
  else if y =? 1974 then datetime y 1 6 9 0 0
  else datetime y 4 (last_sunday y 4 30) 9 0 0.

Definition mountain_dst_end (y : Z) : Z :=
  if y >=? 2007 then datetime y 11 (nth_sunday y 11 1) 8 0 0
  else datetime y 10 (last_sunday y 10 31) 8 0 0.

(** Offset from UTC, in nanoseconds, in force at the UTC instant [t].
    Before 1967 the zone's local rules are not modelled and the standard
    offset is used. *)
Definition mountain_utcoffset (t : Z) : Z :=
  let y := year_of t in
  if (1967 <=? y) && (mountain_dst_start y <=? t) && (t <? mountain_dst_end y)
  then -6 * ns_per_hour
  else -7 * ns_per_hour.

Definition utcoffset (tz : tzinfo) (t : Z) : Z :=
  match tz with
  | UTC => 0
  | US_Mountain => mountain_utcoffset t
  end.

(** Wall-clock reading of a stored value: a naive value is its own wall
    clock, an aware one is shifted by the zone's offset. *)
Definition wall (tz : option tzinfo) (t : Z) : Z :=
  match tz with
  | None => t
  | Some z => t + utcoffset z t
  end.

(** [tz_localize]: the instant at which the zone's wall clock reads [w];
    [None] when no instant or more than one does (a skipped or repeated
    hour at a daylight-saving change). *)
Definition tz_localize (z : tzinfo) (w : Z) : option Z :=
  match z with
  | UTC => Some w
  | US_Mountain =>
      let std := w + 7 * ns_per_hour in
      let dst := w + 6 * ns_per_hour in
      match wall (Some z) std =? w, wall (Some z) dst =? w with
      | true, false => Some std
      | false, true => Some dst
      | _, _ => None
      end
  end.

(** Midnight of the wall-clock day of a stored value, as a stored value. *)
Definition normalize_tz (tz : option tzinfo) (t : Z) : option Z :=
  match tz with
  | None => Some (normalize t)
  | Some z => tz_localize z (normalize (wall tz t))
  end.

End Calendar.

(** ** The fragment of pandas the program uses *)

Module Pandas.
Import F64 Calendar.

(** A Python scalar as it is read out of a cell. *)
Inductive scalar : Type :=
| VFloat (x : float64)
| VInt (n : Z)
| VTime (tz : option tzinfo) (t : Z)
| VStr (s : string).

(** A column with its dtype: float64, int64, datetime64[ns] (naive, or
    aware of a zone), or object. *)
Inductive Series : Type :=
| Float64 (xs : list float64)
| Int64 (xs : list Z)
| Datetime64 (tz : option tzinfo) (ts : list Z)
| Object (xs : list scalar).

(** A table: the row labels with their optional name, and the columns in
    order.  Column names are looked up from the left. *)
Record DataFrame : Type := mkDataFrame {
  index_name : option string;
  index : Series;
  columns : list (string * Series)
}.

(** The exceptions the operations raise.  [OutsideModel] stands for
    behaviour of pandas that this model does not describe. *)
Inductive exn : Type :=
| AssertionError (msg : string)
| KeyError (key : string)
| TypeError
| ValueError
| AttributeError
| OutsideModel.

(** A value, or the exception raised instead. *)
Inductive result (A : Type) : Type :=
| Ok (a : A)
| Raise (e : exn).
Arguments Ok {A} a.
Arguments Raise {A} e.

Definition rbind {A B} (r : result A) (k : A → result B) : result B :=
  match r with
  | Ok a => k a
  | Raise e => Raise e
  end.

Notation "'let?' x := r 'in' k" := (rbind r (fun x => k))
  (at level 10, x pattern, r at level 100, k at level 200).

Fixpoint mapR {A B} (f : A → result B) (xs : list A) : result (list B) :=
  match xs with
  | [] => Ok []
  | x :: xs' => let? y := f x in let? ys := mapR f xs' in Ok (y :: ys)
  end.

(** *** Series *)

Definition series_len (s : Series) : nat :=
  match s with
  | Float64 xs => length xs
  | Int64 xs => length xs
  | Datetime64 _ ts => length ts
  | Object xs => length xs
  end.

Definition values (s : Series) : list scalar :=
  match s with
  | Float64 xs => map VFloat xs
  | Int64 xs => map VInt xs
  | Datetime64 tz ts => map (VTime tz) ts
  | Object xs => xs
  end.

Definition is_numeric_dtype (s : Series) : bool :=
  match s with Float64 _ | Int64 _ => true | _ => false end.

Definition is_float_dtype (s : Series) : bool :=
  match s with Float64 _ => true | _ => false end.

(** [pd.api.types.is_datetime64_any_dtype] *)
Definition is_datetime64_any_dtype (s : Series) : bool :=
  match s with Datetime64 _ _ => true | _ => false end.

(** A number as a float; text and timestamps are not numbers. *)
Definition to_float (v : scalar) : result float64 :=
  match v with
  | VFloat x => Ok x
  | VInt n => Ok (of_Z n)
  | _ => Raise TypeError
  end.

(** The numeric reading of a column, for arithmetic and reductions. *)
Definition floats (s : Series) : result (list float64) :=
  match s with
  | Float64 xs => Ok xs
  | Int64 xs => Ok (map of_Z xs)
  | Datetime64 _ _ => Raise TypeError
  | Object xs => mapR to_float xs
  end.

(** Boolean indexing: the elements at which the mask is true. *)
Fixpoint mask_list {A} (mask : list bool) (xs : list A) : list A :=
  match mask, xs with
  | b :: mask', x :: xs' =>
      if b then x :: mask_list mask' xs' else mask_list mask' xs'
  | _, _ => []
  end.

Definition mask_series (mask : list bool) (s : Series) : Series :=
  match s with
  | Float64 xs => Float64 (mask_list mask xs)
  | Int64 xs => Int64 (mask_list mask xs)
  | Datetime64 tz ts => Datetime64 tz (mask_list mask ts)
  | Object xs => Object (mask_list mask xs)
  end.

(** dtype inference for a column built from Python scalars. *)
Definition as_ints (vs : list scalar) : option (list Z) :=
  mapM (M := option) (fun v => match v with VInt n => Some n | _ => None end) vs.

Definition as_floats (vs : list scalar) : option (list float64) :=
  mapM (M := option)
    (fun v => match v with
              | VFloat x => Some x
              | VInt n => Some (of_Z n)
              | _ => None
              end) vs.

Definition tz_eqb (a b : option tzinfo) : bool :=
  match a, b with
  | None, None | Some UTC, Some UTC | Some US_Mountain, Some US_Mountain => true
  | _, _ => false
  end.

Definition as_times (tz : option tzinfo) (vs : list scalar) : option (list Z) :=
  mapM (M := option)
    (fun v => match v with
              | VTime tz' t => if tz_eqb tz tz' then Some t else None
              | _ => None
              end) vs.

Definition series_of_scalars (vs : list scalar) : Series :=
  match as_ints vs with
  | Some ns => Int64 ns
  | None =>
    match as_floats vs with
    | Some xs => Float64 xs
    | None =>
      match vs with
      | VTime tz _ :: _ =>
          match as_times tz vs with
          | Some ts => Datetime64 tz ts
          | None => Object vs
          end
      | _ => Object vs
      end
    end
  end.

(** [series / k] for a number [k]. *)
Definition series_truediv_scalar (s : Series) (k : float64) : result Series :=
  match s with
  | Object xs =>
      let? ys := mapR to_float xs in Ok (Object (map (fun x => VFloat (div x k)) ys))
  | _ => let? xs := floats s in Ok (Float64 (map (fun x => div x k) xs))
  end.

(** [a / b] for two columns of one table. *)
Definition series_truediv (a b : Series) : result Series :=
  let? xs := floats a in
  let? ys := floats b in
  let qs := zip_with div xs ys in
  match a, b with
  | Object _, _ | _, Object _ => Ok (Object (map VFloat qs))
  | _, _ => Ok (Float64 qs)
  end.

(** [np.log(series)]; on an object column numpy looks for a [log] method
    of the elements, which numbers do not have. *)
Definition np_log (s : Series) : result Series :=
  match s with
  | Object [] => Ok (Object [])
  | Object _ => Raise TypeError
  | _ => let? xs := floats s in Ok (Float64 (map log xs))
  end.

(** *** Comparison of a column with a scalar *)

(** [a <= b] and [a < b] on Python scalars: numbers with numbers, texts
    with texts, timestamps with timestamps of the same awareness. *)
Definition scalar_le (a b : scalar) : result bool :=
  match a, b with
  | VFloat x, VFloat y => Ok (leb x y)
  | VFloat x, VInt m => Ok (leb x (of_Z m))
  | VInt n, VFloat y => Ok (leb (of_Z n) y)
  | VInt n, VInt m => Ok (Z.leb n m)
  | VTime tz t, VTime tz' t' =>
      match tz, tz' with
      | None, None | Some _, Some _ => Ok (Z.leb t t')
      | _, _ => Raise TypeError
      end
  | VStr s, VStr s' => Ok (String.leb s s')
  | _, _ => Raise TypeError
  end.

Definition scalar_lt (a b : scalar) : result bool :=
  match a, b with
  | VFloat x, VFloat y => Ok (ltb x y)
  | VFloat x, VInt m => Ok (ltb x (of_Z m))
  | VInt n, VFloat y => Ok (ltb (of_Z n) y)
  | VInt n, VInt m => Ok (Z.ltb n m)
  | VTime tz t, VTime tz' t' =>
      match tz, tz' with
      | None, None | Some _, Some _ => Ok (Z.ltb t t')
      | _, _ => Raise TypeError
      end
  | VStr s, VStr s' => Ok (String.ltb s s')
  | _, _ => Raise TypeError
  end.

(** Whether pandas accepts comparing a column of this dtype with this
    scalar at all (an object column defers to its elements). *)
Definition comparable (s : Series) (v : scalar) : bool :=
  match s, v with
  | (Float64 _ | Int64 _), (VFloat _ | VInt _) => true
  | Datetime64 None _, VTime None _ => true
  | Datetime64 (Some _) _, VTime (Some _) _ => true
  | Object _, _ => true
  | _, _ => false
  end.

(** [series > v] and [series < v] for a number [v]. *)
Definition series_gt (s : Series) (v : scalar) : result (list bool) :=
  if comparable s v then mapR (fun a => scalar_lt v a) (values s)
  else Raise TypeError.

Definition series_lt (s : Series) (v : scalar) : result (list bool) :=
  if comparable s v then mapR (fun a => scalar_lt a v) (values s)
  else Raise TypeError.

(** *** DataFrame *)

Definition RangeIndex (n : nat) : Series := Int64 (map Z.of_nat (seq 0 n)).

Definition nrows (df : DataFrame) : nat := series_len (index df).

(** Columns by name: lookup, assignment (in place, or at the end for a new
    name) and removal, each on the first column of that name. *)
Fixpoint lookup_col {A} (k : string) (l : list (string * A)) : option A :=
  match l with
  | [] => None
  | (k', v) :: l' => if String.eqb k k' then Some v else lookup_col k l'
  end.

Fixpoint assign_col {A} (k : string) (v : A) (l : list (string * A))
  : list (string * A) :=
  match l with
  | [] => [(k, v)]
  | (k', v') :: l' =>
      if String.eqb k k' then (k, v) :: l' else (k', v') :: assign_col k v l'
  end.

Fixpoint drop_col {A} (k : string) (l : list (string * A))
  : list (string * A) :=
  match l with
  | [] => []
  | (k', v') :: l' =>
      if String.eqb k k' then l' else (k', v') :: drop_col k l'
  end.

(** [df[name]] *)
Definition getitem (df : DataFrame) (name : string) : result Series :=
  match lookup_col name (columns df) with
  | Some s => Ok s
  | None => Raise (KeyError name)
  end.

(** [df[name] = s]: overwrite the column, or add it as the last one. *)
Definition setitem (df : DataFrame) (name : string) (s : Series) : DataFrame :=
  mkDataFrame (index_name df) (index df) (assign_col name s (columns df)).

(** [df[[n1; n2; ...]]] *)
Definition getitem_list (df : DataFrame) (names : list string) : result DataFrame :=
  let? cols := mapR (fun n => let? s := getitem df n in Ok (n, s)) names in
  Ok (mkDataFrame (index_name df) (index df) cols).

(** [df[mask]] and [df.loc[mask]] for a boolean mask. *)
Definition loc_mask (df : DataFrame) (mask : list bool) : DataFrame :=
  mkDataFrame (index_name df) (mask_series mask (index df))
    (map (fun '(n, s) => (n, mask_series mask s)) (columns df)).

(** [df.set_index(name)]: the column becomes the row labels and leaves the
    columns. *)
Definition set_index (df : DataFrame) (name : string) : result DataFrame :=
  let? s := getitem df name in
  Ok (mkDataFrame (Some name) s (drop_col name (columns df))).

(** [df.reset_index()]: the row labels become the first column, under their
    name ("index", or "level_0", for unnamed labels), and rows are
    relabelled 0, 1, ... *)
Definition reset_index (df : DataFrame) : result DataFrame :=
  let name :=
    match index_name df with
    | Some n => n
    | None =>
        match lookup_col "index" (columns df) with
        | Some _ => "level_0"
        | None => "index"
        end
    end in
  match lookup_col name (columns df) with
  | Some _ => Raise ValueError
  | None =>
      Ok (mkDataFrame None (RangeIndex (nrows df))
            ((name, index df) :: columns df))
  end.

(** [df.rename(columns={old: new})] *)
Definition rename (df : DataFrame) (old new : string) : DataFrame :=
  mkDataFrame (index_name df) (index df)
    (map (fun '(n, s) => (if String.eqb n old then new else n, s)) (columns df)).

(** Every column is as long as the row labels. *)
Definition wf_frame (df : DataFrame) : Prop :=
  Forall (fun c => series_len (snd c) = nrows df) (columns df).

(** *** Rows, as [DataFrame.apply(axis=1)] presents them *)

Definition row : Type := list (string * scalar).

Definition row_get (r : row) (name : string) : result scalar :=
  match lookup_col name r with
  | Some v => Ok v
  | None => Raise (KeyError name)
  end.

(** A row is read out of the table under one common dtype: when every
    column is numeric and one of them is float64, integers are floats. *)
Definition upcasts (df : DataFrame) : bool :=
  forallb (fun c => is_numeric_dtype (snd c)) (columns df)
  && existsb (fun c => is_float_dtype (snd c)) (columns df).

Definition row_cell (up : bool) (v : scalar) : scalar :=
  match v with
  | VInt n => if up then VFloat (of_Z n) else v
  | _ => v
  end.

Definition row_at (df : DataFrame) (i : nat) : row :=
  omap (fun '(n, s) => (fun v => (n, row_cell (upcasts df) v)) <$> values s !! i)
       (columns df).

Definition iterrows (df : DataFrame) : list row :=
  map (row_at df) (seq 0 (nrows df)).

(** [DataFrame.apply(f, axis=1)]: the column of the results of [f] on the
    rows.  What pandas returns for a table without rows is not modelled. *)
Definition apply_rows (f : row → result scalar) (df : DataFrame) : result Series :=
  match nrows df with
  | O => Raise OutsideModel
  | _ => let? vs := mapR f (iterrows df) in Ok (series_of_scalars vs)
  end.

(** *** The [.dt] accessor *)

Definition dt_dayofyear (s : Series) : result (list Z) :=
  match s with
  | Datetime64 tz ts => Ok (map (fun t => dayofyear (wall tz t)) ts)
  | _ => Raise AttributeError
  end.

Definition dt_hour (s : Series) : result (list Z) :=
  match s with
  | Datetime64 tz ts => Ok (map (fun t => hour (wall tz t)) ts)
  | _ => Raise AttributeError
  end.

(** [s.dt.tz_convert(z)]: the same instants read in another zone. *)
Definition dt_tz_convert (z : tzinfo) (s : Series) : result Series :=
  match s with
  | Datetime64 (Some _) ts => Ok (Datetime64 (Some z) ts)
  | Datetime64 None _ => Raise TypeError
  | _ => Raise AttributeError
  end.

(** [s.dt.tz_localize(None)]: the wall-clock readings, without a zone. *)
Definition dt_tz_localize_None (s : Series) : result Series :=
  match s with
  | Datetime64 tz ts => Ok (Datetime64 None (map (wall tz) ts))
  | _ => Raise AttributeError
  end.

(** *** Resampling *)

(** A timestamp belongs to the bucket labelled [label] when it lies in
    [label, label + w) (closed and labelled on the left). *)
Definition in_bucket (w label t : Z) : bool :=
  ((label <=? t) && (t <? label + w))%Z.

Definition bucket_mean (w : Z) (ts : list Z) (xs : list float64) (label : Z)
  : float64 :=
  nanmean (mask_list (map (in_bucket w label) ts) xs).

(** The labels of the buckets: pandas anchors them at midnight of the
    first day ([origin='start_day']), starts at the bucket holding the
    smallest timestamp and ends with the one holding the largest. *)
Definition bin_labels (tz : option tzinfo) (w : Z) (ts : list Z)
  : result (list Z) :=
  match ts with
  | [] => Ok []
  | t0 :: ts' =>
      let first := foldr Z.min t0 ts' in
      let last := foldr Z.max t0 ts' in
      match normalize_tz tz first with
      | None => Raise OutsideModel
      | Some origin =>
          let foffset := ((first - origin) mod w)%Z in
          let loffset := ((last - origin) mod w)%Z in
          let fresult := (if foffset >? 0 then first - foffset else first)%Z in
          let lresult :=
            (if loffset >? 0 then last + (w - loffset) else last + w)%Z in
          Ok (map (fun i => (fresult + Z.of_nat i * w)%Z)
                  (seq 0 (Z.to_nat ((lresult - fresult) / w))))
      end
  end.

(** The mean of one column per bucket.  The mean of a datetime column is
    not modelled. *)
Definition resample_column (w : Z) (ts labels : list Z) (s : Series)
  : result Series :=
  match s with
  | Datetime64 _ _ => Raise OutsideModel
  | _ => let? xs := floats s in Ok (Float64 (map (bucket_mean w ts xs) labels))
  end.

(** [df.resample(w).mean()] on a table whose row labels are timestamps. *)
Definition resample_mean (w : Z) (df : DataFrame) : result DataFrame :=
  match index df with
  | Datetime64 tz ts =>
      let? labels := bin_labels tz w ts in
      let? cols :=
        mapR (fun '(n, s) =>
                let? m := resample_column w ts labels s in Ok (n, m))
             (columns df) in
      Ok (mkDataFrame (index_name df) (Datetime64 tz labels) cols)
  | _ => Raise TypeError
  end.

(** *** Reductions and masked update *)

(** [np.mean(series)] and [np.std(series)]: numpy hands over to
    [Series.mean()] and [Series.std(ddof=0)].  Reductions of datetime
    columns are not modelled. *)
Definition np_mean (s : Series) : result float64 :=
  match s with
  | Datetime64 _ _ => Raise OutsideModel
  | _ => let? xs := floats s in Ok (nanmean xs)
  end.

Definition np_std (s : Series) : result float64 :=
  match s with
  | Datetime64 _ _ => Raise OutsideModel
  | _ => let? xs := floats s in Ok (nanstd xs)
  end.

Fixpoint mul_where (mask : list bool) (k : float64) (xs : list float64)
  : list float64 :=
  match xs with
  | [] => []
  | x :: xs' =>
      match mask with
      | b :: mask' => (if b then mul x k else x) :: mul_where mask' k xs'
      | [] => xs
      end
  end.

Fixpoint mul_where_obj (mask : list bool) (k : float64) (xs : list scalar)
  : result (list scalar) :=
  match xs with
  | [] => Ok []
  | x :: xs' =>
      match mask with
      | b :: mask' =>
          let? y := (if b then let? v := to_float x in Ok (VFloat (mul v k))
                     else Ok x) in
          let? ys := mul_where_obj mask' k xs' in
          Ok (y :: ys)
      | [] => Ok xs
      end
  end.

(** The column after [df.loc[mask, name] *= k]; an empty selection
    changes nothing. *)
Definition imul_where (mask : list bool) (k : float64) (s : Series)
  : result Series :=
  if forallb negb mask then Ok s
  else
    match s with
    | Float64 xs => Ok (Float64 (mul_where mask k xs))
    | Int64 xs => Ok (Float64 (mul_where mask k (map of_Z xs)))
    | Datetime64 _ _ => Raise TypeError
    | Object xs => let? ys := mul_where_obj mask k xs in Ok (Object ys)
    end.

(** *** The heap of tables *)

Abbreviation Heap := (gmap nat DataFrame).

Definition M (A : Type) : Type := Heap → result A * Heap.

Definition ret {A} (a : A) : M A := fun h => (Ok a, h).

Definition bind {A B} (m : M A) (k : A → M B) : M B :=
  fun h =>
    match m h with
    | (Ok a, h') => k a h'
    | (Raise e, h') => (Raise e, h')
    end.

Notation "x <- m ;; k" := (bind m (fun x => k))
  (at level 100, m at next level, right associativity).
Notation "m ;;; k" := (bind m (fun _ => k))
  (at level 100, right associativity).

Definition lift {A} (r : result A) : M A := fun h => (r, h).

(** An exception leaves the heap as it is at the point of failure. *)
Definition raise {A} (e : exn) : M A := fun h => (Raise e, h).

Definition load (r : nat) : M DataFrame :=
  fun h =>
    match h !! r with
    | Some df => (Ok df, h)
    | None => (Raise OutsideModel, h)
    end.

Definition store (r : nat) (df : DataFrame) : M unit :=
  fun h => (Ok tt, <[r := df]> h).

(** A new object, at a reference no live object has. *)
Definition alloc (df : DataFrame) : M nat :=
  fun h => let r := fresh (dom h) in (Ok r, <[r := df]> h).

Fixpoint forM_ {A} (xs : list A) (f : A → M unit) : M unit :=
  match xs with
  | [] => ret tt
  | x :: xs' => f x ;;; forM_ xs' f
  end.

(** [assert c, msg] *)
Definition assert_ (c : bool) (msg : string) : M unit :=
  if c then ret tt else raise (AssertionError msg).

(** [df[name]], [df[name] = s] and the [inplace=True] methods, on a
    reference. *)
Definition df_getitem (r : nat) (name : string) : M Series :=
  df <- load r ;; lift (getitem df name).

Definition df_setitem (r : nat) (name : string) (s : Series) : M unit :=
  df <- load r ;; store r (setitem df name s).

Definition df_set_index_inplace (r : nat) (name : string) : M unit :=
  df <- load r ;; df' <- lift (set_index df name) ;; store r df'.

Definition df_reset_index_inplace (r : nat) : M unit :=
  df <- load r ;; df' <- lift (reset_index df) ;; store r df'.

Definition df_rename_inplace (r : nat) (old new : string) : M unit :=
  df <- load r ;; store r (rename df old new).

End Pandas.

(** ** The class [Dataformatter] *)

Module Dataformatter.
Import F64 Calendar Pandas.

(** [self.heights]; each height is written as the f-string renders it. *)
Definition heights : gmap string (list string) :=
  <["MET" := ["59.1"; "46"]]> (<["Lidar" := ["46"; "40"]]> ∅).

Section Parser.

(** pandas' reading of a date-time text as nanoseconds since the epoch
    (of the wall clock it spells).  Its grammar is not part of the program
    and is left open. *)
Variable parse_datetime : string → option Z.

(** The UTC instant [pd.to_datetime(..., utc=True)] reads from one cell
    that is not of a datetime column.  Floats (and with them missing
    values) are not modelled. *)
Definition to_instant (v : scalar) : result Z :=
  match v with
  | VStr s =>
      match parse_datetime s with
      | Some t => Ok t
      | None => Raise ValueError
      end
  | VTime _ t => Ok t
  | VInt n => Ok n
  | VFloat _ => Raise OutsideModel
  end.

(** [pd.to_datetime(series, utc=True)]: a datetime column keeps its stored
    values (a naive one is taken to be UTC, an aware one is the same
    instants); other cells are converted one by one. *)
Definition to_datetime_utc (s : Series) : result Series :=
  match s with
  | Datetime64 _ ts => Ok (Datetime64 (Some UTC) ts)
  | _ => let? ts := mapR to_instant (values s) in Ok (Datetime64 (Some UTC) ts)
  end.

(** A text compared with a datetime column is first read as a timestamp of
    the column's zone. *)
Definition coerce_bound (s : Series) (v : scalar) : result scalar :=
  match s, v with
  | Datetime64 tz _, VStr str =>
      match parse_datetime str with
      | None => Raise TypeError
      | Some w =>
          match tz with
          | None => Ok (VTime None w)
          | Some z =>
              match tz_localize z w with
              | Some t => Ok (VTime tz t)
              | None => Raise OutsideModel
              end
          end
      end
  | _, _ => Ok v
  end.

(** [series >= v] and [series <= v] *)
Definition series_ge (s : Series) (v : scalar) : result (list bool) :=
  let? b := coerce_bound s v in
  if comparable s b then mapR (fun a => scalar_le b a) (values s)
  else Raise TypeError.

Definition series_le (s : Series) (v : scalar) : result (list bool) :=
  let? b := coerce_bound s v in
  if comparable s b then mapR (fun a => scalar_le a b) (values s)
  else Raise TypeError.

Definition hourly_format (wind_data : nat) : M nat :=
  ts <- df_getitem wind_data "Timestamp" ;;
  assert_ (is_datetime64_any_dtype ts) "Timestamp is not a datetime object" ;;;
  df_set_index_inplace wind_data "Timestamp" ;;;
  df <- load wind_data ;;
  res <- lift (resample_mean ns_per_hour df) ;;
  hourly_data <- alloc res ;;
  df_reset_index_inplace hourly_data ;;;
  ts <- df_getitem hourly_data "Timestamp" ;;
  ts <- lift (to_datetime_utc ts) ;;
  df_setitem hourly_data "Timestamp" ts ;;;
  ts <- df_getitem hourly_data "Timestamp" ;;
  doy <- lift (dt_dayofyear ts) ;;
  ts <- df_getitem hourly_data "Timestamp" ;;
  hh <- lift (dt_hour ts) ;;
  df_setitem hourly_data "hour"
    (Int64 (zip_with (fun d h => ((d - 1) * 24 + h)%Z) doy hh)) ;;;
  ts <- df_getitem hourly_data "Timestamp" ;;
  ts <- lift (dt_tz_localize_None ts) ;;
  df_setitem hourly_data "Timestamp" ts ;;;
  ret hourly_data.

(** [a + b] and [a / b] on the scalars of a row. *)
Definition py_add (a b : scalar) : result scalar :=
  match a, b with
  | VFloat x, VFloat y => Ok (VFloat (add x y))
  | VFloat x, VInt m => Ok (VFloat (add x (of_Z m)))
  | VInt n, VFloat y => Ok (VFloat (add (of_Z n) y))
  | VInt n, VInt m => Ok (VInt (n + m))
  | VStr s, VStr s' => Ok (VStr (s +:+ s'))
  | _, _ => Raise TypeError
  end.

Definition py_truediv (a b : scalar) : result scalar :=
  let? x := to_float a in
  let? y := to_float b in
  Ok (VFloat (div x y)).

(** [a and b] on comparison results: [b] is evaluated only if [a] holds. *)
Definition py_and (a : result bool) (b : result bool) : result bool :=
  let? x := a in if x then b else Ok false.

Definition adjusted_wind_helper (r : row) (wdir east_col sw_col : string)
  : result scalar :=
  let? northeast :=
    py_and (let? d := row_get r wdir in scalar_le (VInt 30) d)
           (let? d := row_get r wdir in scalar_le d (VInt 60)) in
  if northeast then row_get r east_col
  else
    let? west :=
      py_and (let? d := row_get r wdir in scalar_le (VInt 255) d)
             (let? d := row_get r wdir in scalar_le d (VInt 285)) in
    if west then row_get r sw_col
    else
      let? e := row_get r east_col in
      let? s := row_get r sw_col in
      let? t := py_add e s in
      py_truediv t (VInt 2).

Definition adjust_wind_met (wind_data : nat) : M nat :=
  met <- lift (match heights !! "MET" with
               | Some hs => Ok hs
               | None => Raise (KeyError "MET")
               end) ;;
  forM_ met (fun height =>
    let wdirec := "Dir 57.2m S [°]" in
    let east_col := "Spd " +:+ height +:+ "m E [m/s]" in
    let sw_col := "Spd " +:+ height +:+ "m SW [m/s]" in
    let new_col := "adjusted_wind_speed_" +:+ height in
    df <- load wind_data ;;
    col <- lift (apply_rows
                   (fun row => adjusted_wind_helper row wdirec east_col sw_col)
                   df) ;;
    df_setitem wind_data new_col col) ;;;
  pres <- df_getitem wind_data "Pres 2m [hPa]" ;;
  pres <- lift (series_truediv_scalar pres (of_Z 10)) ;;
  df_setitem wind_data "Pres 2m [hPa]" pres ;;;
  ret wind_data.

Definition format_era5 (wind_data : nat) : M nat :=
  col <- df_getitem wind_data "Date/time [UTC]" ;;
  col <- lift (to_datetime_utc col) ;;
  df_setitem wind_data "Date/time [UTC]" col ;;;
  col <- df_getitem wind_data "Date/time [UTC]" ;;
  col <- lift (dt_tz_convert US_Mountain col) ;;
  df_setitem wind_data "Date/time [UTC]" col ;;;
  col <- df_getitem wind_data "Date/time [UTC]" ;;
  doy <- lift (dt_dayofyear col) ;;
  col <- df_getitem wind_data "Date/time [UTC]" ;;
  hh <- lift (dt_hour col) ;;
  df_setitem wind_data "hour"
    (Int64 (zip_with (fun d h => ((d - 1) * 24 + h)%Z) doy hh)) ;;;
  col <- df_getitem wind_data "Date/time [UTC]" ;;
  mask <- lift (series_ge col (VStr "2000-01-01 00:00:00")) ;;
  df <- load wind_data ;;
  formatted_data <- alloc (loc_mask df mask) ;;
  col <- df_getitem formatted_data "Date/time [UTC]" ;;
  col <- lift (dt_tz_localize_None col) ;;
  df_setitem formatted_data "Date/time [UTC]" col ;;;
  df_rename_inplace formatted_data "Date/time [UTC]" "Timestamp" ;;;
  ret formatted_data.

Definition concurrent_data (wind_data : nat) (start_date end_date : scalar)
  : M nat :=
  col <- df_getitem wind_data "Timestamp" ;;
  ge <- lift (series_ge col start_date) ;;
  col <- df_getitem wind_data "Timestamp" ;;
  le <- lift (series_le col end_date) ;;
  let mask := zip_with andb ge le in
  df <- load wind_data ;;
  truncated_data <- alloc (loc_mask df mask) ;;
  ret truncated_data.

Definition wind_shear (lidar_data : nat) : M nat :=
  wsp_1 <- df_getitem lidar_data "Spd 102m [m/s]" ;;
  wsp_0 <- df_getitem lidar_data "Spd 46m [m/s]" ;;
  ratio <- lift (series_truediv wsp_1 wsp_0) ;;
  num <- lift (np_log ratio) ;;
  shear <- lift (series_truediv_scalar num (log (div (of_Z 102) (of_Z 46)))) ;;
  df_setitem lidar_data "shear" shear ;;;
  df <- load lidar_data ;;
  out <- lift (getitem_list df ["Timestamp"; "shear"]) ;;
  alloc out.

Definition hour3_format (wind_data : nat) : M nat :=
  ts <- df_getitem wind_data "Timestamp" ;;
  assert_ (is_datetime64_any_dtype ts) "Timestamp is not a datetime object" ;;;
  df_set_index_inplace wind_data "Timestamp" ;;;
  df <- load wind_data ;;
  res <- lift (resample_mean (6 * ns_per_hour) df) ;;
  hour3_data <- alloc res ;;
  df_reset_index_inplace hour3_data ;;;
  ret hour3_data.

Definition scale_training_data (wind_data : nat) (scale_up scale_mid : float64)
  : M nat :=
  col <- df_getitem wind_data "adjusted_wind_speed_59.1" ;;
  mean <- lift (np_mean col) ;;
  col <- df_getitem wind_data "adjusted_wind_speed_59.1" ;;
  std <- lift (np_std col) ;;
  let high_threshold := add mean std in
  let mid_threshold := sub mean std in
  df <- load wind_data ;;
  scaled_data <- alloc df ;;
  col <- df_getitem wind_data "adjusted_wind_speed_59.1" ;;
  high_ix <- lift (series_gt col (VFloat high_threshold)) ;;
  col <- df_getitem wind_data "adjusted_wind_speed_59.1" ;;
  mid_ix <- lift (series_lt col (VFloat mid_threshold)) ;;
  col <- df_getitem scaled_data "adjusted_wind_speed_59.1" ;;
  col <- lift (imul_where high_ix scale_up col) ;;
  df_setitem scaled_data "adjusted_wind_speed_59.1" col ;;;
  col <- df_getitem scaled_data "adjusted_wind_speed_59.1" ;;
  col <- lift (imul_where mid_ix scale_mid col) ;;
  df_setitem scaled_data "adjusted_wind_speed_59.1" col ;;;
  ret scaled_data.

(** The default [scale_mid=1]. *)
Definition scale_mid_default : float64 := of_Z 1.

End Parser.

End Dataformatter.

(** ** Sample tables *)

Module Samples.
Import F64 Calendar Pandas Dataformatter.

(** A table whose timestamps were left as text by the reader. *)
Definition text_table : DataFrame :=
  mkDataFrame None (RangeIndex 2)
    [("Timestamp", Object [VStr "2021-01-02 03:10:00"; VStr "2021-01-02 03:20:00"]);
     ("Spd 59.1m E [m/s]", Float64 [Fin 5; Fin 6])].

(** Four rows of a MET table: directions in the north-easterly sector, in
    the westerly sector, and outside both. *)
Definition met_table : DataFrame :=
  mkDataFrame None (RangeIndex 4)
    [("Dir 57.2m S [°]", Float64 [Fin 45; Fin 270; Fin 0; Fin 170]);
     ("Spd 59.1m E [m/s]", Float64 [Fin 5; Fin 6; Fin 7; Fin 8]);
     ("Spd 59.1m SW [m/s]", Float64 [Fin 9; Fin 4; Fin 3; Fin 2]);
     ("Spd 46m E [m/s]", Float64 [Fin 4; Fin 5; Fin 6; Fin 7]);
     ("Spd 46m SW [m/s]", Float64 [Fin 8; Fin 3; Fin 2; Fin 1]);
     ("Pres 2m [hPa]", Float64 [Fin 1013; Fin 1012; Fin 1011; Fin 1010])].

(** Three hourly rows around the turn of the year 2000. *)
Definition hourly_table : DataFrame :=
  mkDataFrame None (RangeIndex 3)
    [("Timestamp",
      Datetime64 None [datetime 1999 12 31 23 0 0; datetime 2000 1 1 0 0 0;
                       datetime 2000 1 1 1 0 0]);
     ("adjusted_wind_speed_59.1", Float64 [Fin 3; Fin 4; Fin 11])].

(** Two lidar rows: ordinary readings, and readings that are both
    negative. *)
Definition lidar_table : DataFrame :=
  mkDataFrame None (RangeIndex 2)
    [("Timestamp",
      Datetime64 None [datetime 2021 1 2 3 0 0; datetime 2021 1 2 4 0 0]);
     ("Spd 102m [m/s]", Float64 [Fin 10; Fin (-10)]);
     ("Spd 46m [m/s]", Float64 [Fin 8; Fin (-8)])].

(** Three rows of a reanalysis table, in UTC: 23:00 and 00:00 Mountain
    time at the turn of the year 2000, and a summer row. *)
Definition era5_table : DataFrame :=
  mkDataFrame None (RangeIndex 3)
    [("Date/time [UTC]",
      Datetime64 None [datetime 2000 1 1 6 0 0; datetime 2000 1 1 7 0 0;
                       datetime 2000 7 1 12 0 0]);
     ("Wind speed [m/s]", Float64 [Fin 3; Fin 4; Fin 5])].

(** Ten-minute readings over three hours, none of them between 04:00 and
    05:00, one reading missing. *)
Definition ten_minute_table : DataFrame :=
  mkDataFrame None (RangeIndex 4)
    [("Timestamp",
      Datetime64 None [datetime 2021 1 2 3 10 0; datetime 2021 1 2 3 20 0;
                       datetime 2021 1 2 5 0 0; datetime 2021 1 2 5 59 59]);
     ("Spd 59.1m E [m/s]", Float64 [Fin 1; Fin 2; NaN; Fin 4])].

(** Two rows of a MET table that carries no pressure column. *)
Definition met_table_without_pressure : DataFrame :=
  mkDataFrame None (RangeIndex 2)
    [("Dir 57.2m S [°]", Float64 [Fin 45; Fin 170]);
     ("Spd 59.1m E [m/s]", Float64 [Fin 5; Fin 8]);
     ("Spd 59.1m SW [m/s]", Float64 [Fin 9; Fin 2]);
     ("Spd 46m E [m/s]", Float64 [Fin 4; Fin 7]);
     ("Spd 46m SW [m/s]", Float64 [Fin 8; Fin 1])].

(** Lidar speeds without their timestamps: faster aloft, and slower
    aloft. *)
Definition lidar_speeds_table : DataFrame :=
  mkDataFrame None (RangeIndex 2)
    [("Spd 102m [m/s]", Float64 [Fin 10; Fin 6]);
     ("Spd 46m [m/s]", Float64 [Fin 8; Fin 7])].

(** A training table of a single reading. *)
Definition single_reading_table : DataFrame :=
  mkDataFrame None (RangeIndex 1)
    [("Timestamp", Datetime64 None [datetime 2021 1 2 3 0 0]);
     ("adjusted_wind_speed_59.1", Float64 [Fin 7])].

(** A reanalysis table read as text, one of whose cells is no date. *)
Definition era5_text_table : DataFrame :=
  mkDataFrame None (RangeIndex 2)
    [("Date/time [UTC]", Object [VStr "2000-01-01 06:00:00"; VStr "n/a"]);
     ("Wind speed [m/s]", Float64 [Fin 3; Fin 4])].

(** Readings stamped in US/Mountain time; the stored instants are
    03:00, 03:20 and 05:00 UTC on 2 January 2021, which the Mountain wall
    clock reads as 20:00, 20:20 and 22:00 on 1 January. *)
Definition mountain_table : DataFrame :=
  mkDataFrame None (RangeIndex 3)
    [("Timestamp",
      Datetime64 (Some US_Mountain)
        [datetime 2021 1 2 3 0 0; datetime 2021 1 2 3 20 0;
         datetime 2021 1 2 5 0 0]);
     ("Spd 59.1m E [m/s]", Float64 [Fin 1; Fin 2; Fin 4])].



End Samples.

(** ** The rules as the specification words them *)

Module Spec.
Import F64 Calendar Pandas.

(** The directional fusion rule of the specification: the east reading in
    the sector [30, 60], the southwest reading in [255, 285], the mean of
    the two otherwise. *)
Definition directional_fusion (d e s : float64) : float64 :=
  if geb d (of_Z 30) && leb d (of_Z 60) then e
  else if geb d (of_Z 255) && leb d (of_Z 285) then s
  else div (add e s) (of_Z 2).

(** Column [cs] is the fusion, row by row, of the direction column [ds]
    with the east and southwest columns [es] and [ss]. *)
Definition fused (ds es ss cs : list float64) : Prop :=
  length cs = length ds ∧
  ∀ i d e s,
    ds !! i = Some d → es !! i = Some e → ss !! i = Some s →
    ∃ v, cs !! i = Some v
       ∧ (geb d (of_Z 30) && leb d (of_Z 60) = true → v = e)
       ∧ (geb d (of_Z 30) && leb d (of_Z 60) = false →
          geb d (of_Z 255) && leb d (of_Z 285) = true → v = s)
       ∧ (geb d (of_Z 30) && leb d (of_Z 60) = false →
          geb d (of_Z 255) && leb d (of_Z 285) = false →
          v = div (add e s) (of_Z 2)).




(** The table [format_era5] leaves behind in the caller's hands, and the
    table it returns, for a column of instants [ts]. *)
Definition era5_caller (df : DataFrame) (ts : list Z) : DataFrame :=
  setitem (setitem df "Date/time [UTC]" (Datetime64 (Some US_Mountain) ts))
    "hour"
    (Int64 (map (fun t => hour_of_year (wall (Some US_Mountain) t)) ts)).

Definition era5_result (df : DataFrame) (ts : list Z) : DataFrame :=
  let keep := fun t => (datetime 2000 1 1 0 0 0 <=? wall (Some US_Mountain) t)%Z in
  rename
    (setitem (loc_mask (era5_caller df ts) (map keep ts)) "Date/time [UTC]"
       (Datetime64 None (map (wall (Some US_Mountain)) (List.filter keep ts))))
    "Date/time [UTC]" "Timestamp".

Local Open Scope Z_scope.

(** The numeric reading of a numeric column. *)
Definition float_values (s : Series) : list float64 :=
  match floats s with
  | Ok xs => xs
  | Raise _ => []
  end.

(** The bucket labels in closed form: from the bucket of the smallest
    timestamp to the bucket of the largest, every [w] nanoseconds, each a
    multiple of [w] since the epoch. *)
Definition bucket_starts (w : Z) (ts : list Z) : list Z :=
  match ts with
  | [] => []
  | t0 :: ts' =>
      let first := foldr Z.min t0 ts' in
      let last := foldr Z.max t0 ts' in
      let start := first - first mod w in
      map (fun i => start + Z.of_nat i * w)
          (seq 0 (Z.to_nat ((last - last mod w - start) / w + 1)))
  end.

(** The columns of per-bucket means. *)
Definition resampled_columns (w : Z) (ts : list Z) (rest : list (string * Series))
  : list (string * Series) :=
  map (fun '(n, s) =>
         (n, Float64 (map (bucket_mean w ts (float_values s)) (bucket_starts w ts))))
      rest.

(** [labels] are buckets of width [w] on absolute clock boundaries:
    each a multiple of [w], consecutive ones [w] apart, and every
    timestamp in the bucket of one of them. *)
Definition clock_buckets (w : Z) (ts labels : list Z) : Prop :=
  (∀ i b, labels !! i = Some b →
          b mod w = 0 ∧ ∀ b', labels !! S i = Some b' → b' = b + w)
  ∧ (∀ t, In t ts → ∃ i b, labels !! i = Some b ∧ b <= t < b + w)
  ∧ (ts = [] → labels = []).



(** The columns of per-bucket means for given labels. *)
Definition resampled_at (w : Z) (ts labels : list Z) (rest : list (string * Series))
  : list (string * Series) :=
  map (fun '(n, s) =>
         (n, Float64 (map (bucket_mean w ts (float_values s)) labels)))
      rest.

(** What the resampling operations leave in the caller's hands (the
    timestamps moved to the row labels) and the tables they return. *)
Definition indexed_caller (df : DataFrame) (ts : list Z) : DataFrame :=
  mkDataFrame (Some "Timestamp"%string) (Datetime64 None ts)
    (drop_col "Timestamp" (columns df)).

Definition hour3_result (df : DataFrame) (ts : list Z) : DataFrame :=
  let w := 6 * ns_per_hour in
  mkDataFrame None (RangeIndex (length (bucket_starts w ts)))
    (("Timestamp"%string, Datetime64 None (bucket_starts w ts))
       :: resampled_columns w ts (drop_col "Timestamp" (columns df))).

Definition hourly_result (df : DataFrame) (ts : list Z) : DataFrame :=
  let w := ns_per_hour in
  mkDataFrame None (RangeIndex (length (bucket_starts w ts)))
    (("Timestamp"%string, Datetime64 None (bucket_starts w ts))
       :: assign_col "hour" (Int64 (map hour_of_year (bucket_starts w ts)))
            (resampled_columns w ts (drop_col "Timestamp" (columns df)))).

End Spec.

(** * Properties *)

Import F64 Calendar Pandas Dataformatter.

(** Settle the comparisons of real constants in the goal. *)
Ltac decide_reals :=
  repeat match goal with
  | |- context [Rle_dec ?a ?b] =>
      destruct (Rle_dec a b); try (exfalso; lra); cbn [andb rbind]
  | |- context [Rlt_dec ?a ?b] =>
      destruct (Rlt_dec a b); try (exfalso; lra); cbn [andb rbind]
  | |- context [Req_dec_T ?a ?b] =>
      destruct (Req_dec_T a b); try (exfalso; lra); cbn [andb rbind]
  end.

(** Evaluate float64 operations on finite arguments, settling the
    comparisons that decide their cases. *)
Ltac f64_eval :=
  unfold of_Z;
  repeat (progress
            (cbn [div log mul add sub neg leb ltb geb gtb sqrt isfinite isnan];
             unfold Reqb, Rltb, Rleb, inf_signed; decide_reals)).

(** ** Facts about float64 *)

Lemma ltb_irrefl x : ltb x x = false.
Proof. destruct x; simpl; try reflexivity. unfold Rltb. now decide_reals. Qed.

Lemma ltb_trans x y z : ltb x y = true → ltb y z = true → ltb x z = true.
Proof.
  destruct x, y, z; simpl; try congruence. unfold Rltb.
  destruct (Rlt_dec r r0), (Rlt_dec r0 r1); try congruence.
  intros _ _. now decide_reals.
Qed.

Lemma sqrt_nonneg v : nonneg (sqrt v).
Proof.
  destruct v; simpl; try exact I. unfold Rltb.
  destruct (Rlt_dec r 0); simpl; [exact I|apply sqrt_pos].
Qed.

Lemma nanstd_nonneg xs : nonneg (nanstd xs).
Proof. apply sqrt_nonneg. Qed.

Lemma thresholds_ordered m s : nonneg s → ltb (add m s) (sub m s) = false.
Proof.
  destruct m, s; simpl; try reflexivity; try contradiction.
  intros H. unfold Rltb. now decide_reals.
Qed.

(** No value is above the high threshold and below the low one. *)
Lemma thresholds_disjoint m s x :
  nonneg s → ltb (add m s) x = true → ltb x (sub m s) = false.
Proof.
  intros N H. destruct (ltb x (sub m s)) eqn:E; [|reflexivity].
  rewrite <- (thresholds_ordered m s N). symmetry. eapply ltb_trans; eauto.
Qed.

Lemma mul_one x : mul x (of_Z 1) = x.
Proof.
  destruct x; simpl; try reflexivity.
  - f_equal. lra.
  - unfold inf_signed, Rltb. now decide_reals.
  - unfold inf_signed, Rltb. now decide_reals.
Qed.





Lemma div_finite a b : b ≠ 0%R → div (Fin a) (Fin b) = Fin (a / b).
Proof. intros H. simpl. unfold Reqb. now destruct (Req_dec_T b 0). Qed.





(** ** Running the heap monad *)

Lemma bind_ok {A B} (m : M A) (k : A → M B) h a h' :
  m h = (Ok a, h') → bind m k h = k a h'.
Proof. intros E. unfold bind. now rewrite E. Qed.

Lemma bind_raise {A B} (m : M A) (k : A → M B) h e h' :
  m h = (Raise e, h') → bind m k h = (Raise e, h').
Proof. intros E. unfold bind. now rewrite E. Qed.

Lemma load_ok (h : gmap nat DataFrame) r df :
  h !! r = Some df → load r h = (Ok df, h).
Proof. intros E. unfold load. now rewrite E. Qed.

Lemma df_getitem_run (h : gmap nat DataFrame) r df name :
  h !! r = Some df → df_getitem r name h = (getitem df name, h).
Proof.
  intros E. unfold df_getitem. rewrite (bind_ok _ _ _ _ _ (load_ok _ _ _ E)).
  reflexivity.
Qed.

Lemma df_getitem_ok (h : gmap nat DataFrame) r df name s :
  h !! r = Some df → getitem df name = Ok s →
  df_getitem r name h = (Ok s, h).
Proof. intros E G. rewrite (df_getitem_run _ _ _ _ E). now rewrite G. Qed.

Lemma bind_lift_ok {A B} (x : result A) (k : A → M B) h a :
  x = Ok a → bind (lift x) k h = k a h.
Proof. now intros ->. Qed.

Lemma df_setitem_run (h : gmap nat DataFrame) r df name s :
  h !! r = Some df →
  df_setitem r name s h = (Ok tt, <[r := setitem df name s]> h).
Proof.
  intros E. unfold df_setitem. rewrite (bind_ok _ _ _ _ _ (load_ok _ _ _ E)).
  reflexivity.
Qed.

Lemma fresh_not_live (h : gmap nat DataFrame) : h !! fresh (dom h) = None.
Proof. apply not_elem_of_dom. apply is_fresh. Qed.

Lemma insert_fresh_keeps (h : gmap nat DataFrame) l d x :
  h !! l = Some d → <[fresh (dom h) := x]> h !! l = Some d.
Proof.
  intros E. rewrite lookup_insert_ne; [exact E|].
  intros Heq. rewrite <- Heq, fresh_not_live in E. discriminate.
Qed.

(** A computation that only allocates, and writes only to what it
    allocated, leaves every table of the initial heap as it was.  The
    tactic runs the computation step by step, following both outcomes of
    every step. *)
Ltac case_innermost :=
  match goal with
  | |- context [match ?x with _ => _ end] =>
      lazymatch x with
      | context [match _ with _ => _ end] => fail
      | _ => destruct x eqn:?
      end
  end.

Ltac run_all_outcomes :=
  cbv beta iota zeta delta [bind df_getitem df_setitem df_rename_inplace
                             load store alloc lift ret raise];
  repeat (case_innermost; cbv beta iota zeta).

Ltac tidy_lookups :=
  repeat match goal with
         | H : <[?f := _]> _ !! ?f = Some _ |- _ => rewrite lookup_insert_eq in H
         | H : Some _ = Some _ |- _ => injection H as H; try subst
         | H : Ok _ = Ok _ |- _ => injection H as H; try subst
         end.

Ltac keeps_initial H :=
  cbn [snd];
  repeat (rewrite lookup_insert_ne;
          [|let X := fresh in
            intros X; rewrite <- X, fresh_not_live in H; discriminate]);
  exact H.

Lemma lookup_insert_fresh_other (H Y : gmap nat DataFrame) r d x :
  H !! r = Some d → <[fresh (dom H) := x]> Y !! r = Y !! r.
Proof.
  intros E. apply lookup_insert_ne. intros F.
  rewrite <- F, fresh_not_live in E. discriminate.
Qed.

Lemma scale_training_data_keeps (h : gmap nat DataFrame) r up mid l d :
  h !! l = Some d →
  snd (scale_training_data r up mid h) !! l = Some d.
Proof.
  intros H. unfold scale_training_data. run_all_outcomes; keeps_initial H.
Qed.

Lemma concurrent_data_keeps
    (parse : string → option Z) (h : gmap nat DataFrame) r a b l d :
  h !! l = Some d →
  snd (concurrent_data parse r a b h) !! l = Some d.
Proof.
  intros H. unfold concurrent_data. run_all_outcomes; keeps_initial H.
Qed.

(** ** Columns by name *)

Lemma lookup_assign_same {A} k (v : A) l :
  lookup_col k (assign_col k v l) = Some v.
Proof.
  induction l as [|[k' v'] l IH]; simpl.
  - now rewrite String.eqb_refl.
  - destruct (String.eqb k k') eqn:E; simpl.
    + now rewrite String.eqb_refl.
    + now rewrite E.
Qed.

Lemma lookup_assign_other {A} k k0 (v : A) l :
  String.eqb k0 k = false →
  lookup_col k0 (assign_col k v l) = lookup_col k0 l.
Proof.
  intros N. induction l as [|[k' v'] l IH]; simpl.
  - now rewrite N.
  - destruct (String.eqb k k') eqn:E; simpl.
    + apply String.eqb_eq in E. subst k'. now rewrite N.
    + now rewrite IH.
Qed.

Lemma assign_same_value {A} k (v : A) l :
  lookup_col k l = Some v → assign_col k v l = l.
Proof.
  induction l as [|[k' v'] l IH]; simpl; [discriminate|].
  destruct (String.eqb k k') eqn:E.
  - apply String.eqb_eq in E. subst k'. now intros [= ->].
  - intros G. now rewrite IH.
Qed.

Lemma assign_names {A} k (v : A) l :
  lookup_col k l ≠ None → map fst (assign_col k v l) = map fst l.
Proof.
  induction l as [|[k' v'] l IH]; simpl; [congruence|].
  destruct (String.eqb k k') eqn:E; simpl.
  - apply String.eqb_eq in E. now subst k'.
  - intros G. now rewrite IH.
Qed.

Lemma getitem_setitem_same df k s : getitem (setitem df k s) k = Ok s.
Proof. unfold getitem, setitem. simpl. now rewrite lookup_assign_same. Qed.

Lemma getitem_setitem_other df k k0 s :
  String.eqb k0 k = false → getitem (setitem df k s) k0 = getitem df k0.
Proof.
  intros N. unfold getitem, setitem. simpl. now rewrite lookup_assign_other.
Qed.

Lemma getitem_lookup df k s :
  getitem df k = Ok s ↔ lookup_col k (columns df) = Some s.
Proof.
  unfold getitem. destruct (lookup_col k (columns df)); split; congruence.
Qed.

(** ** Rows and row-wise application *)

Lemma row_get_at df i name s v :
  lookup_col name (columns df) = Some s →
  values s !! i = Some v →
  row_get (row_at df i) name = Ok (row_cell (upcasts df) v).
Proof.
  unfold row_get, row_at. generalize (upcasts df) as up. intros up.
  induction (columns df) as [|[k' s'] l IH]; simpl; [discriminate|].
  destruct (String.eqb name k') eqn:E.
  - intros [= ->] V. rewrite V. simpl. now rewrite E.
  - intros G V. specialize (IH G V).
    destruct (values s' !! i); simpl; [now rewrite E|exact IH].
Qed.

Lemma mapR_map {A B C} (f : B → result C) (g : A → B) l :
  mapR f (map g l) = mapR (fun x => f (g x)) l.
Proof. induction l as [|x l IH]; simpl; [reflexivity|now rewrite IH]. Qed.

Lemma mapR_ok_seq {A} (f : nat → result A) (g : nat → A) n start :
  (∀ i, start ≤ i < start + n → f i = Ok (g i)) →
  mapR f (seq start n) = Ok (map g (seq start n)).
Proof.
  revert start. induction n as [|n IH]; intros start H; simpl; [reflexivity|].
  rewrite H by lia. simpl. rewrite IH; [reflexivity|].
  intros i Hi. apply H. lia.
Qed.

Lemma as_floats_VFloat xs : as_floats (map VFloat xs) = Some xs.
Proof.
  unfold as_floats. induction xs as [|x xs IH]; simpl; [reflexivity|].
  fold (as_floats (map VFloat xs)) in *. unfold as_floats in *.
  now rewrite IH.
Qed.

Lemma series_of_floats x xs :
  series_of_scalars (map VFloat (x :: xs)) = Float64 (x :: xs).
Proof.
  unfold series_of_scalars. rewrite as_floats_VFloat. reflexivity.
Qed.

(** The helper on a row whose three readings are floats. *)
Lemma adjusted_wind_helper_floats r wdir east_col sw_col d e s :
  row_get r wdir = Ok (VFloat d) →
  row_get r east_col = Ok (VFloat e) →
  row_get r sw_col = Ok (VFloat s) →
  adjusted_wind_helper r wdir east_col sw_col
    = Ok (VFloat (Spec.directional_fusion d e s)).
Proof.
  intros D E S. unfold adjusted_wind_helper, Spec.directional_fusion, py_and.
  unfold geb. rewrite D, E, S.
  cbn [rbind scalar_le py_add py_truediv to_float].
  destruct (leb (of_Z 30) d); cbn [rbind andb].
  - destruct (leb d (of_Z 60)); cbn [rbind]; [reflexivity|].
    destruct (leb (of_Z 255) d); cbn [rbind andb]; [|reflexivity].
    destruct (leb d (of_Z 285)); reflexivity.
  - destruct (leb (of_Z 255) d); cbn [rbind andb]; [|reflexivity].
    destruct (leb d (of_Z 285)); reflexivity.
Qed.

Lemma lookup_values_float xs i :
  values (Float64 xs) !! i = VFloat <$> xs !! i.
Proof. simpl. apply list_lookup_fmap. Qed.

(** The column [apply] builds from float readings. *)
Lemma apply_rows_fusion df wdir east_col sw_col ds es ss :
  nrows df ≠ 0 →
  getitem df wdir = Ok (Float64 ds) →
  getitem df east_col = Ok (Float64 es) →
  getitem df sw_col = Ok (Float64 ss) →
  length ds = nrows df → length es = nrows df → length ss = nrows df →
  ∃ cs,
    apply_rows (fun row => adjusted_wind_helper row wdir east_col sw_col) df
      = Ok (Float64 cs)
    ∧ Spec.fused ds es ss cs.
Proof.
  intros N HD HE HS Ld Le Ls.
  apply getitem_lookup in HD, HE, HS.
  set (g := fun i => Spec.directional_fusion
                       (nth i ds NaN) (nth i es NaN) (nth i ss NaN)).
  exists (map g (seq 0 (nrows df))). split.
  - unfold apply_rows, iterrows. destruct (nrows df) as [|n] eqn:En; [easy|].
    rewrite mapR_map.
    rewrite (mapR_ok_seq _ (fun i => VFloat (g i))).
    + simpl rbind. rewrite <- (map_map g VFloat).
      change (map g (seq 0 (S n))) with (g 0 :: map g (seq 1 n)).
      now rewrite <- series_of_floats.
    + intros i Hi.
      destruct (lookup_lt_is_Some_2 ds i) as [d Hd]; [lia|].
      destruct (lookup_lt_is_Some_2 es i) as [e He]; [lia|].
      destruct (lookup_lt_is_Some_2 ss i) as [s Hs]; [lia|].
      unfold g. rewrite (nth_lookup_Some _ _ _ _ Hd),
        (nth_lookup_Some _ _ _ _ He), (nth_lookup_Some _ _ _ _ Hs).
      apply adjusted_wind_helper_floats.
      * apply (row_get_at _ _ _ _ (VFloat d) HD).
        rewrite lookup_values_float, Hd. reflexivity.
      * apply (row_get_at _ _ _ _ (VFloat e) HE).
        rewrite lookup_values_float, He. reflexivity.
      * apply (row_get_at _ _ _ _ (VFloat s) HS).
        rewrite lookup_values_float, Hs. reflexivity.
  - split; [now rewrite length_map, length_seq|].
    intros i d e s Hd He Hs.
    assert (Hi : i < nrows df) by (rewrite <- Ld; eapply lookup_lt_Some; eauto).
    exists (g i). split.
    + rewrite list_lookup_fmap, lookup_seq_lt by exact Hi. reflexivity.
    + unfold g. rewrite (nth_lookup_Some _ _ _ _ Hd),
        (nth_lookup_Some _ _ _ _ He), (nth_lookup_Some _ _ _ _ Hs).
      unfold Spec.directional_fusion.
      repeat split; intros; repeat match goal with
        | H : _ = _ |- _ => rewrite H end; reflexivity.
Qed.

Lemma wf_getitem df k s :
  wf_frame df → getitem df k = Ok s → series_len s = nrows df.
Proof.
  unfold wf_frame. intros W G. apply getitem_lookup in G.
  induction (columns df) as [|[k' s'] l IH]; simpl in G; [discriminate|].
  inversion W as [|? ? Hc Hl]; subst.
  destruct (String.eqb k k'); [now injection G as <-|auto].
Qed.

Lemma heights_MET : heights !! "MET" = Some ["59.1"; "46"].
Proof. reflexivity. Qed.

(** One turn of the loop of [adjust_wind_met]. *)
Lemma adjust_height_run (h : gmap nat DataFrame) r df height ds es ss :
  h !! r = Some df →
  nrows df ≠ 0 →
  getitem df "Dir 57.2m S [°]" = Ok (Float64 ds) →
  getitem df ("Spd " +:+ height +:+ "m E [m/s]") = Ok (Float64 es) →
  getitem df ("Spd " +:+ height +:+ "m SW [m/s]") = Ok (Float64 ss) →
  length ds = nrows df → length es = nrows df → length ss = nrows df →
  ∃ cs,
    (df <- load r ;;
     col <- lift (apply_rows
                    (fun row => adjusted_wind_helper row "Dir 57.2m S [°]"
                                  ("Spd " +:+ height +:+ "m E [m/s]")
                                  ("Spd " +:+ height +:+ "m SW [m/s]")) df) ;;
     df_setitem r ("adjusted_wind_speed_" +:+ height) col) h
    = (Ok tt,
       <[r := setitem df ("adjusted_wind_speed_" +:+ height) (Float64 cs)]> h)
    ∧ Spec.fused ds es ss cs.
Proof.
  intros Hr N HD HE HS Ld Le Ls.
  destruct (apply_rows_fusion df _ _ _ ds es ss N HD HE HS Ld Le Ls)
    as (cs & Happ & Hf).
  exists cs. split; [|exact Hf].
  rewrite (bind_ok _ _ _ _ _ (load_ok _ _ _ Hr)).
  unfold lift at 1. unfold bind at 1. rewrite Happ.
  now apply df_setitem_run.
Qed.

(** ** The directional fusion rule *)



(** ** Boolean masks *)

Lemma mask_list_map {A B} (f : A → B) mask xs :
  mask_list mask (map f xs) = map f (mask_list mask xs).
Proof.
  revert xs. induction mask as [|b mask IH]; intros [|x xs]; simpl; try reflexivity.
  destruct b; simpl; now rewrite IH.
Qed.

Lemma mask_list_zip {A} (p : Z → bool) ts (xs : list A) :
  mask_list (map p ts) xs
  = map snd (List.filter (fun q => p (fst q)) (zip ts xs)).
Proof.
  revert xs. induction ts as [|t ts IH]; intros [|x xs]; simpl; try reflexivity.
  destruct (p t); simpl; now rewrite IH.
Qed.

Lemma mask_list_filter (p : Z → bool) ts :
  mask_list (map p ts) ts = List.filter p ts.
Proof.
  induction ts as [|t ts IH]; simpl; [reflexivity|].
  destruct (p t); now rewrite IH.
Qed.

Lemma values_mask_series mask s :
  values (mask_series mask s) = mask_list mask (values s).
Proof. destruct s; simpl; now rewrite ?mask_list_map. Qed.

Lemma getitem_loc_mask df mask name s :
  getitem df name = Ok s →
  getitem (loc_mask df mask) name = Ok (mask_series mask s).
Proof.
  rewrite !getitem_lookup. unfold loc_mask. simpl.
  induction (columns df) as [|[k' s'] l IH]; simpl; [discriminate|].
  destruct (String.eqb name k'); [now intros [= ->]|exact IH].
Qed.

Lemma loc_mask_names df mask :
  map fst (columns (loc_mask df mask)) = map fst (columns df).
Proof.
  unfold loc_mask. simpl. induction (columns df) as [|[k s] l IH]; simpl;
    [reflexivity|now rewrite IH].
Qed.

Lemma zip_with_andb_map {A} (p q : A → bool) xs :
  zip_with andb (map p xs) (map q xs) = map (fun x => p x && q x) xs.
Proof. induction xs as [|x xs IH]; simpl; [reflexivity|now rewrite IH]. Qed.

Lemma mapR_ok_map {A B} (f : A → result B) (g : A → B) xs :
  (∀ x, f x = Ok (g x)) → mapR f xs = Ok (map g xs).
Proof.
  intros H. induction xs as [|x xs IH]; simpl; [reflexivity|].
  now rewrite H, IH.
Qed.

(** ** Masked multiplication *)

Lemma mul_where_length mask k xs : length (mul_where mask k xs) = length xs.
Proof.
  revert mask. induction xs as [|x xs IH]; intros [|b mask]; simpl; auto.
Qed.

Lemma mul_where_lookup
    (mask : list bool) k (xs : list float64) i (b : bool) (x : float64) :
  mask !! i = Some b → xs !! i = Some x →
  mul_where mask k xs !! i = Some (if b then mul x k else x).
Proof.
  revert mask i. induction xs as [|x0 xs IH]; intros [|b0 mask] [|i]; simpl;
    try discriminate.
  - now intros [= ->] [= ->].
  - apply IH.
Qed.

Lemma mul_where_none mask k xs :
  forallb negb mask = true → mul_where mask k xs = xs.
Proof.
  revert mask. induction xs as [|x xs IH]; intros [|b mask]; simpl; auto.
  destruct b; simpl; [discriminate|]. intros H. now rewrite IH.
Qed.

Lemma imul_where_float mask k xs :
  imul_where mask k (Float64 xs) = Ok (Float64 (mul_where mask k xs)).
Proof.
  unfold imul_where. destruct (forallb negb mask) eqn:E; [|reflexivity].
  now rewrite mul_where_none.
Qed.

Lemma assign_twice {A} k (v w : A) l :
  assign_col k w (assign_col k v l) = assign_col k w l.
Proof.
  induction l as [|[k' v'] l IH]; simpl.
  - now rewrite String.eqb_refl.
  - destruct (String.eqb k k') eqn:E; simpl.
    + now rewrite String.eqb_refl.
    + now rewrite E, IH.
Qed.

Lemma setitem_twice df k s s' :
  setitem (setitem df k s) k s' = setitem df k s'.
Proof. unfold setitem. simpl. now rewrite assign_twice. Qed.

(** ** The label rescaler *)

(** The run of [scale_training_data] on a float64 column: a new table is
    allocated and only its wind-speed column is rewritten. *)
Lemma scale_training_data_run
    (h : gmap nat DataFrame) r df xs scale_up scale_mid :
  h !! r = Some df →
  getitem df "adjusted_wind_speed_59.1" = Ok (Float64 xs) →
  let high_threshold := add (nanmean xs) (nanstd xs) in
  let mid_threshold := sub (nanmean xs) (nanstd xs) in
  let ys :=
    mul_where (map (fun x => ltb x mid_threshold) xs) scale_mid
      (mul_where (map (fun x => gtb x high_threshold) xs) scale_up xs) in
  scale_training_data r scale_up scale_mid h
  = (Ok (fresh (dom h)),
     <[fresh (dom h) := setitem df "adjusted_wind_speed_59.1" (Float64 ys)]> h).
Proof.
  intros Hr HC high mid ys.
  set (f := fresh (dom h)). set (h1 := <[f := df]> h).
  assert (Hr1 : h1 !! r = Some df) by now apply insert_fresh_keeps.
  assert (Hf1 : h1 !! f = Some df) by apply lookup_insert_eq.
  assert (Hgt : series_gt (Float64 xs) (VFloat high)
                = Ok (map (fun x => gtb x high) xs)).
  { unfold series_gt. cbn [comparable values]. rewrite mapR_map.
    now apply mapR_ok_map. }
  assert (Hlt : series_lt (Float64 xs) (VFloat mid)
                = Ok (map (fun x => ltb x mid) xs)).
  { unfold series_lt. cbn [comparable values]. rewrite mapR_map.
    now apply mapR_ok_map. }
  unfold scale_training_data.
  rewrite (bind_ok _ _ _ _ _ (df_getitem_ok _ _ _ _ _ Hr HC)).
  rewrite (bind_lift_ok _ _ _ (nanmean xs)) by reflexivity.
  rewrite (bind_ok _ _ _ _ _ (df_getitem_ok _ _ _ _ _ Hr HC)).
  rewrite (bind_lift_ok _ _ _ (nanstd xs)) by reflexivity.
  rewrite (bind_ok _ _ _ _ _ (load_ok _ _ _ Hr)).
  unfold alloc at 1. unfold bind at 1. fold f. fold h1.
  rewrite (bind_ok _ _ _ _ _ (df_getitem_ok _ _ _ _ _ Hr1 HC)).
  rewrite (bind_lift_ok _ _ _ _ Hgt).
  rewrite (bind_ok _ _ _ _ _ (df_getitem_ok _ _ _ _ _ Hr1 HC)).
  rewrite (bind_lift_ok _ _ _ _ Hlt).
  rewrite (bind_ok _ _ _ _ _ (df_getitem_ok _ _ _ _ _ Hf1 HC)).
  rewrite (bind_lift_ok _ _ _ _ (imul_where_float _ _ _)).
  rewrite (bind_ok _ _ _ _ _ (df_setitem_run _ _ _ _ _ Hf1)).
  match goal with |- context [<[f := ?d]> h1] =>
    set (df2 := d); set (h2 := <[f := df2]> h1) end.
  assert (Hf2 : h2 !! f = Some df2) by apply lookup_insert_eq.
  rewrite (bind_ok _ _ _ _ _ (df_getitem_ok _ _ _ _ _ Hf2
                                (getitem_setitem_same _ _ _))).
  rewrite (bind_lift_ok _ _ _ _ (imul_where_float _ _ _)).
  rewrite (bind_ok _ _ _ _ _ (df_setitem_run _ _ _ _ _ Hf2)).
  unfold ret. f_equal. unfold h2, h1, df2.
  now rewrite !insert_insert_eq, setitem_twice.
Qed.

(** The rescaled column, row by row. *)
Lemma scaled_rows xs scale_up scale_mid i x :
  xs !! i = Some x →
  let high_threshold := add (nanmean xs) (nanstd xs) in
  let mid_threshold := sub (nanmean xs) (nanstd xs) in
  mul_where (map (fun x => ltb x mid_threshold) xs) scale_mid
    (mul_where (map (fun x => gtb x high_threshold) xs) scale_up xs) !! i
  = Some (if gtb x high_threshold then mul x scale_up
          else if ltb x mid_threshold then mul x scale_mid
          else x).
Proof.
  intros Hx high mid.
  rewrite (mul_where_lookup _ _ _ i (ltb x mid)
             (if gtb x high then mul x scale_up else x)).
  - destruct (gtb x high) eqn:G; [|reflexivity].
    unfold gtb in G. unfold mid.
    now rewrite (thresholds_disjoint _ _ _ (nanstd_nonneg xs) G).
  - now rewrite list_lookup_fmap, Hx.
  - apply mul_where_lookup; [|exact Hx]. now rewrite list_lookup_fmap, Hx.
Qed.

Lemma setitem_same_value df k s : getitem df k = Ok s → setitem df k s = df.
Proof.
  intros G. apply getitem_lookup in G. unfold setitem.
  rewrite (assign_same_value _ _ _ G). now destruct df.
Qed.



Lemma scale_training_data_shape (h : gmap nat DataFrame) r up mid r' :
  fst (scale_training_data r up mid h) = Ok r' →
  ∃ df c1 c2 s,
    h !! r = Some df
    ∧ getitem df "adjusted_wind_speed_59.1" = Ok s
    ∧ r' = fresh (dom h)
    ∧ snd (scale_training_data r up mid h) !! r'
      = Some (setitem (setitem df "adjusted_wind_speed_59.1" c1)
                "adjusted_wind_speed_59.1" c2).
Proof.
  unfold scale_training_data. run_all_outcomes; cbn [fst snd]; try discriminate.
  intros [= <-]. tidy_lookups.
  eexists _, _, _, _. repeat split; eauto. apply lookup_insert_eq.
Qed.

(** C10: [scale_training_data] changes no table that exists when it is
    called, whatever its outcome, so the caller's table still reads as
    before; the table it returns is a new one with the row labels, the
    column names and every column other than 'adjusted_wind_speed_59.1'
    of the input; and in a float64 column a value equal to mean + std or
    to mean - std is returned as it is. *)
Theorem scale_training_data_input_unchanged
    (h : gmap nat DataFrame) r scale_up scale_mid :
  (∀ l d, h !! l = Some d →
          snd (scale_training_data r scale_up scale_mid h) !! l = Some d)
  ∧ (∀ r', fst (scale_training_data r scale_up scale_mid h) = Ok r' →
       ∃ df out,
         h !! r = Some df
         ∧ h !! r' = None
         ∧ snd (scale_training_data r scale_up scale_mid h) !! r' = Some out
         ∧ index_name out = index_name df
         ∧ index out = index df
         ∧ map fst (columns out) = map fst (columns df)
         ∧ ∀ name, String.eqb name "adjusted_wind_speed_59.1" = false →
                   getitem out name = getitem df name)
  ∧ (∀ df xs,
       h !! r = Some df →
       getitem df "adjusted_wind_speed_59.1" = Ok (Float64 xs) →
       ∃ r' out ys,
         scale_training_data r scale_up scale_mid h = (Ok r', <[r' := out]> h)
         ∧ getitem out "adjusted_wind_speed_59.1" = Ok (Float64 ys)
         ∧ ∀ i x, xs !! i = Some x →
                  x = add (nanmean xs) (nanstd xs)
                  ∨ x = sub (nanmean xs) (nanstd xs) →
                  ys !! i = Some x).
Proof.
  split; [|split].
  - intros l d. apply scale_training_data_keeps.
  - intros r' Hok.
    destruct (scale_training_data_shape _ _ _ _ _ Hok)
      as (df & c1 & c2 & s & Hr & HC & -> & Hout).
    exists df, (setitem (setitem df "adjusted_wind_speed_59.1" c1)
                  "adjusted_wind_speed_59.1" c2).
    split; [exact Hr|]. split; [apply fresh_not_live|]. split; [exact Hout|].
    split; [reflexivity|]. split; [reflexivity|]. split.
    + apply getitem_lookup in HC. simpl.
      rewrite !assign_names; [reflexivity|congruence|].
      rewrite lookup_assign_same. discriminate.
    + intros name N. now rewrite !getitem_setitem_other.
  - intros df xs Hr HC.
    pose proof (scale_training_data_run h r df xs scale_up scale_mid Hr HC) as Run.
    cbv zeta in Run.
    eexists _, _, _. split; [exact Run|]. split; [apply getitem_setitem_same|].
    intros i x Hx Hthr.
    rewrite (scaled_rows xs scale_up scale_mid i x Hx). cbv zeta. unfold gtb.
    destruct Hthr as [-> | ->].
    + rewrite ltb_irrefl.
      now rewrite (thresholds_ordered _ _ (nanstd_nonneg xs)).
    + rewrite (thresholds_ordered _ _ (nanstd_nonneg xs)).
      now rewrite ltb_irrefl.
Qed.

(** ** Wind shear *)

Lemma ln_heights_pos : (0 < ln (102 / 46))%R.
Proof. rewrite <- ln_1. apply ln_increasing; lra. Qed.

Lemma log_heights : log (div (of_Z 102) (of_Z 46)) = Fin (ln (102 / 46)).
Proof. f64_eval. reflexivity. Qed.

(** The shear of one row with finite readings [a] (102m) and [b] (46m). *)
Lemma shear_value (a b : R) :
  let v := div (log (div (Fin a) (Fin b))) (log (div (of_Z 102) (of_Z 46))) in
  ((0 < a ∧ 0 < b) ∨ (a < 0 ∧ b < 0) → v = Fin (ln (a / b) / ln (102 / 46)))%R
  ∧ (a = 0 ∨ b = 0 ∨ a * b < 0 → isfinite v = false)%R.
Proof.
  intros v. unfold v. rewrite log_heights. pose proof ln_heights_pos as L.
  split.
  - intros H.
    assert (Q : (0 < a / b)%R).
    { destruct H as [[Ha Hb]|[Ha Hb]].
      - now apply Rdiv_lt_0_compat.
      - replace (a / b)%R with ((- a) / (- b))%R by (field; lra).
        apply Rdiv_lt_0_compat; lra. }
    assert (B : b ≠ 0%R) by (destruct H; lra).
    rewrite (div_finite _ _ B). cbn [log]. unfold Rltb.
    destruct (Rlt_dec 0 (a / b)); [|contradiction].
    apply div_finite. lra.
  - intros H. destruct (Req_dec_T b 0) as [B|B].
    + subst b. f64_eval; reflexivity.
    + assert (Q : (a / b <= 0)%R).
      { destruct H as [H|[H|H]]; [subst a; lra|contradiction|].
        apply Rnot_lt_le. intros P.
        assert (0 < a / b * (b * b))%R by (apply Rmult_lt_0_compat; nra).
        replace (a / b * (b * b))%R with (a * b)%R in * by (field; lra). lra. }
      f64_eval; reflexivity.
Qed.

(** The run of [wind_shear] on float64 speed columns: the caller's table
    receives the 'shear' column and a new two-column table is returned. *)
Lemma wind_shear_run (h : gmap nat DataFrame) r df ts s102 s46 :
  h !! r = Some df →
  getitem df "Spd 102m [m/s]" = Ok (Float64 s102) →
  getitem df "Spd 46m [m/s]" = Ok (Float64 s46) →
  getitem df "Timestamp" = Ok ts →
  let shear :=
    map (fun q => div (log q) (log (div (of_Z 102) (of_Z 46))))
        (zip_with div s102 s46) in
  let h1 := <[r := setitem df "shear" (Float64 shear)]> h in
  wind_shear r h
  = (Ok (fresh (dom h1)),
     <[fresh (dom h1) :=
         mkDataFrame (index_name df) (index df)
           [("Timestamp", ts); ("shear", Float64 shear)]]> h1).
Proof.
  intros Hr H1 H0 HT shear h1.
  assert (Hr1 : h1 !! r = Some (setitem df "shear" (Float64 shear)))
    by apply lookup_insert_eq.
  unfold wind_shear.
  rewrite (bind_ok _ _ _ _ _ (df_getitem_ok _ _ _ _ _ Hr H1)).
  rewrite (bind_ok _ _ _ _ _ (df_getitem_ok _ _ _ _ _ Hr H0)).
  rewrite (bind_lift_ok _ _ _ (Float64 (zip_with div s102 s46))) by reflexivity.
  rewrite (bind_lift_ok _ _ _ (Float64 (map log (zip_with div s102 s46))))
    by reflexivity.
  rewrite (bind_lift_ok _ _ _ (Float64 shear))
    by (unfold shear; simpl; now rewrite map_map).
  rewrite (bind_ok _ _ _ _ _ (df_setitem_run _ _ _ _ _ Hr)). fold h1.
  rewrite (bind_ok _ _ _ _ _ (load_ok _ _ _ Hr1)).
  rewrite (bind_lift_ok _ _ _
             (mkDataFrame (index_name df) (index df)
                [("Timestamp", ts); ("shear", Float64 shear)])).
  - reflexivity.
  - unfold getitem_list. cbn [mapR].
    rewrite getitem_setitem_other by reflexivity. rewrite HT.
    rewrite getitem_setitem_same. reflexivity.
Qed.

(** ln(10/8) / ln(102/46) lies strictly between 7/25 and 16/57. *)
Lemma shear_10_8_bounds :
  (7 / 25 < ln (10 / 8) / ln (102 / 46) < 16 / 57)%R.
Proof.
  pose proof ln_heights_pos as L.
  assert (Lo : (7 * ln (102 / 46) < 25 * ln (10 / 8))%R).
  { replace 7%R with (INR 7) by (simpl; lra).
    replace 25%R with (INR 25) by (simpl; lra).
    rewrite <- !ln_pow by lra.
    apply ln_increasing; [apply pow_lt; lra|]. simpl. lra. }
  assert (Hi : (57 * ln (10 / 8) < 16 * ln (102 / 46))%R).
  { replace 57%R with (INR 57) by (simpl; lra).
    replace 16%R with (INR 16) by (simpl; lra).
    rewrite <- !ln_pow by lra.
    apply ln_increasing; [apply pow_lt; lra|]. simpl. lra. }
  assert (E : (ln (10 / 8) / ln (102 / 46) * ln (102 / 46) = ln (10 / 8))%R)
    by (field; lra).
  split; apply (Rmult_lt_reg_r (ln (102 / 46)) _ _ L); rewrite E; lra.
Qed.

(** C6, as the code has it: on a lidar table with float64 speed columns
    [wind_shear] raises nothing and returns a new table of exactly the
    columns 'Timestamp' and 'shear'; for finite readings a (102m) and b
    (46m) the shear is ln(a/b) / ln(102/46) when both are positive, and
    also when both are negative, and it is an infinity or NaN when one of
    them is zero or exactly one is negative; the readings 10 and 8 give
    0.2802 within 1e-3. *)
Theorem wind_shear_values (h : gmap nat DataFrame) r df ts s102 s46 :
  h !! r = Some df →
  getitem df "Spd 102m [m/s]" = Ok (Float64 s102) →
  getitem df "Spd 46m [m/s]" = Ok (Float64 s46) →
  getitem df "Timestamp" = Ok ts →
  (∃ r' out shear,
      wind_shear r h
        = (Ok r', <[r' := out]> (<[r := setitem df "shear" (Float64 shear)]> h))
      ∧ columns out = [("Timestamp", ts); ("shear", Float64 shear)]
      ∧ index out = index df
      ∧ ∀ i a b,
          s102 !! i = Some (Fin a) → s46 !! i = Some (Fin b) →
          ∃ v, shear !! i = Some v
             ∧ ((0 < a ∧ 0 < b) ∨ (a < 0 ∧ b < 0) →
                v = Fin (ln (a / b) / ln (102 / 46)))%R
             ∧ (a = 0 ∨ b = 0 ∨ a * b < 0 → isfinite v = false)%R)
  ∧ (Rabs (ln (10 / 8) / ln (102 / 46) - 2802 / 10000) <= 1 / 1000)%R.
Proof.
  intros Hr H1 H0 HT. split.
  - pose proof (wind_shear_run h r df ts s102 s46 Hr H1 H0 HT) as Run.
    cbv zeta in Run.
    eexists _, _, _. split; [exact Run|]. split; [reflexivity|].
    split; [reflexivity|].
    intros i a b Ha Hb.
    exists (div (log (div (Fin a) (Fin b))) (log (div (of_Z 102) (of_Z 46)))).
    split; [|apply shear_value].
    rewrite list_lookup_fmap, lookup_zip_with, Ha, Hb. reflexivity.
  - pose proof shear_10_8_bounds as [Lo Hi].
    apply Rabs_le. lra.
Qed.

Lemma wind_shear_values_witness :
  ∃ r' out shear,
    wind_shear 0 (<[0 := Samples.lidar_table]> ∅)
      = (Ok r', <[r' := out]>
                  (<[0 := setitem Samples.lidar_table "shear" (Float64 shear)]>
                     (<[0 := Samples.lidar_table]> ∅)))
    ∧ columns out
      = [("Timestamp",
          Datetime64 None [datetime 2021 1 2 3 0 0; datetime 2021 1 2 4 0 0]);
         ("shear", Float64 shear)].
Proof.
  destruct (wind_shear_values (<[0 := Samples.lidar_table]> ∅) 0
              Samples.lidar_table
              (Datetime64 None [datetime 2021 1 2 3 0 0; datetime 2021 1 2 4 0 0])
              [Fin 10; Fin (-10)] [Fin 8; Fin (-8)])
    as [(r' & out & shear & Run & Cols & _) _].
  - reflexivity.
  - reflexivity.
  - reflexivity.
  - reflexivity.
  - exists r', out, shear. split; [exact Run|exact Cols].
Defined.

(** C6 as stated fails on the table [Samples.lidar_table]: the readings 10
    and 8 give a shear that is not within 1e-3 of 0.2786, and the row whose
    readings are both negative gets a finite shear. *)
Lemma wind_shear_counterexample :
  ∃ r' h' out a b,
    wind_shear 0 (<[0 := Samples.lidar_table]> ∅) = (Ok r', h')
    ∧ h' !! r' = Some out
    ∧ getitem out "shear" = Ok (Float64 [Fin a; Fin b])
    ∧ ¬ (Rabs (a - 2786 / 10000) <= 1 / 1000)%R.
Proof.
  pose proof (wind_shear_run (<[0 := Samples.lidar_table]> ∅) 0
                Samples.lidar_table
                (Datetime64 None [datetime 2021 1 2 3 0 0; datetime 2021 1 2 4 0 0])
                [Fin 10; Fin (-10)] [Fin 8; Fin (-8)]
                eq_refl eq_refl eq_refl eq_refl) as Run.
  cbv zeta in Run. cbn [zip_with map] in Run.
  destruct (shear_value 10 8) as [V1 _].
  destruct (shear_value (-10) (-8)) as [V2 _].
  cbv zeta in V1, V2.
  rewrite V1 in Run by lra. rewrite V2 in Run by lra.
  eexists _, _, _, _, _. split; [exact Run|].
  split; [apply lookup_insert_eq|]. split; [reflexivity|].
  pose proof shear_10_8_bounds as [Lo Hi].
  intros A. pose proof (Rle_abs (ln (10 / 8) / ln (102 / 46) - 2786 / 10000)).
  lra.
Qed.

(** ** Which operations write to the caller's table *)

Lemma adjust_wind_met_in_place (h : gmap nat DataFrame) r r' h' :
  adjust_wind_met r h = (Ok r', h') →
  r' = r ∧
  ∃ df c1 c2 p,
    h !! r = Some df
    ∧ h' !! r = Some (setitem (setitem (setitem df "adjusted_wind_speed_59.1" c1)
                                 "adjusted_wind_speed_46" c2)
                        "Pres 2m [hPa]" p).
Proof.
  unfold adjust_wind_met. unfold lift at 1. unfold bind at 1.
  rewrite heights_MET. cbn [forM_].
  run_all_outcomes; try discriminate.
  intros [= <- <-]. tidy_lookups.
  split; [reflexivity|]. eexists _, _, _, _. split; [reflexivity|].
  apply lookup_insert_eq.
Qed.

Lemma wind_shear_in_place (h : gmap nat DataFrame) r r' h' :
  wind_shear r h = (Ok r', h') →
  ∃ df shear,
    h !! r = Some df ∧ h' !! r = Some (setitem df "shear" shear).
Proof.
  unfold wind_shear. run_all_outcomes; try discriminate.
  intros [= <- <-]. tidy_lookups.
  eexists _, _. split; [reflexivity|].
  apply insert_fresh_keeps, lookup_insert_eq.
Qed.

Lemma format_era5_in_place parse (h : gmap nat DataFrame) r r' h' :
  format_era5 parse r h = (Ok r', h') →
  ∃ df ts hours,
    h !! r = Some df
    ∧ h' !! r = Some (setitem (setitem df "Date/time [UTC]"
                                 (Datetime64 (Some US_Mountain) ts))
                        "hour" (Int64 hours)).
Proof.
  unfold format_era5. run_all_outcomes; try discriminate.
  intros [= <- <-]. tidy_lookups.
  rewrite !getitem_setitem_same in *. tidy_lookups.
  match goal with
  | H : dt_tz_convert US_Mountain ?c = Ok _ |- _ =>
      destruct c as [| |[z|] ts|]; try discriminate; simpl in H;
      injection H as <-
  end.
  eexists _, ts, _. split; [reflexivity|].
  rewrite !(lookup_insert_fresh_other _ _ r _ _ (lookup_insert_eq _ _ _)).
  rewrite lookup_insert_eq. now rewrite setitem_twice.
Qed.

(** C7, as the code has it: [concurrent_data] and [scale_training_data]
    leave every table that exists at the call, the caller's included, as
    it was, whatever their outcome; the other three write to the caller's
    table in place.  After a successful call, [adjust_wind_met] has
    returned the caller's table itself, with the two adjusted-speed
    columns and the pressure column assigned; [format_era5] has left the
    caller's table with its 'Date/time [UTC]' column converted to
    US/Mountain and an 'hour' column assigned; [wind_shear] has left it
    with a 'shear' column assigned. *)
Theorem caller_table_effects
    (parse : string → option Z) (h : gmap nat DataFrame) r :
  (∀ a b l d, h !! l = Some d →
              snd (concurrent_data parse r a b h) !! l = Some d)
  ∧ (∀ scale_up scale_mid l d,
        h !! l = Some d →
        snd (scale_training_data r scale_up scale_mid h) !! l = Some d)
  ∧ (∀ r' h',
        adjust_wind_met r h = (Ok r', h') →
        r' = r ∧
        ∃ df c1 c2 p,
          h !! r = Some df
          ∧ h' !! r
            = Some (setitem (setitem (setitem df "adjusted_wind_speed_59.1" c1)
                               "adjusted_wind_speed_46" c2)
                      "Pres 2m [hPa]" p))
  ∧ (∀ r' h',
        format_era5 parse r h = (Ok r', h') →
        ∃ df ts hours,
          h !! r = Some df
          ∧ h' !! r
            = Some (setitem (setitem df "Date/time [UTC]"
                               (Datetime64 (Some US_Mountain) ts))
                      "hour" (Int64 hours)))
  ∧ (∀ r' h',
        wind_shear r h = (Ok r', h') →
        ∃ df shear,
          h !! r = Some df ∧ h' !! r = Some (setitem df "shear" shear)).
Proof.
  split; [|split; [|split; [|split]]].
  - intros a b l d. apply concurrent_data_keeps.
  - intros up mid l d. apply scale_training_data_keeps.
  - intros r' h'. apply adjust_wind_met_in_place.
  - intros r' h'. apply format_era5_in_place.
  - intros r' h'. apply wind_shear_in_place.
Qed.

(** C7 as stated fails for [wind_shear] on [Samples.lidar_table]: after the
    call the caller's table is no longer the table that was passed. *)
Lemma caller_table_counterexample :
  snd (wind_shear 0 (<[0 := Samples.lidar_table]> ∅)) !! 0
  ≠ (<[0 := Samples.lidar_table]> ∅ : gmap nat DataFrame) !! 0.
Proof.
  rewrite (wind_shear_run (<[0 := Samples.lidar_table]> ∅) 0
             Samples.lidar_table
             (Datetime64 None [datetime 2021 1 2 3 0 0; datetime 2021 1 2 4 0 0])
             [Fin 10; Fin (-10)] [Fin 8; Fin (-8)]
             (lookup_insert_eq _ _ _) eq_refl eq_refl eq_refl).
  cbn [snd].
  rewrite (insert_fresh_keeps _ 0 _ _ (lookup_insert_eq _ _ _)).
  rewrite lookup_insert_eq.
  intros E. apply (f_equal (fmap (fun d => length (columns d)))) in E.
  discriminate E.
Qed.

(** ** The date-range filter *)

(** C9: on a table whose 'Timestamp' column is a datetime column,
    [concurrent_data] with boundaries that read as timestamps [a] and [b]
    of that column's kind (timestamps themselves, or texts pandas parses)
    returns a new table holding, for the row labels and for every column,
    the cells of exactly the rows with a <= Timestamp <= b, in their
    original order; both boundaries are inclusive. *)
Theorem concurrent_data_filter
    (parse : string → option Z) (h : gmap nat DataFrame) r df tz ts
    start_date end_date a b :
  h !! r = Some df →
  getitem df "Timestamp" = Ok (Datetime64 tz ts) →
  coerce_bound parse (Datetime64 tz ts) start_date = Ok (VTime tz a) →
  coerce_bound parse (Datetime64 tz ts) end_date = Ok (VTime tz b) →
  ∃ out,
    concurrent_data parse r start_date end_date h
      = (Ok (fresh (dom h)), <[fresh (dom h) := out]> h)
    ∧ getitem out "Timestamp"
      = Ok (Datetime64 tz (List.filter (fun t => (a <=? t)%Z && (t <=? b)%Z) ts))
    ∧ (∀ t, In t (List.filter (fun t => (a <=? t)%Z && (t <=? b)%Z) ts)
            ↔ In t ts ∧ (a ≤ t ≤ b)%Z)
    ∧ (∀ name s,
          getitem df name = Ok s →
          ∃ s', getitem out name = Ok s'
              ∧ values s'
                = map snd (List.filter
                             (fun q => (a <=? fst q)%Z && (fst q <=? b)%Z)
                             (zip ts (values s))))
    ∧ values (index out)
      = map snd (List.filter (fun q => (a <=? fst q)%Z && (fst q <=? b)%Z)
                             (zip ts (values (index df))))
    ∧ map fst (columns out) = map fst (columns df).
Proof.
  intros Hr HT Ha Hb.
  set (keep := fun t => (a <=? t)%Z && (t <=? b)%Z).
  exists (loc_mask df (map keep ts)).
  assert (Hge : series_ge parse (Datetime64 tz ts) start_date
                = Ok (map (Z.leb a) ts)).
  { unfold series_ge. rewrite Ha. cbn [rbind].
    replace (comparable (Datetime64 tz ts) (VTime tz a)) with true
      by (now destruct tz).
    cbn [values]. rewrite mapR_map. apply mapR_ok_map.
    intros t. now destruct tz. }
  assert (Hle : series_le parse (Datetime64 tz ts) end_date
                = Ok (map (fun t => Z.leb t b) ts)).
  { unfold series_le. rewrite Hb. cbn [rbind].
    replace (comparable (Datetime64 tz ts) (VTime tz b)) with true
      by (now destruct tz).
    cbn [values]. rewrite mapR_map. apply mapR_ok_map.
    intros t. now destruct tz. }
  split; [|split; [|split; [|split; [|split]]]].
  - unfold concurrent_data.
    rewrite (bind_ok _ _ _ _ _ (df_getitem_ok _ _ _ _ _ Hr HT)).
    rewrite (bind_lift_ok _ _ _ _ Hge).
    rewrite (bind_ok _ _ _ _ _ (df_getitem_ok _ _ _ _ _ Hr HT)).
    rewrite (bind_lift_ok _ _ _ _ Hle).
    rewrite (bind_ok _ _ _ _ _ (load_ok _ _ _ Hr)).
    rewrite zip_with_andb_map. reflexivity.
  - rewrite (getitem_loc_mask _ _ _ _ HT). simpl.
    now rewrite mask_list_filter.
  - intros t. rewrite filter_In. unfold keep.
    rewrite andb_true_iff, Z.leb_le, Z.leb_le. tauto.
  - intros name s G. exists (mask_series (map keep ts) s). split.
    + now apply getitem_loc_mask.
    + rewrite values_mask_series. apply (mask_list_zip keep).
  - simpl. rewrite values_mask_series. apply (mask_list_zip keep).
  - apply loc_mask_names.
Qed.

Lemma concurrent_data_filter_witness :
  ∃ out,
    concurrent_data (fun _ => None) 0
        (VTime None (datetime 2000 1 1 0 0 0))
        (VTime None (datetime 2000 1 1 1 0 0))
        (<[0 := Samples.hourly_table]> ∅)
      = (Ok (fresh (dom (<[0 := Samples.hourly_table]> (∅ : gmap nat DataFrame)))),
         <[fresh (dom (<[0 := Samples.hourly_table]> (∅ : gmap nat DataFrame)))
             := out]> (<[0 := Samples.hourly_table]> ∅))
    ∧ getitem out "Timestamp"
      = Ok (Datetime64 None [datetime 2000 1 1 0 0 0; datetime 2000 1 1 1 0 0]).
Proof.
  destruct (concurrent_data_filter (fun _ => None)
              (<[0 := Samples.hourly_table]> ∅) 0 Samples.hourly_table None
              [datetime 1999 12 31 23 0 0; datetime 2000 1 1 0 0 0;
               datetime 2000 1 1 1 0 0]
              (VTime None (datetime 2000 1 1 0 0 0))
              (VTime None (datetime 2000 1 1 1 0 0))
              (datetime 2000 1 1 0 0 0) (datetime 2000 1 1 1 0 0))
    as (out & Run & TS & _).
  - reflexivity.
  - reflexivity.
  - reflexivity.
  - reflexivity.
  - exists out. split; [exact Run|exact TS].
Defined.

(** ** The precondition of the resampling operations *)

(** C8: when the 'Timestamp' column of the table is not of a datetime
    dtype, [hourly_format] and [hour3_format] both raise the assertion
    error whose message names the field, and the heap, hence the caller's
    table, is as it was before the call. *)
Theorem resample_precondition
    (parse : string → option Z) (h : gmap nat DataFrame) r df s :
  h !! r = Some df →
  getitem df "Timestamp" = Ok s →
  is_datetime64_any_dtype s = false →
  hourly_format parse r h
    = (Raise (AssertionError "Timestamp is not a datetime object"), h)
  ∧ hour3_format r h
    = (Raise (AssertionError "Timestamp is not a datetime object"), h)
  ∧ String.prefix "Timestamp" "Timestamp is not a datetime object" = true.
Proof.
  intros E G D. repeat split.
  - unfold hourly_format.
    rewrite (bind_ok _ _ _ _ _ (eq_trans (df_getitem_run _ _ _ _ E)
                                   (f_equal (fun x => (x, h)) G))).
    rewrite D. reflexivity.
  - unfold hour3_format.
    rewrite (bind_ok _ _ _ _ _ (eq_trans (df_getitem_run _ _ _ _ E)
                                   (f_equal (fun x => (x, h)) G))).
    rewrite D. reflexivity.
Qed.

Lemma resample_precondition_witness :
  hourly_format (fun _ => None) 0 (<[0 := Samples.text_table]> ∅)
    = (Raise (AssertionError "Timestamp is not a datetime object"),
       <[0 := Samples.text_table]> ∅)
  ∧ hour3_format 0 (<[0 := Samples.text_table]> ∅)
    = (Raise (AssertionError "Timestamp is not a datetime object"),
       <[0 := Samples.text_table]> ∅)
  ∧ String.prefix "Timestamp" "Timestamp is not a datetime object" = true.
Proof.
  apply (resample_precondition _ _ 0 Samples.text_table
           (Object [VStr "2021-01-02 03:10:00"; VStr "2021-01-02 03:20:00"])).
  - reflexivity.
  - reflexivity.
  - reflexivity.
Defined.

(** ** The reanalysis formatter *)

Section Era5.
Local Open Scope Z_scope.

Lemma mountain_utcoffset_cases t :
  mountain_utcoffset t = -6 * ns_per_hour ∨ mountain_utcoffset t = -7 * ns_per_hour.
Proof. unfold mountain_utcoffset. destruct (_ && _); auto. Qed.

Lemma mountain_winter_2000 t :
  datetime 2000 1 1 0 0 0 <= t < datetime 2000 1 2 0 0 0 →
  mountain_utcoffset t = -7 * ns_per_hour.
Proof.
  intros H. unfold mountain_utcoffset, year_of, days_of.
  assert (E : t / ns_per_day = 10957).
  { change (datetime 2000 1 1 0 0 0) with 946684800000000000 in H.
    change (datetime 2000 1 2 0 0 0) with 946771200000000000 in H.
    change ns_per_day with 86400000000000. symmetry.
    apply (Z.div_unique t _ 10957 (t - 10957 * 86400000000000)); lia. }
  rewrite E. 
  change (fst (days_to_yearsdays 10957)) with 2000.
  change (mountain_dst_start 2000) with 954666000000000000.
  change (datetime 2000 1 1 0 0 0) with 946684800000000000 in H.
  change (datetime 2000 1 2 0 0 0) with 946771200000000000 in H.
  replace (954666000000000000 <=? t) with false by (symmetry; apply Z.leb_gt; lia).
  now rewrite andb_false_r.
Qed.

(** A row is at or after the cut-off instant exactly when its US/Mountain
    wall clock reads 2000-01-01 00:00:00 or later. *)
Lemma mountain_cutoff t :
  (datetime 2000 1 1 7 0 0 <=? t)
  = (datetime 2000 1 1 0 0 0 <=? wall (Some US_Mountain) t).
Proof.
  unfold wall, utcoffset.
  change (datetime 2000 1 1 7 0 0) with 946710000000000000.
  destruct (Z_lt_le_dec t 946706400000000000) as [A|A].
  - destruct (mountain_utcoffset_cases t) as [-> | ->];
      change (datetime 2000 1 1 0 0 0) with 946684800000000000;
      change ns_per_hour with 3600000000000;
      rewrite (proj2 (Z.leb_gt _ _)), (proj2 (Z.leb_gt _ _)) by lia; reflexivity.
  - destruct (Z_lt_le_dec t 946710000000000000) as [B|B].
    + rewrite mountain_winter_2000.
      * change (datetime 2000 1 1 0 0 0) with 946684800000000000;
        change ns_per_hour with 3600000000000.
        rewrite (proj2 (Z.leb_gt _ _)), (proj2 (Z.leb_gt _ _)) by lia; reflexivity.
      * change (datetime 2000 1 1 0 0 0) with 946684800000000000.
        change (datetime 2000 1 2 0 0 0) with 946771200000000000. lia.
    + destruct (mountain_utcoffset_cases t) as [-> | ->];
      change (datetime 2000 1 1 0 0 0) with 946684800000000000;
      change ns_per_hour with 3600000000000;
      rewrite (proj2 (Z.leb_le _ _)), (proj2 (Z.leb_le _ _)) by lia; reflexivity.
Qed.

Lemma zip_with_map_same {A B C D} (f : B → C → D) (g : A → B) (k : A → C) xs :
  zip_with f (map g xs) (map k xs) = map (fun x => f (g x) (k x)) xs.
Proof. induction xs as [|x xs IH]; simpl; [reflexivity|now rewrite IH]. Qed.





Lemma getitem_missing df k :
  getitem df k = Raise (KeyError k) ↔ lookup_col k (columns df) = None.
Proof.
  unfold getitem. destruct (lookup_col k (columns df)); split; congruence.
Qed.

Lemma format_era5_run parse (h : gmap nat DataFrame) r df col ts :
  h !! r = Some df →
  getitem df "Date/time [UTC]" = Ok col →
  to_datetime_utc parse col = Ok (Datetime64 (Some UTC) ts) →
  parse "2000-01-01 00:00:00"%string = Some (datetime 2000 1 1 0 0 0) →
  let h1 := <[r := Spec.era5_caller df ts]> h in
  format_era5 parse r h
  = (Ok (fresh (dom h1)), <[fresh (dom h1) := Spec.era5_result df ts]> h1).
Proof.
  intros Hr HC HP Hlit h1.
  set (local := wall (Some US_Mountain)).
  set (keep := fun t => datetime 2000 1 1 0 0 0 <=? local t).
  unfold format_era5.
  rewrite (bind_ok _ _ _ _ _ (df_getitem_ok _ _ _ _ _ Hr HC)).
  rewrite (bind_lift_ok _ _ _ _ HP).
  rewrite (bind_ok _ _ _ _ _ (df_setitem_run _ _ _ _ _ Hr)).
  match goal with |- context [<[r := ?d]> h] => set (d1 := d); set (g1 := <[r := d1]> h) end.
  assert (G1 : g1 !! r = Some d1) by apply lookup_insert_eq.
  rewrite (bind_ok _ _ _ _ _ (df_getitem_ok _ _ _ _ _ G1 (getitem_setitem_same _ _ _))).
  rewrite (bind_lift_ok _ _ _ (Datetime64 (Some US_Mountain) ts)) by reflexivity.
  rewrite (bind_ok _ _ _ _ _ (df_setitem_run _ _ _ _ _ G1)).
  match goal with |- context [<[r := ?d]> g1] => set (d2 := d); set (g2 := <[r := d2]> g1) end.
  assert (G2 : g2 !! r = Some d2) by apply lookup_insert_eq.
  rewrite (bind_ok _ _ _ _ _ (df_getitem_ok _ _ _ _ _ G2 (getitem_setitem_same _ _ _))).
  rewrite (bind_lift_ok _ _ _ (map (fun t => dayofyear (local t)) ts)) by reflexivity.
  rewrite (bind_ok _ _ _ _ _ (df_getitem_ok _ _ _ _ _ G2 (getitem_setitem_same _ _ _))).
  rewrite (bind_lift_ok _ _ _ (map (fun t => hour (local t)) ts)) by reflexivity.
  rewrite (bind_ok _ _ _ _ _ (df_setitem_run _ _ _ _ _ G2)).
  rewrite zip_with_map_same.
  assert (E3 : setitem d2 "hour" (Int64 (map (fun x => (dayofyear (local x) - 1) * 24 + hour (local x)) ts)) = Spec.era5_caller df ts).
  { unfold d2, d1, Spec.era5_caller. now rewrite setitem_twice. }
  rewrite E3.
  assert (E4 : <[r := Spec.era5_caller df ts]> g2 = h1).
  { unfold g2, g1, h1. now rewrite !insert_insert_eq. }
  rewrite E4.
  assert (H1 : h1 !! r = Some (Spec.era5_caller df ts)) by apply lookup_insert_eq.
  assert (C1 : getitem (Spec.era5_caller df ts) "Date/time [UTC]" = Ok (Datetime64 (Some US_Mountain) ts)).
  { unfold Spec.era5_caller. rewrite getitem_setitem_other by reflexivity. apply getitem_setitem_same. }
  rewrite (bind_ok _ _ _ _ _ (df_getitem_ok _ _ _ _ _ H1 C1)).
  rewrite (bind_lift_ok _ _ _ (map keep ts)).
  2:{ unfold series_ge. cbn [coerce_bound]. rewrite Hlit.
      change (tz_localize US_Mountain (datetime 2000 1 1 0 0 0)) with (Some (datetime 2000 1 1 7 0 0)).
      cbn [rbind comparable values]. rewrite mapR_map. apply mapR_ok_map.
      intros t. cbn [scalar_le]. f_equal. apply mountain_cutoff. }
  rewrite (bind_ok _ _ _ _ _ (load_ok _ _ _ H1)).
  unfold alloc at 1. unfold bind at 1.
  set (f := fresh (dom h1)).
  set (m1 := loc_mask (Spec.era5_caller df ts) (map keep ts)).
  set (k1 := <[f := m1]> h1).
  assert (K1 : k1 !! f = Some m1) by apply lookup_insert_eq.
  assert (C2 : getitem m1 "Date/time [UTC]" = Ok (Datetime64 (Some US_Mountain) (List.filter keep ts))).
  { unfold m1. rewrite (getitem_loc_mask _ _ _ _ C1). simpl. now rewrite mask_list_filter. }
  rewrite (bind_ok _ _ _ _ _ (df_getitem_ok _ _ _ _ _ K1 C2)).
  rewrite (bind_lift_ok _ _ _ (Datetime64 None (map local (List.filter keep ts)))) by reflexivity.
  rewrite (bind_ok _ _ _ _ _ (df_setitem_run _ _ _ _ _ K1)).
  unfold df_rename_inplace.
  rewrite (bind_ok _ _ _ _ _ (bind_ok _ _ _ _ _ (load_ok _ _ _ (lookup_insert_eq _ _ _)))).
  unfold store, ret. unfold k1. now rewrite !insert_insert_eq.
Qed.



End Era5.

(** ** Resampling *)

Section Resample.
Local Open Scope Z_scope.

Lemma foldr_min_le t0 ts : ∀ t, In t (t0 :: ts) → foldr Z.min t0 ts <= t.
Proof.
  induction ts as [|x ts IH]; simpl; intros t [<-|H]; try lia; try contradiction.
  - specialize (IH t0 (or_introl eq_refl)). lia.
  - destruct H as [<-|H]; [lia|]. specialize (IH t (or_intror H)). lia.
Qed.

Lemma foldr_max_ge t0 ts : ∀ t, In t (t0 :: ts) → t <= foldr Z.max t0 ts.
Proof.
  induction ts as [|x ts IH]; simpl; intros t [<-|H]; try lia; try contradiction.
  - specialize (IH t0 (or_introl eq_refl)). lia.
  - destruct H as [<-|H]; [lia|]. specialize (IH t (or_intror H)). lia.
Qed.

(** Anchoring at midnight of the first day is anchoring at the epoch when
    the bucket width divides the day. *)
Lemma offset_from_midnight w t u :
  0 < w → (w | ns_per_day) → (t - normalize u) mod w = t mod w.
Proof.
  intros W [c Hc]. unfold normalize. rewrite Hc.
  replace (t - days_of u * (c * w)) with (t + (- (days_of u * c)) * w) by ring.
  apply Z.mod_add. lia.
Qed.

Lemma floor_aligned w t : 0 < w → (t - t mod w) mod w = 0.
Proof.
  intros W. rewrite Zminus_mod, Z.mod_mod, Z.sub_diag by lia. reflexivity.
Qed.

(** The labels of the buckets of naive timestamps. *)
Lemma bin_labels_naive w t0 ts :
  0 < w → (w | ns_per_day) →
  let first := foldr Z.min t0 ts in
  let last := foldr Z.max t0 ts in
  let start := first - first mod w in
  bin_labels None w (t0 :: ts)
  = Ok (map (fun i => start + Z.of_nat i * w)
            (seq 0 (Z.to_nat ((last - last mod w - start) / w + 1)))).
Proof.
  intros W D first last start. unfold bin_labels. cbn [normalize_tz].
  fold first. fold last. rewrite !offset_from_midnight by assumption.
  assert (F : (if first mod w >? 0 then first - first mod w else first) = start).
  { unfold start. destruct (first mod w >? 0) eqn:E; [reflexivity|].
    pose proof (Z.mod_pos_bound first w W). lia. }
  assert (L : (if last mod w >? 0 then last + (w - last mod w) else last + w)
              = last - last mod w + w).
  { destruct (last mod w >? 0) eqn:E; [lia|].
    pose proof (Z.mod_pos_bound last w W). lia. }
  rewrite F, L.
  replace (last - last mod w + w - start) with (last - last mod w - start + 1 * w) by ring.
  rewrite Z.div_add by lia. reflexivity.
Qed.

Lemma label_aligned w first i :
  0 < w → (first - first mod w + Z.of_nat i * w) mod w = 0.
Proof. intros W. rewrite Z.mod_add by lia. now apply floor_aligned. Qed.

Lemma floor_div_gap w a b :
  0 < w → a mod w = 0 → a <= b → (b - b mod w - a) / w = (b - a) / w.
Proof.
  intros W A H.
  pose proof (Z.div_mod a w ltac:(lia)) as Da.
  pose proof (Z.div_mod b w ltac:(lia)) as Db.
  pose proof (Z.mod_pos_bound b w W) as Hb.
  replace (b - b mod w - a) with ((b / w - a / w) * w) by nia.
  replace (b - a) with (b mod w + (b / w - a / w) * w) by nia.
  rewrite Z.div_mul by lia. rewrite Z.div_add by lia.
  rewrite (Z.div_small (b mod w) w) by lia. lia.
Qed.

(** Every timestamp between the first and the last lies in the bucket of
    one of the labels. *)
Lemma label_covers w first last t :
  0 < w → first <= t <= last →
  let start := first - first mod w in
  let n := Z.to_nat ((last - last mod w - start) / w + 1) in
  ∃ i, (i < n)%nat ∧ in_bucket w (start + Z.of_nat i * w) t = true.
Proof.
  intros W H start n.
  pose proof (Z.mod_pos_bound first w W) as Hf.
  assert (A : start mod w = 0) by now apply floor_aligned.
  assert (S0 : start <= t) by (unfold start; lia).
  exists (Z.to_nat ((t - start) / w)).
  assert (Q : 0 <= (t - start) / w) by (apply Z.div_pos; lia).
  pose proof (Z.div_mod (t - start) w ltac:(lia)) as DM.
  pose proof (Z.mod_pos_bound (t - start) w W) as Hm.
  split.
  - unfold n. rewrite floor_div_gap by lia.
    assert (TS : (t - start) / w <= (last - start) / w)
      by (apply Z.div_le_mono; lia).
    lia.
  - unfold in_bucket. rewrite Z2Nat.id by lia.
    apply andb_true_iff. split; [apply Z.leb_le|apply Z.ltb_lt]; lia.
Qed.

Lemma bucket_starts_ok w ts :
  0 < w → (w | ns_per_day) → bin_labels None w ts = Ok (Spec.bucket_starts w ts).
Proof.
  intros W D. destruct ts as [|t0 ts]; [reflexivity|].
  now apply bin_labels_naive.
Qed.

Lemma bucket_starts_clock w ts :
  0 < w → Spec.clock_buckets w ts (Spec.bucket_starts w ts).
Proof.
  intros W. split; [|split].
  - intros i b Hb. destruct ts as [|t0 ts]; [discriminate|].
    unfold Spec.bucket_starts in *. rewrite list_lookup_fmap in *.
    destruct (seq _ _ !! i) as [j|] eqn:Hj; [|discriminate].
    apply lookup_seq in Hj as [-> Hn]. injection Hb as <-. split.
    + now apply label_aligned.
    + intros b' Hb'.
      destruct (seq _ _ !! S i) as [j|] eqn:Hj; [|discriminate].
      apply lookup_seq in Hj as [-> _]. injection Hb' as <-.
      cbn [Nat.add]. lia.
  - intros t Hin. destruct ts as [|t0 ts]; [contradiction|].
    destruct (label_covers w (foldr Z.min t0 ts) (foldr Z.max t0 ts) t W)
      as (i & Hi & Hb).
    { split; [now apply foldr_min_le|now apply foldr_max_ge]. }
    eexists i, _. split.
    + unfold Spec.bucket_starts. rewrite list_lookup_fmap, lookup_seq_lt by exact Hi.
      reflexivity.
    + unfold in_bucket in Hb. apply andb_true_iff in Hb as [A B].
      apply Z.leb_le in A. apply Z.ltb_lt in B. cbn [Nat.add]. lia.
  - now intros ->.
Qed.

Lemma mask_list_none {A} (p : Z → bool) ts (xs : list A) :
  (∀ t, In t ts → p t = false) → mask_list (map p ts) xs = [].
Proof.
  revert xs. induction ts as [|t ts IH]; intros [|x xs] H; simpl; try reflexivity.
  rewrite (H t (or_introl eq_refl)). apply IH. intros u Hu. apply H. now right.
Qed.


Lemma lookup_drop_other {A} k name (l : list (string * A)) :
  String.eqb name k = false →
  lookup_col name (drop_col k l) = lookup_col name l.
Proof.
  intros N. induction l as [|[k' v] l IH]; simpl; [reflexivity|].
  destruct (String.eqb k k') eqn:E.
  - apply String.eqb_eq in E. subst k'. now rewrite N.
  - simpl. now rewrite IH.
Qed.

Lemma resample_columns_ok w ts rest :
  forallb (fun c => is_numeric_dtype (snd c)) rest = true →
  mapR (fun '(n, s) =>
          let? m := resample_column w ts (Spec.bucket_starts w ts) s in Ok (n, m))
       rest
  = Ok (Spec.resampled_columns w ts rest).
Proof.
  induction rest as [|[n s] rest IH]; simpl; [reflexivity|].
  intros H. apply andb_true_iff in H as [Hs Hr]. rewrite (IH Hr).
  destruct s; try discriminate; reflexivity.
Qed.

Lemma resample_mean_naive w name ts rest :
  0 < w → (w | ns_per_day) →
  forallb (fun c => is_numeric_dtype (snd c)) rest = true →
  resample_mean w (mkDataFrame name (Datetime64 None ts) rest)
  = Ok (mkDataFrame name (Datetime64 None (Spec.bucket_starts w ts))
          (Spec.resampled_columns w ts rest)).
Proof.
  intros W D N. unfold resample_mean. cbn [index columns index_name].
  rewrite (bucket_starts_ok w ts W D). cbn [rbind].
  now rewrite (resample_columns_ok w ts rest N).
Qed.

Lemma lookup_resampled w ts rest name :
  lookup_col name (Spec.resampled_columns w ts rest)
  = (fun s => Float64 (map (bucket_mean w ts (Spec.float_values s)) (Spec.bucket_starts w ts)))
      <$> lookup_col name rest.
Proof.
  unfold Spec.resampled_columns.
  induction rest as [|[k v] l IH]; simpl; [reflexivity|].
  destruct (String.eqb name k); [reflexivity|exact IH].
Qed.

Lemma hour_divides_day : (ns_per_hour | ns_per_day).
Proof. exists 24. reflexivity. Qed.

Lemma six_hours_divide_day : (6 * ns_per_hour | ns_per_day).
Proof. exists 4. reflexivity. Qed.

Lemma df_set_index_run (h : gmap nat DataFrame) r df name df' :
  h !! r = Some df → set_index df name = Ok df' →
  df_set_index_inplace r name h = (Ok tt, <[r := df']> h).
Proof.
  intros E S. unfold df_set_index_inplace.
  rewrite (bind_ok _ _ _ _ _ (load_ok _ _ _ E)).
  now rewrite (bind_lift_ok _ _ _ _ S).
Qed.

Lemma df_reset_index_run (h : gmap nat DataFrame) r df df' :
  h !! r = Some df → reset_index df = Ok df' →
  df_reset_index_inplace r h = (Ok tt, <[r := df']> h).
Proof.
  intros E S. unfold df_reset_index_inplace.
  rewrite (bind_ok _ _ _ _ _ (load_ok _ _ _ E)).
  now rewrite (bind_lift_ok _ _ _ _ S).
Qed.

Lemma resample_start (h : gmap nat DataFrame) r df ts w :
  0 < w → (w | ns_per_day) →
  h !! r = Some df →
  getitem df "Timestamp" = Ok (Datetime64 None ts) →
  forallb (fun c => is_numeric_dtype (snd c)) (drop_col "Timestamp" (columns df)) = true →
  lookup_col "Timestamp" (drop_col "Timestamp" (columns df)) = None →
  let h1 := <[r := Spec.indexed_caller df ts]> h in
  ∀ (k : nat → M nat),
  (ts <- df_getitem r "Timestamp" ;;
   assert_ (is_datetime64_any_dtype ts) "Timestamp is not a datetime object" ;;;
   df_set_index_inplace r "Timestamp" ;;;
   df <- load r ;;
   res <- lift (resample_mean w df) ;;
   out <- alloc res ;;
   df_reset_index_inplace out ;;;
   k out) h
  = k (fresh (dom h1))
      (<[fresh (dom h1) :=
           mkDataFrame None (RangeIndex (length (Spec.bucket_starts w ts)))
             (("Timestamp"%string, Datetime64 None (Spec.bucket_starts w ts))
                :: Spec.resampled_columns w ts (drop_col "Timestamp" (columns df)))]> h1).
Proof.
  intros W D Hr HT HN HU h1 k.
  rewrite (bind_ok _ _ _ _ _ (df_getitem_ok _ _ _ _ _ Hr HT)).
  cbn [is_datetime64_any_dtype assert_]. unfold ret at 1. unfold bind at 1.
  rewrite (bind_ok _ _ _ _ _
             (df_set_index_run _ _ _ _ (Spec.indexed_caller df ts) Hr
                ltac:(unfold set_index; now rewrite HT))).
  fold h1.
  assert (H1 : h1 !! r = Some (Spec.indexed_caller df ts)) by apply lookup_insert_eq.
  rewrite (bind_ok _ _ _ _ _ (load_ok _ _ _ H1)).
  rewrite (bind_lift_ok (resample_mean w (Spec.indexed_caller df ts)) _ _ _
             (resample_mean_naive w _ ts _ W D HN)).
  unfold alloc at 1. unfold bind at 1.
  set (f := fresh (dom h1)).
  erewrite (bind_ok _ _ _ _ _
              (df_reset_index_run _ _ _ _ (lookup_insert_eq _ _ _) _)).
  - now rewrite insert_insert_eq.
  Unshelve.
  unfold reset_index. cbn [index_name columns].
  rewrite lookup_resampled, HU. reflexivity.
Qed.

Lemma hour3_format_run (h : gmap nat DataFrame) r df ts :
  h !! r = Some df →
  getitem df "Timestamp" = Ok (Datetime64 None ts) →
  forallb (fun c => is_numeric_dtype (snd c)) (drop_col "Timestamp" (columns df)) = true →
  lookup_col "Timestamp" (drop_col "Timestamp" (columns df)) = None →
  let h1 := <[r := Spec.indexed_caller df ts]> h in
  hour3_format r h
  = (Ok (fresh (dom h1)), <[fresh (dom h1) := Spec.hour3_result df ts]> h1).
Proof.
  intros Hr HT HN HU h1. unfold hour3_format.
  rewrite (resample_start h r df ts (6 * ns_per_hour) eq_refl
             six_hours_divide_day Hr HT HN HU).
  reflexivity.
Qed.

Lemma wall_utc ts : map (wall (Some UTC)) ts = ts.
Proof.
  induction ts as [|t ts IH]; simpl; [reflexivity|].
  rewrite IH. f_equal. lia.
Qed.

Lemma hourly_format_run parse (h : gmap nat DataFrame) r df ts :
  h !! r = Some df →
  getitem df "Timestamp" = Ok (Datetime64 None ts) →
  forallb (fun c => is_numeric_dtype (snd c)) (drop_col "Timestamp" (columns df)) = true →
  lookup_col "Timestamp" (drop_col "Timestamp" (columns df)) = None →
  let h1 := <[r := Spec.indexed_caller df ts]> h in
  hourly_format parse r h
  = (Ok (fresh (dom h1)), <[fresh (dom h1) := Spec.hourly_result df ts]> h1).
Proof.
  intros Hr HT HN HU h1. unfold hourly_format.
  rewrite (resample_start h r df ts ns_per_hour eq_refl
             hour_divides_day Hr HT HN HU).
  fold h1. set (f := fresh (dom h1)).
  set (labels := Spec.bucket_starts ns_per_hour ts).
  set (cols := Spec.resampled_columns ns_per_hour ts (drop_col "Timestamp" (columns df))).
  match goal with |- context [<[f := ?d]> h1] => set (d0 := d); set (g0 := <[f := d0]> h1) end.
  assert (G0 : g0 !! f = Some d0) by apply lookup_insert_eq.
  rewrite (bind_ok _ _ _ _ _ (df_getitem_ok _ _ _ "Timestamp" (Datetime64 None labels) G0 eq_refl)).
  rewrite (bind_lift_ok _ _ _ (Datetime64 (Some UTC) labels)) by reflexivity.
  rewrite (bind_ok _ _ _ _ _ (df_setitem_run _ _ _ _ _ G0)).
  match goal with |- context [<[f := ?d]> g0] => set (d1 := d); set (g1 := <[f := d1]> g0) end.
  assert (G1 : g1 !! f = Some d1) by apply lookup_insert_eq.
  rewrite (bind_ok _ _ _ _ _ (df_getitem_ok _ _ _ "Timestamp" (Datetime64 (Some UTC) labels) G1 eq_refl)).
  rewrite (bind_lift_ok _ _ _ (map (fun t => dayofyear (wall (Some UTC) t)) labels)) by reflexivity.
  rewrite (bind_ok _ _ _ _ _ (df_getitem_ok _ _ _ "Timestamp" (Datetime64 (Some UTC) labels) G1 eq_refl)).
  rewrite (bind_lift_ok _ _ _ (map (fun t => hour (wall (Some UTC) t)) labels)) by reflexivity.
  rewrite (bind_ok _ _ _ _ _ (df_setitem_run _ _ _ _ _ G1)).
  match goal with |- context [<[f := ?d]> g1] => set (d2 := d); set (g2 := <[f := d2]> g1) end.
  assert (G2 : g2 !! f = Some d2) by apply lookup_insert_eq.
  rewrite (bind_ok _ _ _ _ _ (df_getitem_ok _ _ _ "Timestamp" (Datetime64 (Some UTC) labels) G2 eq_refl)).
  rewrite (bind_lift_ok _ _ _ (Datetime64 None (map (wall (Some UTC)) labels))) by reflexivity.
  rewrite (bind_ok _ _ _ _ _ (df_setitem_run _ _ _ _ _ G2)).
  unfold ret. f_equal. unfold g2, g1, g0. rewrite !insert_insert_eq. f_equal.
  unfold d2, d1, d0, Spec.hourly_result, setitem. cbn [index_name index columns assign_col String.eqb Ascii.eqb Bool.eqb].
  fold labels. fold cols. rewrite wall_utc, zip_with_map_same.
  do 3 f_equal. f_equal. apply map_ext. intros t.
  unfold hour_of_year, wall, utcoffset. now rewrite Z.add_0_r.
Qed.

Lemma resampled_getitem w ts (df : DataFrame) name s extra :
  String.eqb name "Timestamp" = false →
  getitem df name = Ok s →
  is_numeric_dtype s = true →
  lookup_col name (("Timestamp"%string, extra)
                     :: Spec.resampled_columns w ts (drop_col "Timestamp" (columns df)))
  = Some (Float64 (map (bucket_mean w ts (Spec.float_values s)) (Spec.bucket_starts w ts))).
Proof.
  intros N G _. cbn [lookup_col]. rewrite N.
  rewrite lookup_resampled, lookup_drop_other by exact N.
  apply getitem_lookup in G. now rewrite G.
Qed.

(** *** Midnight in a time zone *)

Lemma datetime_at_hour y m d hh :
  datetime y m d hh 0 0 = days_from_civil y m d * ns_per_day + hh * ns_per_hour.
Proof. unfold datetime. lia. Qed.

Lemma mountain_dst_start_at_nine y :
  ∃ d, mountain_dst_start y = d * ns_per_day + 9 * ns_per_hour.
Proof.
  unfold mountain_dst_start.
  repeat match goal with |- context [if ?c then _ else _] => destruct c end;
    rewrite datetime_at_hour; eauto.
Qed.

Lemma mountain_dst_end_at_eight y :
  ∃ d, mountain_dst_end y = d * ns_per_day + 8 * ns_per_hour.
Proof.
  unfold mountain_dst_end.
  repeat match goal with |- context [if ?c then _ else _] => destruct c end;
    rewrite datetime_at_hour; eauto.
Qed.

Lemma days_of_within_day d k :
  0 <= k < ns_per_day → days_of (d * ns_per_day + k) = d.
Proof.
  intros K. unfold days_of. symmetry.
  apply (Z.div_unique _ _ _ k); [left; exact K|lia].
Qed.

(** Midnight of any day exists exactly once on the Mountain wall clock:
    the clocks change at 02:00. *)
Lemma tz_localize_midnight z d :
  ∃ k, tz_localize z (d * ns_per_day) = Some (d * ns_per_day + k * ns_per_hour).
Proof.
  destruct z.
  - exists 0. cbn [tz_localize]. f_equal. lia.
  - cbn [tz_localize]. cbv zeta. unfold wall, utcoffset, mountain_utcoffset.
    unfold year_of.
    rewrite !days_of_within_day by (unfold ns_per_day, ns_per_hour, ns_per_second; lia).
    set (y := fst (days_to_yearsdays d)).
    destruct (mountain_dst_start_at_nine y) as [s Hs].
    destruct (mountain_dst_end_at_eight y) as [e He].
    rewrite Hs, He.
    set (a := d * ns_per_day + 7 * ns_per_hour).
    set (b := d * ns_per_day + 6 * ns_per_hour).
    destruct (1967 <=? y); cbn [andb].
    + destruct (Z.leb_spec (s * ns_per_day + 9 * ns_per_hour) a),
               (Z.ltb_spec a (e * ns_per_day + 8 * ns_per_hour)),
               (Z.leb_spec (s * ns_per_day + 9 * ns_per_hour) b),
               (Z.ltb_spec b (e * ns_per_day + 8 * ns_per_hour));
        cbn [andb];
        unfold a, b, ns_per_day, ns_per_hour, ns_per_second in *;
        repeat match goal with
               | |- context [?x =? ?y] => destruct (Z.eqb_spec x y); try lia
               end;
        try (exists 7; f_equal; lia); try (exists 6; f_equal; lia);
        try (exists 7; reflexivity); try (exists 6; reflexivity).
    + unfold a, b, ns_per_day, ns_per_hour, ns_per_second in *.
      repeat match goal with
             | |- context [?x =? ?y] => destruct (Z.eqb_spec x y); try lia
             end.
      exists 7. f_equal; lia.
Qed.

Lemma normalize_tz_hour tz t :
  ∃ origin, normalize_tz tz t = Some origin ∧ origin mod ns_per_hour = 0.
Proof.
  destruct tz as [z|]; cbn [normalize_tz]; unfold normalize.
  - destruct (tz_localize_midnight z (days_of (wall (Some z) t))) as [k ->].
    eexists. split; [reflexivity|].
    unfold ns_per_day. rewrite Z.mul_assoc, <- Z.mul_add_distr_r.
    apply Z.mod_mul. discriminate.
  - eexists. split; [reflexivity|].
    unfold ns_per_day. rewrite Z.mul_assoc. apply Z.mod_mul. discriminate.
Qed.

(** *** Resampling timestamps of any zone *)

(** One-hour buckets start on the hour whatever the zone of the
    timestamps: midnight of the first day is a whole number of hours from
    the epoch. *)
Lemma bin_labels_hourly tz ts :
  bin_labels tz ns_per_hour ts = Ok (Spec.bucket_starts ns_per_hour ts).
Proof.
  destruct ts as [|t0 ts]; [reflexivity|].
  unfold bin_labels, Spec.bucket_starts.
  set (first := foldr Z.min t0 ts). set (last := foldr Z.max t0 ts).
  destruct (normalize_tz_hour tz first) as (origin & -> & A).
  assert (W : 0 < ns_per_hour) by reflexivity.
  assert (Off : ∀ t, (t - origin) mod ns_per_hour = t mod ns_per_hour).
  { intros t. rewrite Zminus_mod, A, Z.sub_0_r. apply Z.mod_mod. discriminate. }
  rewrite !Off.
  assert (F : (if first mod ns_per_hour >? 0 then first - first mod ns_per_hour
               else first) = first - first mod ns_per_hour).
  { destruct (first mod ns_per_hour >? 0) eqn:E; [reflexivity|].
    pose proof (Z.mod_pos_bound first ns_per_hour W). lia. }
  assert (L : (if last mod ns_per_hour >? 0
               then last + (ns_per_hour - last mod ns_per_hour)
               else last + ns_per_hour)
              = last - last mod ns_per_hour + ns_per_hour).
  { destruct (last mod ns_per_hour >? 0) eqn:E; [lia|].
    pose proof (Z.mod_pos_bound last ns_per_hour W). lia. }
  cbv zeta. rewrite F, L.
  replace (last - last mod ns_per_hour + ns_per_hour - (first - first mod ns_per_hour))
    with (last - last mod ns_per_hour - (first - first mod ns_per_hour)
          + 1 * ns_per_hour) by ring.
  rewrite Z.div_add by discriminate. reflexivity.
Qed.

Lemma resample_columns_at w ts labels rest :
  forallb (fun c => is_numeric_dtype (snd c)) rest = true →
  mapR (fun '(n, s) =>
          let? m := resample_column w ts labels s in Ok (n, m))
       rest
  = Ok (Spec.resampled_at w ts labels rest).
Proof.
  induction rest as [|[n s] rest IH]; simpl; [reflexivity|].
  intros H. apply andb_true_iff in H as [Hs Hr]. rewrite (IH Hr).
  destruct s; try discriminate; reflexivity.
Qed.

Lemma lookup_resampled_at w ts labels rest name :
  lookup_col name (Spec.resampled_at w ts labels rest)
  = (fun s => Float64 (map (bucket_mean w ts (Spec.float_values s)) labels))
      <$> lookup_col name rest.
Proof.
  unfold Spec.resampled_at.
  induction rest as [|[k v] l IH]; simpl; [reflexivity|].
  destruct (String.eqb name k); [reflexivity|exact IH].
Qed.

(** The common first part of the two resampling operations, for
    timestamps of any zone and the labels pandas chooses for them. *)
Lemma resample_start_at (h : gmap nat DataFrame) r df tz ts w labels :
  h !! r = Some df →
  getitem df "Timestamp" = Ok (Datetime64 tz ts) →
  forallb (fun c => is_numeric_dtype (snd c)) (drop_col "Timestamp" (columns df)) = true →
  lookup_col "Timestamp" (drop_col "Timestamp" (columns df)) = None →
  bin_labels tz w ts = Ok labels →
  let h1 := <[r := mkDataFrame (Some "Timestamp"%string) (Datetime64 tz ts)
                     (drop_col "Timestamp" (columns df))]> h in
  ∀ (k : nat → M nat),
  (ts <- df_getitem r "Timestamp" ;;
   assert_ (is_datetime64_any_dtype ts) "Timestamp is not a datetime object" ;;;
   df_set_index_inplace r "Timestamp" ;;;
   df <- load r ;;
   res <- lift (resample_mean w df) ;;
   out <- alloc res ;;
   df_reset_index_inplace out ;;;
   k out) h
  = k (fresh (dom h1))
      (<[fresh (dom h1) :=
           mkDataFrame None (RangeIndex (length labels))
             (("Timestamp"%string, Datetime64 tz labels)
                :: Spec.resampled_at w ts labels (drop_col "Timestamp" (columns df)))]> h1).
Proof.
  intros Hr HT HN HU HL h1 k.
  set (caller := mkDataFrame (Some "Timestamp"%string) (Datetime64 tz ts)
                   (drop_col "Timestamp" (columns df))) in *.
  rewrite (bind_ok _ _ _ _ _ (df_getitem_ok _ _ _ _ _ Hr HT)).
  cbn [is_datetime64_any_dtype assert_]. unfold ret at 1. unfold bind at 1.
  rewrite (bind_ok _ _ _ _ _
             (df_set_index_run _ _ _ _ caller Hr
                ltac:(unfold set_index; now rewrite HT))).
  fold h1.
  assert (H1 : h1 !! r = Some caller) by apply lookup_insert_eq.
  rewrite (bind_ok _ _ _ _ _ (load_ok _ _ _ H1)).
  assert (RM : resample_mean w caller
               = Ok (mkDataFrame (Some "Timestamp"%string) (Datetime64 tz labels)
                       (Spec.resampled_at w ts labels (drop_col "Timestamp" (columns df))))).
  { unfold resample_mean, caller. cbn [index columns index_name].
    rewrite HL. cbn [rbind]. now rewrite (resample_columns_at w ts labels _ HN). }
  rewrite (bind_lift_ok (resample_mean w caller) _ _ _ RM).
  unfold alloc at 1. unfold bind at 1.
  set (f := fresh (dom h1)).
  erewrite (bind_ok _ _ _ _ _
              (df_reset_index_run _ _ _ _ (lookup_insert_eq _ _ _) _)).
  - now rewrite insert_insert_eq.
  Unshelve.
  unfold reset_index. cbn [index_name columns].
  rewrite lookup_resampled_at, HU. cbn [nrows index series_len].
  reflexivity.
Qed.

(** The run of [hourly_format] on timestamps of any zone. *)
Lemma hourly_format_run_at parse (h : gmap nat DataFrame) r df tz ts :
  h !! r = Some df →
  getitem df "Timestamp" = Ok (Datetime64 tz ts) →
  forallb (fun c => is_numeric_dtype (snd c)) (drop_col "Timestamp" (columns df)) = true →
  lookup_col "Timestamp" (drop_col "Timestamp" (columns df)) = None →
  let h1 := <[r := mkDataFrame (Some "Timestamp"%string) (Datetime64 tz ts)
                     (drop_col "Timestamp" (columns df))]> h in
  hourly_format parse r h
  = (Ok (fresh (dom h1)), <[fresh (dom h1) := Spec.hourly_result df ts]> h1).
Proof.
  intros Hr HT HN HU h1. unfold hourly_format.
  rewrite (resample_start_at h r df tz ts ns_per_hour _ Hr HT HN HU
             (bin_labels_hourly tz ts)).
  fold h1. set (f := fresh (dom h1)).
  set (labels := Spec.bucket_starts ns_per_hour ts).
  set (cols := Spec.resampled_at ns_per_hour ts labels (drop_col "Timestamp" (columns df))).
  match goal with |- context [<[f := ?d]> h1] => set (d0 := d); set (g0 := <[f := d0]> h1) end.
  assert (G0 : g0 !! f = Some d0) by apply lookup_insert_eq.
  rewrite (bind_ok _ _ _ _ _ (df_getitem_ok _ _ _ "Timestamp" (Datetime64 tz labels) G0 eq_refl)).
  rewrite (bind_lift_ok _ _ _ (Datetime64 (Some UTC) labels)) by reflexivity.
  rewrite (bind_ok _ _ _ _ _ (df_setitem_run _ _ _ _ _ G0)).
  match goal with |- context [<[f := ?d]> g0] => set (d1 := d); set (g1 := <[f := d1]> g0) end.
  assert (G1 : g1 !! f = Some d1) by apply lookup_insert_eq.
  rewrite (bind_ok _ _ _ _ _ (df_getitem_ok _ _ _ "Timestamp" (Datetime64 (Some UTC) labels) G1 eq_refl)).
  rewrite (bind_lift_ok _ _ _ (map (fun t => dayofyear (wall (Some UTC) t)) labels)) by reflexivity.
  rewrite (bind_ok _ _ _ _ _ (df_getitem_ok _ _ _ "Timestamp" (Datetime64 (Some UTC) labels) G1 eq_refl)).
  rewrite (bind_lift_ok _ _ _ (map (fun t => hour (wall (Some UTC) t)) labels)) by reflexivity.
  rewrite (bind_ok _ _ _ _ _ (df_setitem_run _ _ _ _ _ G1)).
  match goal with |- context [<[f := ?d]> g1] => set (d2 := d); set (g2 := <[f := d2]> g1) end.
  assert (G2 : g2 !! f = Some d2) by apply lookup_insert_eq.
  rewrite (bind_ok _ _ _ _ _ (df_getitem_ok _ _ _ "Timestamp" (Datetime64 (Some UTC) labels) G2 eq_refl)).
  rewrite (bind_lift_ok _ _ _ (Datetime64 None (map (wall (Some UTC)) labels))) by reflexivity.
  rewrite (bind_ok _ _ _ _ _ (df_setitem_run _ _ _ _ _ G2)).
  unfold ret. f_equal. unfold g2, g1, g0. rewrite !insert_insert_eq. f_equal.
  unfold d2, d1, d0, Spec.hourly_result, setitem. cbn [index_name index columns assign_col String.eqb Ascii.eqb Bool.eqb].
  fold labels. rewrite wall_utc, zip_with_map_same.
  do 3 f_equal. f_equal. apply map_ext. intros t.
  unfold hour_of_year, wall, utcoffset. now rewrite Z.add_0_r.
Qed.







(** Every timestamp has its clock hour among the labels. *)
Lemma bucket_starts_floor w ts t :
  0 < w → In t ts →
  ∃ i, Spec.bucket_starts w ts !! i = Some (t - t mod w).
Proof.
  intros W I.
  destruct (bucket_starts_clock w ts W) as (A & C & _).
  destruct (C t I) as (i & b & Hb & B).
  destruct (A i b Hb) as [M _].
  exists i. rewrite Hb. f_equal.
  pose proof (Z.div_mod b w ltac:(lia)) as Db.
  pose proof (Z.div_mod t w ltac:(lia)) as Dt.
  pose proof (Z.mod_pos_bound t w W) as Ht.
  assert (b / w = t / w); [|nia].
  apply (Z.div_unique t w (b / w) (t - b)); [left; lia|nia].
Qed.




Lemma dayofyear_range t : 1 <= dayofyear t <= 366.
Proof.
  unfold dayofyear, days_to_yearsdays. cbv zeta.
  set (d := (days_of t - (365 * 30 + 7)) mod (400 * 365 + 100 - 4 + 1)).
  pose proof (Z.mod_pos_bound (days_of t - (365 * 30 + 7)) (400 * 365 + 100 - 4 + 1) eq_refl) as B0.
  fold d in B0.
  destruct (d >=? 366) eqn:E1; [|cbn [snd]; lia].
  set (d1 := (d - 1) mod (100 * 365 + 25 - 1)).
  pose proof (Z.mod_pos_bound (d - 1) (100 * 365 + 25 - 1) eq_refl) as B1.
  fold d1 in B1.
  destruct (d1 >=? 365) eqn:E2; [|cbn [snd]; lia].
  set (d2 := (d1 + 1) mod (4 * 365 + 1)).
  pose proof (Z.mod_pos_bound (d1 + 1) (4 * 365 + 1) eq_refl) as B2.
  fold d2 in B2.
  destruct (d2 >=? 366) eqn:E3; cbn [snd]; [|lia].
  pose proof (Z.mod_pos_bound (d2 - 1) 365 eq_refl). lia.
Qed.

Lemma hour_range t : 0 <= hour t <= 23.
Proof.
  unfold hour, hour_of.
  pose proof (Z.mod_pos_bound t ns_per_day eq_refl) as B.
  split.
  - apply Z.div_pos; [lia|reflexivity].
  - assert (t mod ns_per_day / ns_per_hour < 24); [|lia].
    apply Z.div_lt_upper_bound; [reflexivity|].
    change (ns_per_hour * 24) with ns_per_day. lia.
Qed.

(** C3: on a table whose 'Timestamp' column is a datetime column of any
    zone (naive, UTC or US/Mountain) and whose other columns are numeric,
    [hourly_format] returns one row per clock hour from the hour of the
    earliest row to the hour of the latest; the bucket timestamps are read
    as UTC, the integer column 'hour' is
    (day of year - 1) * 24 + hour of day of that UTC reading, with the day
    of year counted from 1, and the 'Timestamp' column holds the UTC
    reading without a zone.  Every input row finds its clock hour among the
    output rows with that hour of the year: a row at 2021-01-01T00:00:00
    UTC gives an output row of hour 0, one at 2021-01-02T03:00:00 UTC gives
    27 and one at 2021-12-31T23:00:00 UTC gives 8759. *)
Theorem hourly_hour_of_year
    (parse : string → option Z) (h : gmap nat DataFrame) r df tz ts :
  h !! r = Some df →
  getitem df "Timestamp" = Ok (Datetime64 tz ts) →
  forallb (fun c => is_numeric_dtype (snd c))
          (drop_col "Timestamp" (columns df)) = true →
  lookup_col "Timestamp" (drop_col "Timestamp" (columns df)) = None →
  ∃ r' h' out labels hours,
    hourly_format parse r h = (Ok r', h')
    ∧ h' !! r' = Some out
    ∧ labels = Spec.bucket_starts ns_per_hour ts
    ∧ getitem out "Timestamp" = Ok (Datetime64 None (map (wall (Some UTC)) labels))
    ∧ getitem out "hour" = Ok (Int64 hours)
    ∧ hours
      = map (fun b => (dayofyear (wall (Some UTC) b) - 1) * 24
                      + hour (wall (Some UTC) b)) labels
    ∧ (∀ b, 1 <= dayofyear b ∧ 0 <= (dayofyear b - 1) * 24 + hour b < 8784)
    ∧ (∀ t, In t ts →
         ∃ i, map (wall (Some UTC)) labels !! i = Some (t - t mod ns_per_hour)
            ∧ hours !! i
              = Some ((dayofyear (t - t mod ns_per_hour) - 1) * 24
                      + hour (t - t mod ns_per_hour)))
    ∧ (In (datetime 2021 1 1 0 0 0) ts →
         ∃ i, map (wall (Some UTC)) labels !! i = Some (datetime 2021 1 1 0 0 0)
            ∧ hours !! i = Some 0)
    ∧ (In (datetime 2021 1 2 3 0 0) ts →
         ∃ i, map (wall (Some UTC)) labels !! i = Some (datetime 2021 1 2 3 0 0)
            ∧ hours !! i = Some 27)
    ∧ (In (datetime 2021 12 31 23 0 0) ts →
         ∃ i, map (wall (Some UTC)) labels !! i = Some (datetime 2021 12 31 23 0 0)
            ∧ hours !! i = Some 8759).
Proof.
  intros Hr HT HN HU.
  pose proof (hourly_format_run_at parse h r df tz ts Hr HT HN HU) as Run.
  cbv zeta in Run.
  set (labels := Spec.bucket_starts ns_per_hour ts).
  set (hours := map (fun b => (dayofyear (wall (Some UTC) b) - 1) * 24
                              + hour (wall (Some UTC) b)) labels).
  assert (Rows : ∀ t, In t ts →
            ∃ i, map (wall (Some UTC)) labels !! i = Some (t - t mod ns_per_hour)
               ∧ hours !! i
                 = Some ((dayofyear (t - t mod ns_per_hour) - 1) * 24
                         + hour (t - t mod ns_per_hour))).
  { intros t I.
    destruct (bucket_starts_floor ns_per_hour ts t eq_refl I) as [i Hi].
    fold labels in Hi. exists i. rewrite wall_utc. split; [exact Hi|].
    unfold hours. rewrite list_lookup_fmap, Hi. cbn [fmap option_fmap option_map].
    unfold wall, utcoffset. now rewrite Z.add_0_r. }
  eexists _, _, _, labels, hours.
  split; [exact Run|]. split; [apply lookup_insert_eq|].
  split; [reflexivity|].
  split. { rewrite wall_utc. reflexivity. }
  split.
  { apply getitem_lookup. unfold Spec.hourly_result. cbn [columns lookup_col].
    change (String.eqb "hour" "Timestamp") with false. cbv iota.
    rewrite lookup_assign_same. do 2 f_equal. unfold hours. fold labels.
    apply map_ext. intros b. unfold hour_of_year, wall, utcoffset.
    now rewrite Z.add_0_r. }
  split; [reflexivity|].
  split. { intros b. pose proof (dayofyear_range b). pose proof (hour_range b). lia. }
  split; [exact Rows|].
  split; [|split]; intros I; exact (Rows _ I).
Qed.

Lemma hourly_hour_of_year_witness :
  ∃ r' h' out,
    hourly_format (fun _ => None) 0%nat (<[0%nat := Samples.mountain_table]> ∅)
      = (Ok r', h')
    ∧ h' !! r' = Some out
    ∧ getitem out "Timestamp"
      = Ok (Datetime64 None [datetime 2021 1 2 3 0 0; datetime 2021 1 2 4 0 0;
                             datetime 2021 1 2 5 0 0])
    ∧ getitem out "hour" = Ok (Int64 [27; 28; 29]).
Proof.
  destruct (hourly_hour_of_year (fun _ => None) (<[0%nat := Samples.mountain_table]> ∅)
              0%nat Samples.mountain_table (Some US_Mountain)
              [datetime 2021 1 2 3 0 0; datetime 2021 1 2 3 20 0;
               datetime 2021 1 2 5 0 0])
    as (r1 & h1 & o1 & l1 & hs & R1 & O1 & L1 & T1 & H1 & Hs & _).
  - reflexivity.
  - reflexivity.
  - reflexivity.
  - reflexivity.
  - subst l1 hs. exists r1, h1, o1.
    split; [exact R1|]. split; [exact O1|]. split; [exact T1|exact H1].
Defined.

(** The run of [hourly_format] on the sample: three hourly buckets from
    03:00, the empty one at 04:00 included, with hours 27, 28 and 29. *)
Example hourly_format_sample :
  getitem (Spec.hourly_result Samples.ten_minute_table
             [datetime 2021 1 2 3 10 0; datetime 2021 1 2 3 20 0;
              datetime 2021 1 2 5 0 0; datetime 2021 1 2 5 59 59]) "Timestamp"
  = Ok (Datetime64 None [datetime 2021 1 2 3 0 0; datetime 2021 1 2 4 0 0;
                         datetime 2021 1 2 5 0 0])
  ∧ getitem (Spec.hourly_result Samples.ten_minute_table
               [datetime 2021 1 2 3 10 0; datetime 2021 1 2 3 20 0;
                datetime 2021 1 2 5 0 0; datetime 2021 1 2 5 59 59]) "hour"
    = Ok (Int64 [27; 28; 29]).
Proof. split; reflexivity. Qed.

End Resample.

(** * Further properties of the operations *)

(** ** The MET table *)

(** The fused column is determined by the three columns it is read from. *)
Lemma fused_unique ds es ss c c' :
  length es = length ds → length ss = length ds →
  Spec.fused ds es ss c → Spec.fused ds es ss c' → c = c'.
Proof.
  intros Le Ls [L1 F1] [L2 F2]. apply list_eq. intros i.
  destruct (ds !! i) as [d|] eqn:Hd.
  - destruct (lookup_lt_is_Some_2 es i) as [e He];
      [rewrite Le; eapply lookup_lt_Some; eauto|].
    destruct (lookup_lt_is_Some_2 ss i) as [s Hs];
      [rewrite Ls; eapply lookup_lt_Some; eauto|].
    destruct (F1 i d e s Hd He Hs) as (v & -> & A1 & A2 & A3).
    destruct (F2 i d e s Hd He Hs) as (v' & -> & B1 & B2 & B3).
    f_equal.
    destruct (geb d (of_Z 30) && leb d (of_Z 60)) eqn:E1.
    + now rewrite A1, B1.
    + destruct (geb d (of_Z 255) && leb d (of_Z 285)) eqn:E2.
      * now rewrite A2, B2.
      * now rewrite A3, B3.
  - apply lookup_ge_None in Hd.
    rewrite (proj2 (lookup_ge_None c i)), (proj2 (lookup_ge_None c' i)); [reflexivity|lia|lia].
Qed.

(** The table [adjust_wind_met] leaves: the two adjusted columns and the
    rescaled pressure assigned on the caller's table. *)
Lemma adjust_wind_met_run (h : gmap nat DataFrame) r df ds e1 s1 e2 s2 ps :
  h !! r = Some df →
  wf_frame df →
  nrows df ≠ 0 →
  getitem df "Dir 57.2m S [°]" = Ok (Float64 ds) →
  getitem df "Spd 59.1m E [m/s]" = Ok (Float64 e1) →
  getitem df "Spd 59.1m SW [m/s]" = Ok (Float64 s1) →
  getitem df "Spd 46m E [m/s]" = Ok (Float64 e2) →
  getitem df "Spd 46m SW [m/s]" = Ok (Float64 s2) →
  getitem df "Pres 2m [hPa]" = Ok (Float64 ps) →
  ∃ c1 c2,
    Spec.fused ds e1 s1 c1 ∧ Spec.fused ds e2 s2 c2
    ∧ adjust_wind_met r h
      = (Ok r,
         <[r := setitem (setitem (setitem df "adjusted_wind_speed_59.1" (Float64 c1))
                           "adjusted_wind_speed_46" (Float64 c2))
                  "Pres 2m [hPa]" (Float64 (map (fun p => div p (of_Z 10)) ps))]> h).
Proof.
  intros Hr W N HD HE1 HS1 HE2 HS2 HP.
  assert (Ld := wf_getitem _ _ _ W HD). assert (Le1 := wf_getitem _ _ _ W HE1).
  assert (Ls1 := wf_getitem _ _ _ W HS1). assert (Le2 := wf_getitem _ _ _ W HE2).
  assert (Ls2 := wf_getitem _ _ _ W HS2). simpl in Ld, Le1, Ls1, Le2, Ls2.
  destruct (adjust_height_run h r df "59.1" ds e1 s1 Hr N HD HE1 HS1 Ld Le1 Ls1)
    as (c1 & Run1 & F1).
  set (df1 := setitem df ("adjusted_wind_speed_" +:+ "59.1") (Float64 c1)) in *.
  set (h1 := <[r := df1]> h) in *.
  assert (Hr1 : h1 !! r = Some df1) by apply lookup_insert_eq.
  destruct (adjust_height_run h1 r df1 "46" ds e2 s2 Hr1 N) as (c2 & Run2 & F2);
    try assumption.
  { now rewrite <- HD; apply getitem_setitem_other. }
  { now rewrite <- HE2; apply getitem_setitem_other. }
  { now rewrite <- HS2; apply getitem_setitem_other. }
  set (df2 := setitem df1 ("adjusted_wind_speed_" +:+ "46") (Float64 c2)) in *.
  set (h2 := <[r := df2]> h1) in *.
  assert (Hr2 : h2 !! r = Some df2) by apply lookup_insert_eq.
  assert (HP2 : getitem df2 "Pres 2m [hPa]" = Ok (Float64 ps)).
  { rewrite <- HP. unfold df2, df1. now rewrite !getitem_setitem_other. }
  exists c1, c2. split; [exact F1|]. split; [exact F2|].
  unfold adjust_wind_met. unfold lift at 1. unfold bind at 1.
  rewrite heights_MET. cbn [forM_].
  unfold bind at 1. unfold bind at 1. rewrite Run1.
  unfold bind at 1. rewrite Run2. unfold ret at 1.
  rewrite (bind_ok _ _ _ _ _ (df_getitem_ok _ _ _ _ _ Hr2 HP2)).
  rewrite (bind_lift_ok _ _ _ (Float64 (map (fun p => div p (of_Z 10)) ps)))
    by reflexivity.
  rewrite (bind_ok _ _ _ _ _ (df_setitem_run _ _ _ _ _ Hr2)).
  unfold ret, h2, h1. now rewrite !insert_insert_eq.
Qed.

Lemma wf_setitem df k s :
  wf_frame df → series_len s = nrows df → wf_frame (setitem df k s).
Proof.
  unfold wf_frame, setitem, nrows. simpl. intros W L.
  induction (columns df) as [|[k' s'] l IH]; simpl.
  - repeat constructor. exact L.
  - inversion W as [|? ? Hc Hl]; subst.
    destruct (String.eqb k k'); constructor; auto.
Qed.

Lemma fused_length ds es ss cs : Spec.fused ds es ss cs → length cs = length ds.
Proof. now intros [L _]. Qed.

(** X1: [adjust_wind_met] divides the 'Pres 2m [hPa]' column by ten, row
    by row and in the caller's table: a finite reading p becomes p / 10, a
    missing reading stays missing, and the column keeps its length. *)
Theorem adjust_wind_met_pressure
    (h : gmap nat DataFrame) r df ds e1 s1 e2 s2 ps :
  h !! r = Some df →
  wf_frame df →
  nrows df ≠ 0 →
  getitem df "Dir 57.2m S [°]" = Ok (Float64 ds) →
  getitem df "Spd 59.1m E [m/s]" = Ok (Float64 e1) →
  getitem df "Spd 59.1m SW [m/s]" = Ok (Float64 s1) →
  getitem df "Spd 46m E [m/s]" = Ok (Float64 e2) →
  getitem df "Spd 46m SW [m/s]" = Ok (Float64 s2) →
  getitem df "Pres 2m [hPa]" = Ok (Float64 ps) →
  ∃ h' df' qs,
    adjust_wind_met r h = (Ok r, h')
    ∧ h' !! r = Some df'
    ∧ getitem df' "Pres 2m [hPa]" = Ok (Float64 qs)
    ∧ length qs = length ps
    ∧ (∀ i p, ps !! i = Some (Fin p) → qs !! i = Some (Fin (p / 10)))
    ∧ (∀ i, ps !! i = Some NaN → qs !! i = Some NaN).
Proof.
  intros Hr W N HD HE1 HS1 HE2 HS2 HP.
  destruct (adjust_wind_met_run h r df ds e1 s1 e2 s2 ps Hr W N HD HE1 HS1 HE2 HS2 HP)
    as (c1 & c2 & _ & _ & Run).
  eexists _, _, _. split; [exact Run|]. split; [apply lookup_insert_eq|].
  split; [apply getitem_setitem_same|]. split; [apply length_map|]. split.
  - intros i p Hp. rewrite list_lookup_fmap, Hp. cbn [fmap option_fmap option_map].
    f_equal. apply div_finite. lra.
  - intros i Hp. rewrite list_lookup_fmap, Hp. reflexivity.
Qed.

Lemma adjust_wind_met_pressure_witness :
  ∃ h' df' qs,
    adjust_wind_met 0 (<[0 := Samples.met_table]> ∅) = (Ok 0, h')
    ∧ h' !! 0 = Some df'
    ∧ getitem df' "Pres 2m [hPa]" = Ok (Float64 qs)
    ∧ length qs = 4.
Proof.
  destruct (adjust_wind_met_pressure (<[0 := Samples.met_table]> ∅) 0
              Samples.met_table
              [Fin 45; Fin 270; Fin 0; Fin 170]
              [Fin 5; Fin 6; Fin 7; Fin 8] [Fin 9; Fin 4; Fin 3; Fin 2]
              [Fin 4; Fin 5; Fin 6; Fin 7] [Fin 8; Fin 3; Fin 2; Fin 1]
              [Fin 1013; Fin 1012; Fin 1011; Fin 1010])
    as (h' & df' & qs & Run & L & G & Len & _).
  - reflexivity.
  - repeat constructor.
  - discriminate.
  - reflexivity.
  - reflexivity.
  - reflexivity.
  - reflexivity.
  - reflexivity.
  - reflexivity.
  - exists h', df', qs. split; [exact Run|]. split; [exact L|].
    split; [exact G|exact Len].
Defined.

(** X2: a successful [adjust_wind_met] touches nothing but the two
    adjusted-speed columns and the pressure column of the caller's table:
    every other table of the heap, the row labels and their name, and every
    other column are as before, and a well-formed table stays well
    formed. *)
Theorem adjust_wind_met_frame
    (h : gmap nat DataFrame) r df ds e1 s1 e2 s2 ps :
  h !! r = Some df →
  wf_frame df →
  nrows df ≠ 0 →
  getitem df "Dir 57.2m S [°]" = Ok (Float64 ds) →
  getitem df "Spd 59.1m E [m/s]" = Ok (Float64 e1) →
  getitem df "Spd 59.1m SW [m/s]" = Ok (Float64 s1) →
  getitem df "Spd 46m E [m/s]" = Ok (Float64 e2) →
  getitem df "Spd 46m SW [m/s]" = Ok (Float64 s2) →
  getitem df "Pres 2m [hPa]" = Ok (Float64 ps) →
  ∃ h' df',
    adjust_wind_met r h = (Ok r, h')
    ∧ h' !! r = Some df'
    ∧ (∀ l, l ≠ r → h' !! l = h !! l)
    ∧ index df' = index df
    ∧ index_name df' = index_name df
    ∧ wf_frame df'
    ∧ (∀ name,
          String.eqb name "adjusted_wind_speed_59.1" = false →
          String.eqb name "adjusted_wind_speed_46" = false →
          String.eqb name "Pres 2m [hPa]" = false →
          getitem df' name = getitem df name).
Proof.
  intros Hr W N HD HE1 HS1 HE2 HS2 HP.
  destruct (adjust_wind_met_run h r df ds e1 s1 e2 s2 ps Hr W N HD HE1 HS1 HE2 HS2 HP)
    as (c1 & c2 & F1 & F2 & Run).
  assert (Ld := wf_getitem _ _ _ W HD). assert (Lp := wf_getitem _ _ _ W HP).
  simpl in Ld, Lp.
  eexists _, _. split; [exact Run|]. split; [apply lookup_insert_eq|].
  split; [intros l Hl; now apply lookup_insert_ne|].
  split; [reflexivity|]. split; [reflexivity|]. split.
  - repeat apply wf_setitem; try exact W; simpl.
    + rewrite (fused_length _ _ _ _ F1). exact Ld.
    + rewrite (fused_length _ _ _ _ F2). exact Ld.
    + rewrite length_map. exact Lp.
  - intros name N1 N2 N3. now rewrite !getitem_setitem_other.
Qed.

Lemma adjust_wind_met_frame_witness :
  ∃ h' df',
    adjust_wind_met 0 (<[0 := Samples.met_table]> ∅) = (Ok 0, h')
    ∧ h' !! 0 = Some df'
    ∧ index df' = index Samples.met_table
    ∧ getitem df' "Spd 46m E [m/s]" = getitem Samples.met_table "Spd 46m E [m/s]".
Proof.
  destruct (adjust_wind_met_frame (<[0 := Samples.met_table]> ∅) 0
              Samples.met_table
              [Fin 45; Fin 270; Fin 0; Fin 170]
              [Fin 5; Fin 6; Fin 7; Fin 8] [Fin 9; Fin 4; Fin 3; Fin 2]
              [Fin 4; Fin 5; Fin 6; Fin 7] [Fin 8; Fin 3; Fin 2; Fin 1]
              [Fin 1013; Fin 1012; Fin 1011; Fin 1010])
    as (h' & df' & Run & L & _ & I & _ & _ & Other).
  - reflexivity.
  - repeat constructor.
  - discriminate.
  - reflexivity.
  - reflexivity.
  - reflexivity.
  - reflexivity.
  - reflexivity.
  - reflexivity.
  - exists h', df'. split; [exact Run|]. split; [exact L|].
    split; [exact I|]. apply Other; reflexivity.
Defined.

Lemma getitem_missing_setitem df k k0 s :
  String.eqb k0 k = false →
  getitem df k0 = Raise (KeyError k0) →
  getitem (setitem df k s) k0 = Raise (KeyError k0).
Proof. intros N G. now rewrite getitem_setitem_other. Qed.

(** X3: on a MET table without the 'Pres 2m [hPa]' column
    [adjust_wind_met] raises the KeyError of that column only after both
    adjusted-speed columns have been written: the caller's table is left
    with the two fused columns. *)
Theorem adjust_wind_met_missing_pressure
    (h : gmap nat DataFrame) r df ds e1 s1 e2 s2 :
  h !! r = Some df →
  wf_frame df →
  nrows df ≠ 0 →
  getitem df "Dir 57.2m S [°]" = Ok (Float64 ds) →
  getitem df "Spd 59.1m E [m/s]" = Ok (Float64 e1) →
  getitem df "Spd 59.1m SW [m/s]" = Ok (Float64 s1) →
  getitem df "Spd 46m E [m/s]" = Ok (Float64 e2) →
  getitem df "Spd 46m SW [m/s]" = Ok (Float64 s2) →
  getitem df "Pres 2m [hPa]" = Raise (KeyError "Pres 2m [hPa]") →
  ∃ h' df' c1 c2,
    adjust_wind_met r h = (Raise (KeyError "Pres 2m [hPa]"), h')
    ∧ h' !! r = Some df'
    ∧ getitem df' "adjusted_wind_speed_59.1" = Ok (Float64 c1)
    ∧ getitem df' "adjusted_wind_speed_46" = Ok (Float64 c2)
    ∧ Spec.fused ds e1 s1 c1
    ∧ Spec.fused ds e2 s2 c2.
Proof.
  intros Hr W N HD HE1 HS1 HE2 HS2 HP.
  assert (Ld := wf_getitem _ _ _ W HD). assert (Le1 := wf_getitem _ _ _ W HE1).
  assert (Ls1 := wf_getitem _ _ _ W HS1). assert (Le2 := wf_getitem _ _ _ W HE2).
  assert (Ls2 := wf_getitem _ _ _ W HS2). simpl in Ld, Le1, Ls1, Le2, Ls2.
  destruct (adjust_height_run h r df "59.1" ds e1 s1 Hr N HD HE1 HS1 Ld Le1 Ls1)
    as (c1 & Run1 & F1).
  set (df1 := setitem df ("adjusted_wind_speed_" +:+ "59.1") (Float64 c1)) in *.
  set (h1 := <[r := df1]> h) in *.
  assert (Hr1 : h1 !! r = Some df1) by apply lookup_insert_eq.
  destruct (adjust_height_run h1 r df1 "46" ds e2 s2 Hr1 N) as (c2 & Run2 & F2);
    try assumption.
  { now rewrite <- HD; apply getitem_setitem_other. }
  { now rewrite <- HE2; apply getitem_setitem_other. }
  { now rewrite <- HS2; apply getitem_setitem_other. }
  set (df2 := setitem df1 ("adjusted_wind_speed_" +:+ "46") (Float64 c2)) in *.
  set (h2 := <[r := df2]> h1) in *.
  assert (Hr2 : h2 !! r = Some df2) by apply lookup_insert_eq.
  assert (HP2 : getitem df2 "Pres 2m [hPa]" = Raise (KeyError "Pres 2m [hPa]")).
  { unfold df2, df1. now rewrite !getitem_setitem_other. }
  exists h2, df2, c1, c2.
  split; [|split; [exact Hr2|split; [|split; [|split; assumption]]]].
  - unfold adjust_wind_met. unfold lift at 1. unfold bind at 1.
    rewrite heights_MET. cbn [forM_].
    unfold bind at 1. unfold bind at 1. rewrite Run1.
    unfold bind at 1. rewrite Run2. unfold ret at 1.
    apply bind_raise. rewrite (df_getitem_run _ _ _ _ Hr2). now rewrite HP2.
  - unfold df2, df1. rewrite getitem_setitem_other by reflexivity.
    apply getitem_setitem_same.
  - apply getitem_setitem_same.
Qed.

Lemma adjust_wind_met_missing_pressure_witness :
  ∃ h' df' c1 c2,
    adjust_wind_met 0 (<[0 := Samples.met_table_without_pressure]> ∅)
      = (Raise (KeyError "Pres 2m [hPa]"), h')
    ∧ h' !! 0 = Some df'
    ∧ getitem df' "adjusted_wind_speed_59.1" = Ok (Float64 c1)
    ∧ getitem df' "adjusted_wind_speed_46" = Ok (Float64 c2)
    ∧ Spec.fused [Fin 45; Fin 170] [Fin 5; Fin 8] [Fin 9; Fin 2] c1
    ∧ Spec.fused [Fin 45; Fin 170] [Fin 4; Fin 7] [Fin 8; Fin 1] c2.
Proof.
  apply (adjust_wind_met_missing_pressure
           (<[0 := Samples.met_table_without_pressure]> ∅) 0
           Samples.met_table_without_pressure).
  - reflexivity.
  - repeat constructor.
  - discriminate.
  - reflexivity.
  - reflexivity.
  - reflexivity.
  - reflexivity.
  - reflexivity.
  - reflexivity.
Defined.

Lemma row_get_missing df i name :
  lookup_col name (columns df) = None →
  row_get (row_at df i) name = Raise (KeyError name).
Proof.
  unfold row_get, row_at. generalize (upcasts df) as up. intros up.
  intros H. replace (lookup_col name _) with (@None scalar); [reflexivity|].
  symmetry. induction (columns df) as [|[k s] l IH]; simpl in *; [reflexivity|].
  destruct (String.eqb name k) eqn:E; [discriminate|].
  destruct (values s !! i); simpl; [rewrite E|]; auto.
Qed.

(** X4: on a table with rows but without the direction column
    [adjust_wind_met] raises the KeyError of 'Dir 57.2m S [°]' from the first
    row, before anything is written: the heap is unchanged. *)
Theorem adjust_wind_met_missing_direction (h : gmap nat DataFrame) r df :
  h !! r = Some df →
  nrows df ≠ 0 →
  getitem df "Dir 57.2m S [°]" = Raise (KeyError "Dir 57.2m S [°]") →
  adjust_wind_met r h = (Raise (KeyError "Dir 57.2m S [°]"), h).
Proof.
  intros Hr N HD. apply getitem_missing in HD.
  unfold adjust_wind_met. unfold lift at 1. unfold bind at 1.
  rewrite heights_MET. cbn [forM_].
  apply bind_raise. apply bind_raise.
  rewrite (bind_ok _ _ _ _ _ (load_ok _ _ _ Hr)).
  apply bind_raise. unfold lift. f_equal.
  unfold apply_rows, iterrows. destruct (nrows df) as [|n]; [contradiction|].
  cbn [seq map mapR]. unfold adjusted_wind_helper at 1, py_and.
  now rewrite (row_get_missing df 0 _ HD).
Qed.

Lemma adjust_wind_met_missing_direction_witness :
  adjust_wind_met 0 (<[0 := Samples.text_table]> ∅)
  = (Raise (KeyError "Dir 57.2m S [°]"), <[0 := Samples.text_table]> ∅).
Proof.
  apply (adjust_wind_met_missing_direction (<[0 := Samples.text_table]> ∅) 0
           Samples.text_table).
  - reflexivity.
  - discriminate.
  - reflexivity.
Defined.

(** X5: [adjust_wind_met] is not repeatable on the same table: a second
    call succeeds and recomputes the same adjusted speeds, but divides the
    pressure by ten once more, so that a finite reading p ends as
    p / 100. *)
Theorem adjust_wind_met_twice
    (h : gmap nat DataFrame) r df ds e1 s1 e2 s2 ps :
  h !! r = Some df →
  wf_frame df →
  nrows df ≠ 0 →
  getitem df "Dir 57.2m S [°]" = Ok (Float64 ds) →
  getitem df "Spd 59.1m E [m/s]" = Ok (Float64 e1) →
  getitem df "Spd 59.1m SW [m/s]" = Ok (Float64 s1) →
  getitem df "Spd 46m E [m/s]" = Ok (Float64 e2) →
  getitem df "Spd 46m SW [m/s]" = Ok (Float64 s2) →
  getitem df "Pres 2m [hPa]" = Ok (Float64 ps) →
  ∃ h1 h2 df1 df2 qs,
    adjust_wind_met r h = (Ok r, h1)
    ∧ adjust_wind_met r h1 = (Ok r, h2)
    ∧ h1 !! r = Some df1
    ∧ h2 !! r = Some df2
    ∧ getitem df2 "adjusted_wind_speed_59.1" = getitem df1 "adjusted_wind_speed_59.1"
    ∧ getitem df2 "adjusted_wind_speed_46" = getitem df1 "adjusted_wind_speed_46"
    ∧ getitem df2 "Pres 2m [hPa]" = Ok (Float64 qs)
    ∧ length qs = length ps
    ∧ ∀ i p, ps !! i = Some (Fin p) → qs !! i = Some (Fin (p / 100)).
Proof.
  intros Hr W N HD HE1 HS1 HE2 HS2 HP.
  destruct (adjust_wind_met_run h r df ds e1 s1 e2 s2 ps Hr W N HD HE1 HS1 HE2 HS2 HP)
    as (c1 & c2 & F1 & F2 & Run1).
  assert (Ld := wf_getitem _ _ _ W HD). assert (Lp := wf_getitem _ _ _ W HP).
  assert (Le1 := wf_getitem _ _ _ W HE1). assert (Ls1 := wf_getitem _ _ _ W HS1).
  assert (Le2 := wf_getitem _ _ _ W HE2). assert (Ls2 := wf_getitem _ _ _ W HS2).
  simpl in Ld, Lp, Le1, Ls1, Le2, Ls2.
  match type of Run1 with _ = (_, <[r := ?d]> h) => set (df1 := d) in * end.
  set (h1 := <[r := df1]> h) in *.
  assert (Hr1 : h1 !! r = Some df1) by apply lookup_insert_eq.
  assert (W1 : wf_frame df1).
  { unfold df1. repeat apply wf_setitem; try exact W; simpl.
    - rewrite (fused_length _ _ _ _ F1). exact Ld.
    - rewrite (fused_length _ _ _ _ F2). exact Ld.
    - rewrite length_map. exact Lp. }
  assert (O : ∀ name,
            String.eqb name "adjusted_wind_speed_59.1" = false →
            String.eqb name "adjusted_wind_speed_46" = false →
            String.eqb name "Pres 2m [hPa]" = false →
            getitem df1 name = getitem df name).
  { intros name N1 N2 N3. unfold df1. now rewrite !getitem_setitem_other. }
  destruct (adjust_wind_met_run h1 r df1 ds e1 s1 e2 s2
              (map (fun p => div p (of_Z 10)) ps) Hr1 W1 N)
    as (d1 & d2 & G1 & G2 & Run2).
  { now rewrite O. } { now rewrite O. } { now rewrite O. }
  { now rewrite O. } { now rewrite O. }
  { apply getitem_setitem_same. }
  assert (E1 : d1 = c1) by (apply (fused_unique ds e1 s1); auto; lia).
  assert (E2 : d2 = c2) by (apply (fused_unique ds e2 s2); auto; lia).
  subst d1 d2.
  eexists h1, _, df1, _, _.
  split; [exact Run1|]. split; [exact Run2|]. split; [exact Hr1|].
  split; [apply lookup_insert_eq|].
  split.
  { rewrite !getitem_setitem_other by reflexivity. rewrite getitem_setitem_same.
    unfold df1. rewrite !getitem_setitem_other by reflexivity.
    now rewrite getitem_setitem_same. }
  split.
  { rewrite !getitem_setitem_other by reflexivity. rewrite getitem_setitem_same.
    unfold df1. rewrite !getitem_setitem_other by reflexivity.
    now rewrite getitem_setitem_same. }
  split; [apply getitem_setitem_same|]. split; [now rewrite !length_map|].
  intros i p Hp. rewrite !list_lookup_fmap, Hp.
  cbn [fmap option_fmap option_map]. f_equal. unfold of_Z.
  rewrite (div_finite p 10) by lra. rewrite div_finite by lra. f_equal. lra.
Qed.

Lemma adjust_wind_met_twice_witness :
  ∃ h1 h2 df2 qs,
    adjust_wind_met 0 (<[0 := Samples.met_table]> ∅) = (Ok 0, h1)
    ∧ adjust_wind_met 0 h1 = (Ok 0, h2)
    ∧ h2 !! 0 = Some df2
    ∧ getitem df2 "Pres 2m [hPa]" = Ok (Float64 qs)
    ∧ qs !! 0 = Some (Fin (1013 / 100)).
Proof.
  destruct (adjust_wind_met_twice (<[0 := Samples.met_table]> ∅) 0
              Samples.met_table
              [Fin 45; Fin 270; Fin 0; Fin 170]
              [Fin 5; Fin 6; Fin 7; Fin 8] [Fin 9; Fin 4; Fin 3; Fin 2]
              [Fin 4; Fin 5; Fin 6; Fin 7] [Fin 8; Fin 3; Fin 2; Fin 1]
              [Fin 1013; Fin 1012; Fin 1011; Fin 1010])
    as (h1 & h2 & df1 & df2 & qs & Run1 & Run2 & _ & L2 & _ & _ & G & _ & Rows).
  - reflexivity.
  - repeat constructor.
  - discriminate.
  - reflexivity.
  - reflexivity.
  - reflexivity.
  - reflexivity.
  - reflexivity.
  - reflexivity.
  - exists h1, h2, df2, qs. split; [exact Run1|]. split; [exact Run2|].
    split; [exact L2|]. split; [exact G|]. apply Rows. reflexivity.
Defined.

(** X6: on finite sensor readings [adjusted_wind_helper] returns a finite
    speed between the smaller and the larger of the two readings, whatever
    the direction cell holds (a missing or out-of-range direction
    included). *)
Theorem adjusted_wind_between r wdir east_col sw_col d e s :
  row_get r wdir = Ok (VFloat d) →
  row_get r east_col = Ok (VFloat (Fin e)) →
  row_get r sw_col = Ok (VFloat (Fin s)) →
  ∃ v, adjusted_wind_helper r wdir east_col sw_col = Ok (VFloat (Fin v))
     ∧ (Rmin e s <= v <= Rmax e s)%R.
Proof.
  intros D E S.
  rewrite (adjusted_wind_helper_floats _ _ _ _ _ _ _ D E S).
  unfold Spec.directional_fusion.
  pose proof (Rmin_l e s). pose proof (Rmin_r e s).
  pose proof (Rmax_l e s). pose proof (Rmax_r e s).
  destruct (geb d (of_Z 30) && leb d (of_Z 60)).
  - exists e. split; [reflexivity|lra].
  - destruct (geb d (of_Z 255) && leb d (of_Z 285)).
    + exists s. split; [reflexivity|lra].
    + exists ((e + s) / 2)%R. split; [|lra].
      cbn [add]. unfold of_Z. rewrite div_finite by lra. reflexivity.
Qed.

Lemma adjusted_wind_between_witness :
  ∃ v,
    adjusted_wind_helper
      [("Dir 57.2m S [°]", VFloat (Fin 170));
       ("Spd 59.1m E [m/s]", VFloat (Fin 8));
       ("Spd 59.1m SW [m/s]", VFloat (Fin 2))]
      "Dir 57.2m S [°]" "Spd 59.1m E [m/s]" "Spd 59.1m SW [m/s]"
    = Ok (VFloat (Fin v))
    ∧ (Rmin 8 2 <= v <= Rmax 8 2)%R.
Proof.
  apply (adjusted_wind_between _ _ _ _ (Fin 170) 8 2); reflexivity.
Defined.

(** X7: [scale_training_data] depends on [adjust_wind_met] having run: on
    the raw MET table it raises the KeyError of 'adjusted_wind_speed_59.1'
    and changes nothing; after [adjust_wind_met] it succeeds on the same
    table, returns a new table and leaves the adjusted one in place, and
    each returned speed is the fused speed, or that speed times one of the
    two factors. *)
Theorem adjust_then_scale
    (h : gmap nat DataFrame) r df ds e1 s1 e2 s2 ps scale_up scale_mid :
  h !! r = Some df →
  wf_frame df →
  nrows df ≠ 0 →
  getitem df "Dir 57.2m S [°]" = Ok (Float64 ds) →
  getitem df "Spd 59.1m E [m/s]" = Ok (Float64 e1) →
  getitem df "Spd 59.1m SW [m/s]" = Ok (Float64 s1) →
  getitem df "Spd 46m E [m/s]" = Ok (Float64 e2) →
  getitem df "Spd 46m SW [m/s]" = Ok (Float64 s2) →
  getitem df "Pres 2m [hPa]" = Ok (Float64 ps) →
  getitem df "adjusted_wind_speed_59.1"
    = Raise (KeyError "adjusted_wind_speed_59.1") →
  scale_training_data r scale_up scale_mid h
    = (Raise (KeyError "adjusted_wind_speed_59.1"), h)
  ∧ ∃ h1 r' h2 out c1 ys,
      adjust_wind_met r h = (Ok r, h1)
      ∧ scale_training_data r scale_up scale_mid h1 = (Ok r', h2)
      ∧ r' ≠ r
      ∧ h2 !! r = h1 !! r
      ∧ h2 !! r' = Some out
      ∧ Spec.fused ds e1 s1 c1
      ∧ getitem out "adjusted_wind_speed_59.1" = Ok (Float64 ys)
      ∧ length ys = length c1
      ∧ ∀ i x, c1 !! i = Some x →
          ∃ y, ys !! i = Some y
             ∧ (y = x ∨ y = mul x scale_up ∨ y = mul x scale_mid).
Proof.
  intros Hr W N HD HE1 HS1 HE2 HS2 HP HA. split.
  { unfold scale_training_data. apply bind_raise.
    rewrite (df_getitem_run _ _ _ _ Hr). now rewrite HA. }
  destruct (adjust_wind_met_run h r df ds e1 s1 e2 s2 ps Hr W N HD HE1 HS1 HE2 HS2 HP)
    as (c1 & c2 & F1 & F2 & Run1).
  match type of Run1 with _ = (_, <[r := ?d]> h) => set (df1 := d) in * end.
  set (h1 := <[r := df1]> h) in *.
  assert (Hr1 : h1 !! r = Some df1) by apply lookup_insert_eq.
  assert (HC : getitem df1 "adjusted_wind_speed_59.1" = Ok (Float64 c1)).
  { unfold df1. rewrite !getitem_setitem_other by reflexivity.
    apply getitem_setitem_same. }
  pose proof (scale_training_data_run h1 r df1 c1 scale_up scale_mid Hr1 HC) as Run2.
  cbv zeta in Run2.
  match type of Run2 with context [Float64 ?l] => set (ys := l) in * end.
  exists h1, (fresh (dom h1)), (<[fresh (dom h1) := setitem df1 "adjusted_wind_speed_59.1" (Float64 ys)]> h1),
         (setitem df1 "adjusted_wind_speed_59.1" (Float64 ys)), c1, ys.
  split; [exact Run1|]. split; [exact Run2|].
  assert (Fr : fresh (dom h1) ≠ r).
  { intros E. pose proof (fresh_not_live h1) as F. rewrite E, Hr1 in F. discriminate. }
  split; [exact Fr|].
  split; [now apply lookup_insert_ne|].
  split; [apply lookup_insert_eq|]. split; [exact F1|].
  split; [apply getitem_setitem_same|].
  split; [unfold ys; now rewrite !mul_where_length|].
  intros i x Hx. eexists. split; [exact (scaled_rows c1 scale_up scale_mid i x Hx)|].
  cbv zeta. destruct (gtb x _); [auto|]. destruct (ltb x _); auto.
Qed.

Lemma adjust_then_scale_witness :
  scale_training_data 0 (of_Z 2) (of_Z 1) (<[0 := Samples.met_table]> ∅)
    = (Raise (KeyError "adjusted_wind_speed_59.1"), <[0 := Samples.met_table]> ∅)
  ∧ ∃ h1 r' h2,
      adjust_wind_met 0 (<[0 := Samples.met_table]> ∅) = (Ok 0, h1)
      ∧ scale_training_data 0 (of_Z 2) (of_Z 1) h1 = (Ok r', h2).
Proof.
  destruct (adjust_then_scale (<[0 := Samples.met_table]> ∅) 0
              Samples.met_table
              [Fin 45; Fin 270; Fin 0; Fin 170]
              [Fin 5; Fin 6; Fin 7; Fin 8] [Fin 9; Fin 4; Fin 3; Fin 2]
              [Fin 4; Fin 5; Fin 6; Fin 7] [Fin 8; Fin 3; Fin 2; Fin 1]
              [Fin 1013; Fin 1012; Fin 1011; Fin 1010] (of_Z 2) (of_Z 1))
    as (Before & h1 & r' & h2 & out & c1 & ys & Run1 & Run2 & _).
  - reflexivity.
  - repeat constructor.
  - discriminate.
  - reflexivity.
  - reflexivity.
  - reflexivity.
  - reflexivity.
  - reflexivity.
  - reflexivity.
  - reflexivity.
  - split; [exact Before|]. exists h1, r', h2. split; [exact Run1|exact Run2].
Defined.

(** X8: every operation raises the KeyError of the first column it reads
    when that column is absent, and leaves the heap unchanged: 'Timestamp'
    for [hourly_format], [hour3_format] and [concurrent_data],
    'Date/time [UTC]' for [format_era5], 'Spd 102m [m/s]' and then
    'Spd 46m [m/s]' for [wind_shear], 'adjusted_wind_speed_59.1' for
    [scale_training_data]. *)
Theorem missing_column_raises
    (parse : string → option Z) (h : gmap nat DataFrame) r df :
  h !! r = Some df →
  (getitem df "Timestamp" = Raise (KeyError "Timestamp") →
     hourly_format parse r h = (Raise (KeyError "Timestamp"), h)
     ∧ hour3_format r h = (Raise (KeyError "Timestamp"), h)
     ∧ ∀ a b, concurrent_data parse r a b h = (Raise (KeyError "Timestamp"), h))
  ∧ (getitem df "Date/time [UTC]" = Raise (KeyError "Date/time [UTC]") →
     format_era5 parse r h = (Raise (KeyError "Date/time [UTC]"), h))
  ∧ (getitem df "Spd 102m [m/s]" = Raise (KeyError "Spd 102m [m/s]") →
     wind_shear r h = (Raise (KeyError "Spd 102m [m/s]"), h))
  ∧ (∀ s, getitem df "Spd 102m [m/s]" = Ok s →
     getitem df "Spd 46m [m/s]" = Raise (KeyError "Spd 46m [m/s]") →
     wind_shear r h = (Raise (KeyError "Spd 46m [m/s]"), h))
  ∧ (getitem df "adjusted_wind_speed_59.1"
       = Raise (KeyError "adjusted_wind_speed_59.1") →
     ∀ scale_up scale_mid,
       scale_training_data r scale_up scale_mid h
       = (Raise (KeyError "adjusted_wind_speed_59.1"), h)).
Proof.
  intros Hr.
  assert (Miss : ∀ {A} name (k : Series → M A),
            getitem df name = Raise (KeyError name) →
            bind (df_getitem r name) k h = (Raise (KeyError name), h)).
  { intros A name k G. apply bind_raise.
    rewrite (df_getitem_run _ _ _ _ Hr). now rewrite G. }
  split; [|split; [|split; [|split]]].
  - intros G. split; [|split].
    + unfold hourly_format. now apply Miss.
    + unfold hour3_format. now apply Miss.
    + intros a b. unfold concurrent_data. now apply Miss.
  - intros G. unfold format_era5. now apply Miss.
  - intros G. unfold wind_shear. now apply Miss.
  - intros s G1 G0. unfold wind_shear.
    rewrite (bind_ok _ _ _ _ _ (df_getitem_ok _ _ _ _ _ Hr G1)). now apply Miss.
  - intros G up mid. unfold scale_training_data. now apply Miss.
Qed.

Lemma missing_column_raises_witness :
  hourly_format (fun _ => None) 0 (<[0 := Samples.met_table]> ∅)
    = (Raise (KeyError "Timestamp"), <[0 := Samples.met_table]> ∅)
  ∧ format_era5 (fun _ => None) 0 (<[0 := Samples.met_table]> ∅)
    = (Raise (KeyError "Date/time [UTC]"), <[0 := Samples.met_table]> ∅)
  ∧ wind_shear 0 (<[0 := Samples.met_table]> ∅)
    = (Raise (KeyError "Spd 102m [m/s]"), <[0 := Samples.met_table]> ∅).
Proof.
  destruct (missing_column_raises (fun _ => None)
              (<[0 := Samples.met_table]> ∅) 0 Samples.met_table)
    as (T & E & S & _).
  - reflexivity.
  - split; [exact (proj1 (T eq_refl))|]. split; [exact (E eq_refl)|exact (S eq_refl)].
Defined.

(** ** wind_shear *)

Lemma shear_sign (a b : R) :
  (0 < a)%R → (0 < b)%R →
  ∃ v, div (log (div (Fin a) (Fin b))) (log (div (of_Z 102) (of_Z 46))) = Fin v
     ∧ (b < a → 0 < v)%R ∧ (a = b → v = 0%R) ∧ (a < b → v < 0)%R.
Proof.
  intros Ha Hb. pose proof ln_heights_pos as L.
  exists (ln (a / b) / ln (102 / 46))%R. split.
  { apply (proj1 (shear_value a b)). left. now split. }
  assert (Q : (0 < a / b)%R) by now apply Rdiv_lt_0_compat.
  split; [|split].
  - intros H. apply Rdiv_lt_0_compat; [|exact L].
    rewrite <- ln_1. apply ln_increasing; [lra|].
    apply (Rmult_lt_reg_r b); [exact Hb|].
    replace (a / b * b)%R with a by (field; lra). lra.
  - intros ->. replace (b / b)%R with 1%R by (field; lra).
    rewrite ln_1. lra.
  - intros H.
    assert (N : (ln (a / b) < 0)%R).
    { rewrite <- ln_1. apply ln_increasing; [exact Q|].
      apply (Rmult_lt_reg_r b); [exact Hb|].
      replace (a / b * b)%R with a by (field; lra). lra. }
    replace (ln (a / b) / ln (102 / 46))%R
      with (- ((- ln (a / b)) / ln (102 / 46)))%R by (field; lra).
    assert (0 < (- ln (a / b)) / ln (102 / 46))%R
      by (apply Rdiv_lt_0_compat; lra).
    lra.
Qed.

(** X9: for positive finite readings the shear [wind_shear] returns is
    positive when the 102m speed exceeds the 46m speed, zero when the two
    are equal and negative when it is smaller; a row in which either
    reading is missing has a missing shear; the column is as long as the
    shorter of the two speed columns. *)
Theorem wind_shear_sign (h : gmap nat DataFrame) r df ts s102 s46 :
  h !! r = Some df →
  getitem df "Spd 102m [m/s]" = Ok (Float64 s102) →
  getitem df "Spd 46m [m/s]" = Ok (Float64 s46) →
  getitem df "Timestamp" = Ok ts →
  ∃ r' h' out shear,
    wind_shear r h = (Ok r', h')
    ∧ h' !! r' = Some out
    ∧ getitem out "shear" = Ok (Float64 shear)
    ∧ length shear = min (length s102) (length s46)
    ∧ (∀ i a b,
         s102 !! i = Some (Fin a) → s46 !! i = Some (Fin b) →
         (0 < a)%R → (0 < b)%R →
         ∃ v, shear !! i = Some (Fin v)
            ∧ (b < a → 0 < v)%R ∧ (a = b → v = 0%R) ∧ (a < b → v < 0)%R)
    ∧ (∀ i x y,
         s102 !! i = Some x → s46 !! i = Some y →
         x = NaN ∨ y = NaN → shear !! i = Some NaN).
Proof.
  intros Hr H1 H0 HT.
  pose proof (wind_shear_run h r df ts s102 s46 Hr H1 H0 HT) as Run.
  cbv zeta in Run.
  eexists _, _, _, _. split; [exact Run|].
  split; [apply lookup_insert_eq|]. split; [reflexivity|].
  split; [now rewrite length_map, length_zip_with|]. split.
  - intros i a b Ha Hb Pa Pb.
    destruct (shear_sign a b Pa Pb) as (v & E & Hv).
    exists v. split; [|exact Hv].
    rewrite list_lookup_fmap, lookup_zip_with, Ha, Hb. rewrite <- E. reflexivity.
  - intros i x y Hx Hy N.
    rewrite list_lookup_fmap, lookup_zip_with, Hx, Hy.
    destruct N as [-> | ->]; [reflexivity|]. now destruct x.
Qed.

Lemma wind_shear_sign_witness :
  ∃ r' h' out shear v,
    wind_shear 0 (<[0 := Samples.lidar_table]> ∅) = (Ok r', h')
    ∧ h' !! r' = Some out
    ∧ getitem out "shear" = Ok (Float64 shear)
    ∧ shear !! 0 = Some (Fin v)
    ∧ (0 < v)%R.
Proof.
  destruct (wind_shear_sign (<[0 := Samples.lidar_table]> ∅) 0
              Samples.lidar_table
              (Datetime64 None [datetime 2021 1 2 3 0 0; datetime 2021 1 2 4 0 0])
              [Fin 10; Fin (-10)] [Fin 8; Fin (-8)])
    as (r' & h' & out & shear & Run & L & G & _ & Sign & _).
  - reflexivity.
  - reflexivity.
  - reflexivity.
  - reflexivity.
  - destruct (Sign 0 10%R 8%R) as (v & Hv & Pos & _).
    + reflexivity.
    + reflexivity.
    + lra.
    + lra.
    + exists r', h', out, shear, v. split; [exact Run|]. split; [exact L|].
      split; [exact G|]. split; [exact Hv|]. apply Pos. lra.
Defined.

(** X10: on a lidar table without a 'Timestamp' column [wind_shear]
    raises the KeyError of 'Timestamp' only at the final selection: the
    'shear' column has by then been written into the caller's table, no new
    table exists, and every other table is untouched. *)
Theorem wind_shear_missing_timestamp (h : gmap nat DataFrame) r df s102 s46 :
  h !! r = Some df →
  getitem df "Spd 102m [m/s]" = Ok (Float64 s102) →
  getitem df "Spd 46m [m/s]" = Ok (Float64 s46) →
  getitem df "Timestamp" = Raise (KeyError "Timestamp") →
  ∃ h' df' shear,
    wind_shear r h = (Raise (KeyError "Timestamp"), h')
    ∧ h' !! r = Some df'
    ∧ getitem df' "shear" = Ok (Float64 shear)
    ∧ length shear = min (length s102) (length s46)
    ∧ dom h' = dom h
    ∧ ∀ l, l ≠ r → h' !! l = h !! l.
Proof.
  intros Hr H1 H0 HT.
  set (shear := map (fun q => div (log q) (log (div (of_Z 102) (of_Z 46))))
                    (zip_with div s102 s46)).
  set (h1 := <[r := setitem df "shear" (Float64 shear)]> h).
  assert (Hr1 : h1 !! r = Some (setitem df "shear" (Float64 shear)))
    by apply lookup_insert_eq.
  exists h1, (setitem df "shear" (Float64 shear)), shear.
  split; [|split; [exact Hr1|split; [apply getitem_setitem_same|split; [|split]]]].
  - unfold wind_shear.
    rewrite (bind_ok _ _ _ _ _ (df_getitem_ok _ _ _ _ _ Hr H1)).
    rewrite (bind_ok _ _ _ _ _ (df_getitem_ok _ _ _ _ _ Hr H0)).
    rewrite (bind_lift_ok _ _ _ (Float64 (zip_with div s102 s46))) by reflexivity.
    rewrite (bind_lift_ok _ _ _ (Float64 (map log (zip_with div s102 s46))))
      by reflexivity.
    rewrite (bind_lift_ok _ _ _ (Float64 shear))
      by (unfold shear; simpl; now rewrite map_map).
    rewrite (bind_ok _ _ _ _ _ (df_setitem_run _ _ _ _ _ Hr)). fold h1.
    rewrite (bind_ok _ _ _ _ _ (load_ok _ _ _ Hr1)).
    apply bind_raise. unfold lift, getitem_list. cbn [mapR].
    rewrite getitem_setitem_other by reflexivity. now rewrite HT.
  - unfold shear. now rewrite length_map, length_zip_with.
  - unfold h1. apply dom_insert_lookup_L. eauto.
  - intros l Hl. unfold h1. now apply lookup_insert_ne.
Qed.

Lemma wind_shear_missing_timestamp_witness :
  ∃ h' df' shear,
    wind_shear 0 (<[0 := Samples.lidar_speeds_table]> ∅)
      = (Raise (KeyError "Timestamp"), h')
    ∧ h' !! 0 = Some df'
    ∧ getitem df' "shear" = Ok (Float64 shear)
    ∧ length shear = 2.
Proof.
  destruct (wind_shear_missing_timestamp (<[0 := Samples.lidar_speeds_table]> ∅) 0
              Samples.lidar_speeds_table [Fin 10; Fin 6] [Fin 8; Fin 7])
    as (h' & df' & shear & Run & L & G & Len & _).
  - reflexivity.
  - reflexivity.
  - reflexivity.
  - reflexivity.
  - exists h', df', shear. split; [exact Run|]. split; [exact L|].
    split; [exact G|exact Len].
Defined.

(** X11: [wind_shear] is repeatable: a second call on the same table
    returns, at a new reference, a table equal to the first result, and
    leaves the caller's table and the first result as they were. *)
Theorem wind_shear_twice (h : gmap nat DataFrame) r df ts s102 s46 :
  h !! r = Some df →
  getitem df "Spd 102m [m/s]" = Ok (Float64 s102) →
  getitem df "Spd 46m [m/s]" = Ok (Float64 s46) →
  getitem df "Timestamp" = Ok ts →
  ∃ r1 h1 r2 h2 out,
    wind_shear r h = (Ok r1, h1)
    ∧ wind_shear r h1 = (Ok r2, h2)
    ∧ r1 ≠ r ∧ r2 ≠ r ∧ r2 ≠ r1
    ∧ h1 !! r1 = Some out
    ∧ h2 !! r1 = Some out
    ∧ h2 !! r2 = Some out
    ∧ h2 !! r = h1 !! r.
Proof.
  intros Hr H1 H0 HT.
  pose proof (wind_shear_run h r df ts s102 s46 Hr H1 H0 HT) as Run.
  cbv zeta in Run.
  set (shear := map (fun q => div (log q) (log (div (of_Z 102) (of_Z 46))))
                    (zip_with div s102 s46)) in *.
  set (df1 := setitem df "shear" (Float64 shear)) in *.
  set (g := <[r := df1]> h) in *.
  set (r1 := fresh (dom g)) in *.
  set (out := mkDataFrame (index_name df) (index df)
                [("Timestamp"%string, ts); ("shear"%string, Float64 shear)]) in *.
  set (h1 := <[r1 := out]> g) in *.
  assert (G : g !! r = Some df1) by apply lookup_insert_eq.
  assert (N1 : r1 ≠ r).
  { intros E. pose proof (fresh_not_live g) as F. fold r1 in F.
    rewrite E, G in F. discriminate. }
  assert (Hr1 : h1 !! r = Some df1).
  { unfold h1. rewrite lookup_insert_ne by exact N1. exact G. }
  assert (G1 : getitem df1 "Spd 102m [m/s]" = Ok (Float64 s102))
    by (unfold df1; now rewrite getitem_setitem_other).
  assert (G0 : getitem df1 "Spd 46m [m/s]" = Ok (Float64 s46))
    by (unfold df1; now rewrite getitem_setitem_other).
  assert (GT : getitem df1 "Timestamp" = Ok ts)
    by (unfold df1; now rewrite getitem_setitem_other).
  pose proof (wind_shear_run h1 r df1 ts s102 s46 Hr1 G1 G0 GT) as Run2.
  cbv zeta in Run2. fold shear in Run2.
  replace (setitem df1 "shear" (Float64 shear)) with df1 in Run2
    by (unfold df1; now rewrite setitem_twice).
  change (index_name df1) with (index_name df) in Run2.
  change (index df1) with (index df) in Run2.
  fold out in Run2.
  assert (Same : <[r := df1]> h1 = h1) by (now apply insert_id).
  rewrite Same in Run2.
  set (r2 := fresh (dom h1)) in *.
  assert (F2 : h1 !! r2 = None) by apply fresh_not_live.
  assert (H11 : h1 !! r1 = Some out) by apply lookup_insert_eq.
  assert (N2 : r2 ≠ r) by (intros E; rewrite E, Hr1 in F2; discriminate).
  assert (N21 : r2 ≠ r1) by (intros E; rewrite E, H11 in F2; discriminate).
  exists r1, h1, r2, (<[r2 := out]> h1), out.
  split; [exact Run|]. split; [exact Run2|].
  split; [exact N1|]. split; [exact N2|]. split; [exact N21|].
  split; [exact H11|].
  split; [rewrite lookup_insert_ne by exact N21; exact H11|].
  split; [apply lookup_insert_eq|].
  now rewrite lookup_insert_ne by exact N2.
Qed.

Lemma wind_shear_twice_witness :
  ∃ r1 h1 r2 h2 out,
    wind_shear 0 (<[0 := Samples.lidar_table]> ∅) = (Ok r1, h1)
    ∧ wind_shear 0 h1 = (Ok r2, h2)
    ∧ r2 ≠ r1
    ∧ h1 !! r1 = Some out
    ∧ h2 !! r2 = Some out.
Proof.
  destruct (wind_shear_twice (<[0 := Samples.lidar_table]> ∅) 0
              Samples.lidar_table
              (Datetime64 None [datetime 2021 1 2 3 0 0; datetime 2021 1 2 4 0 0])
              [Fin 10; Fin (-10)] [Fin 8; Fin (-8)])
    as (r1 & h1 & r2 & h2 & out & Run1 & Run2 & _ & _ & N & O1 & _ & O2 & _).
  - reflexivity.
  - reflexivity.
  - reflexivity.
  - reflexivity.
  - exists r1, h1, r2, h2, out. split; [exact Run1|]. split; [exact Run2|].
    split; [exact N|]. split; [exact O1|exact O2].
Defined.

(** ** concurrent_data *)

Lemma series_ge_times parse tz ts v a :
  coerce_bound parse (Datetime64 tz ts) v = Ok (VTime tz a) →
  series_ge parse (Datetime64 tz ts) v = Ok (map (Z.leb a) ts).
Proof.
  intros Ha. unfold series_ge. rewrite Ha. cbn [rbind].
  replace (comparable (Datetime64 tz ts) (VTime tz a)) with true
    by (now destruct tz).
  cbn [values]. rewrite mapR_map. apply mapR_ok_map.
  intros t. now destruct tz.
Qed.

Lemma series_le_times parse tz ts v b :
  coerce_bound parse (Datetime64 tz ts) v = Ok (VTime tz b) →
  series_le parse (Datetime64 tz ts) v = Ok (map (fun t => Z.leb t b) ts).
Proof.
  intros Hb. unfold series_le. rewrite Hb. cbn [rbind].
  replace (comparable (Datetime64 tz ts) (VTime tz b)) with true
    by (now destruct tz).
  cbn [values]. rewrite mapR_map. apply mapR_ok_map.
  intros t. now destruct tz.
Qed.

(** The run of [concurrent_data] on a datetime column. *)
Lemma concurrent_data_run
    (parse : string → option Z) (h : gmap nat DataFrame) r df tz ts
    start_date end_date a b :
  h !! r = Some df →
  getitem df "Timestamp" = Ok (Datetime64 tz ts) →
  coerce_bound parse (Datetime64 tz ts) start_date = Ok (VTime tz a) →
  coerce_bound parse (Datetime64 tz ts) end_date = Ok (VTime tz b) →
  concurrent_data parse r start_date end_date h
  = (Ok (fresh (dom h)),
     <[fresh (dom h) :=
         loc_mask df (map (fun t => (a <=? t)%Z && (t <=? b)%Z) ts)]> h).
Proof.
  intros Hr HT Ha Hb. unfold concurrent_data.
  rewrite (bind_ok _ _ _ _ _ (df_getitem_ok _ _ _ _ _ Hr HT)).
  rewrite (bind_lift_ok _ _ _ _ (series_ge_times _ _ _ _ _ Ha)).
  rewrite (bind_ok _ _ _ _ _ (df_getitem_ok _ _ _ _ _ Hr HT)).
  rewrite (bind_lift_ok _ _ _ _ (series_le_times _ _ _ _ _ Hb)).
  rewrite (bind_ok _ _ _ _ _ (load_ok _ _ _ Hr)).
  rewrite zip_with_andb_map. reflexivity.
Qed.

Lemma coerce_bound_values parse tz ts ts' v :
  coerce_bound parse (Datetime64 tz ts) v
  = coerce_bound parse (Datetime64 tz ts') v.
Proof. reflexivity. Qed.

Lemma mask_list_nil {A} mask : mask_list mask ([] : list A) = [].
Proof. now destruct mask. Qed.

Lemma mask_list_twice {A} (p q : Z → bool) ts (xs : list A) :
  mask_list (map q (List.filter p ts)) (mask_list (map p ts) xs)
  = mask_list (map (fun t => p t && q t) ts) xs.
Proof.
  revert xs. induction ts as [|t ts IH]; intros xs; [reflexivity|].
  destruct xs as [|x xs].
  - now rewrite !mask_list_nil.
  - simpl. destruct (p t); simpl; [|apply IH].
    destruct (q t); now rewrite IH.
Qed.

Lemma mask_series_twice (p q : Z → bool) ts s :
  mask_series (map q (List.filter p ts)) (mask_series (map p ts) s)
  = mask_series (map (fun t => p t && q t) ts) s.
Proof. destruct s; cbn [mask_series]; now rewrite mask_list_twice. Qed.

Lemma loc_mask_twice (p q : Z → bool) ts df :
  loc_mask (loc_mask df (map p ts)) (map q (List.filter p ts))
  = loc_mask df (map (fun t => p t && q t) ts).
Proof.
  unfold loc_mask. cbn [index_name index columns].
  rewrite mask_series_twice. f_equal.
  rewrite map_map. apply map_ext. intros [n s].
  now rewrite mask_series_twice.
Qed.

Lemma window_meet a b c d t :
  ((a <=? t) && (t <=? b) && ((c <=? t) && (t <=? d))
   = (Z.max a c <=? t) && (t <=? Z.min b d))%Z.
Proof.
  destruct (Z.leb_spec a t), (Z.leb_spec t b), (Z.leb_spec c t),
    (Z.leb_spec t d), (Z.leb_spec (Z.max a c) t), (Z.leb_spec t (Z.min b d));
    simpl; try reflexivity; lia.
Qed.

(** X12: filtering the result of [concurrent_data] once more gives the
    table of the intersection of the two date ranges, from the later start
    to the earlier end; the original table is unchanged throughout, and
    filtering again with the same range returns an equal table. *)
Theorem concurrent_data_compose
    (parse : string → option Z) (h : gmap nat DataFrame) r df tz ts
    start1 end1 start2 end2 a b c d :
  h !! r = Some df →
  getitem df "Timestamp" = Ok (Datetime64 tz ts) →
  coerce_bound parse (Datetime64 tz ts) start1 = Ok (VTime tz a) →
  coerce_bound parse (Datetime64 tz ts) end1 = Ok (VTime tz b) →
  coerce_bound parse (Datetime64 tz ts) start2 = Ok (VTime tz c) →
  coerce_bound parse (Datetime64 tz ts) end2 = Ok (VTime tz d) →
  ∃ r1 h1 r2 h2 out,
    concurrent_data parse r start1 end1 h = (Ok r1, h1)
    ∧ concurrent_data parse r1 start2 end2 h1 = (Ok r2, h2)
    ∧ h2 !! r2 = Some out
    ∧ h2 !! r = Some df
    ∧ (∃ r3 h3,
         concurrent_data parse r (VTime tz (Z.max a c)) (VTime tz (Z.min b d)) h
           = (Ok r3, h3)
         ∧ h3 !! r3 = Some out)
    ∧ (c = a → d = b → h2 !! r1 = Some out).
Proof.
  intros Hr HT Ha Hb Hc Hd.
  set (p := fun t => (a <=? t)%Z && (t <=? b)%Z).
  set (q := fun t => (c <=? t)%Z && (t <=? d)%Z).
  pose proof (concurrent_data_run parse h r df tz ts start1 end1 a b Hr HT Ha Hb)
    as Run1. fold p in Run1.
  set (r1 := fresh (dom h)) in *.
  set (h1 := <[r1 := loc_mask df (map p ts)]> h) in *.
  assert (H11 : h1 !! r1 = Some (loc_mask df (map p ts)))
    by apply lookup_insert_eq.
  assert (T1 : getitem (loc_mask df (map p ts)) "Timestamp"
               = Ok (Datetime64 tz (List.filter p ts))).
  { rewrite (getitem_loc_mask _ _ _ _ HT). simpl. now rewrite mask_list_filter. }
  pose proof (concurrent_data_run parse h1 r1 _ tz _ start2 end2 c d H11 T1
                ltac:(rewrite <- Hc; reflexivity)
                ltac:(rewrite <- Hd; reflexivity)) as Run2.
  fold q in Run2. rewrite loc_mask_twice in Run2.
  set (r2 := fresh (dom h1)) in *.
  set (out := loc_mask df (map (fun t => p t && q t) ts)) in *.
  assert (F2 : h1 !! r2 = None) by apply fresh_not_live.
  assert (F1 : h !! r1 = None) by apply fresh_not_live.
  assert (N1 : r1 ≠ r) by (intros E; rewrite E, Hr in F1; discriminate).
  assert (H1r : h1 !! r = Some df)
    by (unfold h1; now rewrite lookup_insert_ne).
  assert (N2 : r2 ≠ r) by (intros E; rewrite E, H1r in F2; discriminate).
  assert (N21 : r2 ≠ r1) by (intros E; rewrite E, H11 in F2; discriminate).
  exists r1, h1, r2, (<[r2 := out]> h1), out.
  split; [exact Run1|]. split; [exact Run2|].
  split; [apply lookup_insert_eq|].
  split; [now rewrite lookup_insert_ne|].
  split.
  - eexists _, _. split.
    + apply (concurrent_data_run parse h r df tz ts _ _ (Z.max a c) (Z.min b d) Hr HT);
        reflexivity.
    + rewrite lookup_insert_eq. f_equal. unfold out. f_equal.
      apply map_ext. intros t. unfold p, q. symmetry. apply window_meet.
  - intros -> ->. rewrite lookup_insert_ne by exact N21. rewrite H11.
    f_equal. unfold out. f_equal. apply map_ext. intros t.
    unfold p, q. destruct (Z.leb a t); destruct (Z.leb t b); reflexivity.
Qed.

Lemma concurrent_data_compose_witness :
  ∃ r1 h1 r2 h2 out,
    concurrent_data (fun _ => None) 0
        (VTime None (datetime 1999 12 31 23 0 0))
        (VTime None (datetime 2000 1 1 0 0 0))
        (<[0 := Samples.hourly_table]> ∅) = (Ok r1, h1)
    ∧ concurrent_data (fun _ => None) r1
        (VTime None (datetime 2000 1 1 0 0 0))
        (VTime None (datetime 2000 1 1 1 0 0)) h1 = (Ok r2, h2)
    ∧ h2 !! r2 = Some out
    ∧ ∃ r3 h3,
        concurrent_data (fun _ => None) 0
            (VTime None (Z.max (datetime 1999 12 31 23 0 0) (datetime 2000 1 1 0 0 0)))
            (VTime None (Z.min (datetime 2000 1 1 0 0 0) (datetime 2000 1 1 1 0 0)))
            (<[0 := Samples.hourly_table]> ∅) = (Ok r3, h3)
        ∧ h3 !! r3 = Some out.
Proof.
  destruct (concurrent_data_compose (fun _ => None)
              (<[0 := Samples.hourly_table]> ∅) 0 Samples.hourly_table None
              [datetime 1999 12 31 23 0 0; datetime 2000 1 1 0 0 0;
               datetime 2000 1 1 1 0 0]
              (VTime None (datetime 1999 12 31 23 0 0))
              (VTime None (datetime 2000 1 1 0 0 0))
              (VTime None (datetime 2000 1 1 0 0 0))
              (VTime None (datetime 2000 1 1 1 0 0))
              (datetime 1999 12 31 23 0 0) (datetime 2000 1 1 0 0 0)
              (datetime 2000 1 1 0 0 0) (datetime 2000 1 1 1 0 0))
    as (r1 & h1 & r2 & h2 & out & Run1 & Run2 & O & _ & Meet & _).
  - reflexivity.
  - reflexivity.
  - reflexivity.
  - reflexivity.
  - reflexivity.
  - reflexivity.
  - exists r1, h1, r2, h2, out. split; [exact Run1|]. split; [exact Run2|].
    split; [exact O|exact Meet].
Defined.

(** X13: when the end of the range lies before its start
    [concurrent_data] raises nothing and returns a table without rows that
    still has every column of the input, each of them empty. *)
Theorem concurrent_data_empty_range
    (parse : string → option Z) (h : gmap nat DataFrame) r df tz ts
    start_date end_date a b :
  h !! r = Some df →
  getitem df "Timestamp" = Ok (Datetime64 tz ts) →
  coerce_bound parse (Datetime64 tz ts) start_date = Ok (VTime tz a) →
  coerce_bound parse (Datetime64 tz ts) end_date = Ok (VTime tz b) →
  (b < a)%Z →
  ∃ r' h' out,
    concurrent_data parse r start_date end_date h = (Ok r', h')
    ∧ h' !! r' = Some out
    ∧ nrows out = 0
    ∧ map fst (columns out) = map fst (columns df)
    ∧ ∀ name s, getitem df name = Ok s →
        ∃ s', getitem out name = Ok s' ∧ values s' = [].
Proof.
  intros Hr HT Ha Hb Lt.
  pose proof (concurrent_data_run parse h r df tz ts _ _ a b Hr HT Ha Hb) as Run.
  set (p := fun t => (a <=? t)%Z && (t <=? b)%Z) in *.
  assert (P : ∀ {A} (xs : list A), mask_list (map p ts) xs = []).
  { intros A xs. apply mask_list_none. intros t _. unfold p.
    destruct (Z.leb_spec a t), (Z.leb_spec t b); simpl; try reflexivity; lia. }
  eexists _, _, _. split; [exact Run|].
  split; [apply lookup_insert_eq|]. split; [|split].
  - unfold nrows, loc_mask. cbn [index].
    destruct (index df); simpl; now rewrite P.
  - apply loc_mask_names.
  - intros name s G. exists (mask_series (map p ts) s). split.
    + now apply getitem_loc_mask.
    + rewrite values_mask_series. apply P.
Qed.

Lemma concurrent_data_empty_range_witness :
  ∃ r' h' out,
    concurrent_data (fun _ => None) 0
        (VTime None (datetime 2000 1 1 1 0 0))
        (VTime None (datetime 2000 1 1 0 0 0))
        (<[0 := Samples.hourly_table]> ∅) = (Ok r', h')
    ∧ h' !! r' = Some out
    ∧ nrows out = 0.
Proof.
  destruct (concurrent_data_empty_range (fun _ => None)
              (<[0 := Samples.hourly_table]> ∅) 0 Samples.hourly_table None
              [datetime 1999 12 31 23 0 0; datetime 2000 1 1 0 0 0;
               datetime 2000 1 1 1 0 0]
              (VTime None (datetime 2000 1 1 1 0 0))
              (VTime None (datetime 2000 1 1 0 0 0))
              (datetime 2000 1 1 1 0 0) (datetime 2000 1 1 0 0 0))
    as (r' & h' & out & Run & O & N & _).
  - reflexivity.
  - reflexivity.
  - reflexivity.
  - reflexivity.
  - reflexivity.
  - exists r', h', out. split; [exact Run|]. split; [exact O|exact N].
Defined.

(** ** format_era5 *)

Lemma era5_caller_again df ts :
  Spec.era5_caller (Spec.era5_caller df ts) ts = Spec.era5_caller df ts.
Proof.
  unfold Spec.era5_caller.
  set (X := Datetime64 (Some US_Mountain) ts).
  set (H := Int64 _).
  rewrite (setitem_same_value (setitem (setitem df _ X) "hour" H) "Date/time [UTC]" X).
  - apply setitem_twice.
  - rewrite getitem_setitem_other by reflexivity. apply getitem_setitem_same.
Qed.

(** X14: [format_era5] is repeatable: a second call on the table the
    first call converted in place returns, at a new reference, a table
    equal to the first result, and leaves the caller's table and the first
    result as they were. *)
Theorem format_era5_twice parse (h : gmap nat DataFrame) r df col ts :
  h !! r = Some df →
  getitem df "Date/time [UTC]" = Ok col →
  to_datetime_utc parse col = Ok (Datetime64 (Some UTC) ts) →
  parse "2000-01-01 00:00:00"%string = Some (datetime 2000 1 1 0 0 0) →
  ∃ r1 h1 r2 h2 out,
    format_era5 parse r h = (Ok r1, h1)
    ∧ format_era5 parse r h1 = (Ok r2, h2)
    ∧ r1 ≠ r ∧ r2 ≠ r ∧ r2 ≠ r1
    ∧ h1 !! r1 = Some out
    ∧ h2 !! r2 = Some out
    ∧ h2 !! r1 = Some out
    ∧ h2 !! r = h1 !! r.
Proof.
  intros Hr HC HP Hlit.
  pose proof (format_era5_run parse h r df col ts Hr HC HP Hlit) as Run.
  cbv zeta in Run.
  set (df1 := Spec.era5_caller df ts) in *.
  set (g := <[r := df1]> h) in *.
  set (r1 := fresh (dom g)) in *.
  set (out := Spec.era5_result df ts) in *.
  set (h1 := <[r1 := out]> g) in *.
  assert (G : g !! r = Some df1) by apply lookup_insert_eq.
  assert (N1 : r1 ≠ r).
  { intros E. pose proof (fresh_not_live g) as F. fold r1 in F.
    rewrite E, G in F. discriminate. }
  assert (Hr1 : h1 !! r = Some df1)
    by (unfold h1; rewrite lookup_insert_ne by exact N1; exact G).
  assert (C1 : getitem df1 "Date/time [UTC]" = Ok (Datetime64 (Some US_Mountain) ts)).
  { unfold df1, Spec.era5_caller.
    rewrite getitem_setitem_other by reflexivity. apply getitem_setitem_same. }
  pose proof (format_era5_run parse h1 r df1 _ ts Hr1 C1 eq_refl Hlit) as Run2.
  cbv zeta in Run2.
  assert (E1 : Spec.era5_caller df1 ts = df1) by apply era5_caller_again.
  assert (O : Spec.era5_result df1 ts = out).
  { unfold out, Spec.era5_result. now rewrite E1. }
  rewrite O, E1 in Run2.
  assert (Same : <[r := df1]> h1 = h1) by (now apply insert_id).
  rewrite Same in Run2.
  set (r2 := fresh (dom h1)) in *.
  assert (F2 : h1 !! r2 = None) by apply fresh_not_live.
  assert (H11 : h1 !! r1 = Some out) by apply lookup_insert_eq.
  assert (N2 : r2 ≠ r) by (intros E; rewrite E, Hr1 in F2; discriminate).
  assert (N21 : r2 ≠ r1) by (intros E; rewrite E, H11 in F2; discriminate).
  exists r1, h1, r2, (<[r2 := out]> h1), out.
  split; [exact Run|]. split; [exact Run2|].
  split; [exact N1|]. split; [exact N2|]. split; [exact N21|].
  split; [exact H11|].
  split; [apply lookup_insert_eq|].
  split; [rewrite lookup_insert_ne by exact N21; exact H11|].
  now rewrite lookup_insert_ne by exact N2.
Qed.

Lemma format_era5_twice_witness :
  ∃ r1 h1 r2 h2 out,
    format_era5
      (fun s => if String.eqb s "2000-01-01 00:00:00"
                then Some (datetime 2000 1 1 0 0 0) else None)
      0 (<[0 := Samples.era5_table]> ∅) = (Ok r1, h1)
    ∧ format_era5
        (fun s => if String.eqb s "2000-01-01 00:00:00"
                  then Some (datetime 2000 1 1 0 0 0) else None)
        0 h1 = (Ok r2, h2)
    ∧ r2 ≠ r1
    ∧ h1 !! r1 = Some out
    ∧ h2 !! r2 = Some out.
Proof.
  destruct (format_era5_twice
              (fun s => if String.eqb s "2000-01-01 00:00:00"
                        then Some (datetime 2000 1 1 0 0 0) else None)
              (<[0 := Samples.era5_table]> ∅) 0 Samples.era5_table
              (Datetime64 None [datetime 2000 1 1 6 0 0; datetime 2000 1 1 7 0 0;
                                datetime 2000 7 1 12 0 0])
              [datetime 2000 1 1 6 0 0; datetime 2000 1 1 7 0 0;
               datetime 2000 7 1 12 0 0])
    as (r1 & h1 & r2 & h2 & out & Run1 & Run2 & _ & _ & N & O1 & O2 & _).
  - reflexivity.
  - reflexivity.
  - reflexivity.
  - reflexivity.
  - exists r1, h1, r2, h2, out. split; [exact Run1|]. split; [exact Run2|].
    split; [exact N|]. split; [exact O1|exact O2].
Defined.

(** ** Resampling *)

Lemma indexed_caller_no_timestamp df ts :
  lookup_col "Timestamp" (drop_col "Timestamp" (columns df)) = None →
  getitem (Spec.indexed_caller df ts) "Timestamp" = Raise (KeyError "Timestamp").
Proof. intros U. unfold getitem, Spec.indexed_caller. cbn [columns]. now rewrite U. Qed.

(** X15: [hour3_format] and [hourly_format] leave the caller's table in
    the same state, with the timestamps moved to the row labels, and on
    that table [hour3_format], [hourly_format] and [concurrent_data] all
    raise the KeyError of 'Timestamp' and change nothing. *)
Theorem resample_twice parse (h : gmap nat DataFrame) r df ts :
  h !! r = Some df →
  getitem df "Timestamp" = Ok (Datetime64 None ts) →
  forallb (fun c => is_numeric_dtype (snd c)) (drop_col "Timestamp" (columns df)) = true →
  lookup_col "Timestamp" (drop_col "Timestamp" (columns df)) = None →
  ∃ r3 h3 r1 h1,
    hour3_format r h = (Ok r3, h3)
    ∧ hourly_format parse r h = (Ok r1, h1)
    ∧ h3 !! r = h1 !! r
    ∧ ∀ g, g = h3 ∨ g = h1 →
        hour3_format r g = (Raise (KeyError "Timestamp"), g)
        ∧ hourly_format parse r g = (Raise (KeyError "Timestamp"), g)
        ∧ ∀ a b, concurrent_data parse r a b g
                 = (Raise (KeyError "Timestamp"), g).
Proof.
  intros Hr HT HN HU.
  pose proof (hour3_format_run h r df ts Hr HT HN HU) as Run3.
  pose proof (hourly_format_run parse h r df ts Hr HT HN HU) as Run1.
  cbv zeta in Run3, Run1.
  set (g0 := <[r := Spec.indexed_caller df ts]> h) in *.
  set (f := fresh (dom g0)) in *.
  assert (G : g0 !! r = Some (Spec.indexed_caller df ts)) by apply lookup_insert_eq.
  assert (N : f ≠ r).
  { intros E. pose proof (fresh_not_live g0) as F. fold f in F.
    rewrite E, G in F. discriminate. }
  eexists _, _, _, _. split; [exact Run3|]. split; [exact Run1|].
  split; [now rewrite !lookup_insert_ne|].
  intros g Hg.
  assert (Hgr : g !! r = Some (Spec.indexed_caller df ts)).
  { destruct Hg as [-> | ->]; now rewrite lookup_insert_ne. }
  pose proof (indexed_caller_no_timestamp df ts HU) as K.
  assert (Miss : ∀ {A} (k : Series → M A),
            bind (df_getitem r "Timestamp") k g = (Raise (KeyError "Timestamp"), g)).
  { intros A k. apply bind_raise.
    rewrite (df_getitem_run _ _ _ _ Hgr). now rewrite K. }
  split; [|split].
  - unfold hour3_format. apply Miss.
  - unfold hourly_format. apply Miss.
  - intros a b. unfold concurrent_data. apply Miss.
Qed.

Lemma resample_twice_witness :
  ∃ r3 h3,
    hour3_format 0 (<[0 := Samples.ten_minute_table]> ∅) = (Ok r3, h3)
    ∧ hour3_format 0 h3 = (Raise (KeyError "Timestamp"), h3)
    ∧ hourly_format (fun _ => None) 0 h3 = (Raise (KeyError "Timestamp"), h3).
Proof.
  destruct (resample_twice (fun _ => None)
              (<[0 := Samples.ten_minute_table]> ∅) 0 Samples.ten_minute_table
              [datetime 2021 1 2 3 10 0; datetime 2021 1 2 3 20 0;
               datetime 2021 1 2 5 0 0; datetime 2021 1 2 5 59 59])
    as (r3 & h3 & r1 & h1 & Run3 & _ & _ & Again).
  - reflexivity.
  - reflexivity.
  - reflexivity.
  - reflexivity.
  - destruct (Again h3 (or_introl eq_refl)) as (A3 & A1 & _).
    exists r3, h3. split; [exact Run3|]. split; [exact A3|exact A1].
Defined.

(** ** scale_training_data *)

Lemma mul_where_one mask xs : mul_where mask (of_Z 1) xs = xs.
Proof.
  revert mask. induction xs as [|x xs IH]; intros mask; [now destruct mask|].
  destruct mask as [|b mask]; [reflexivity|]. simpl. rewrite IH.
  destruct b; [now rewrite mul_one|reflexivity].
Qed.

Lemma copy_is_distinct (h : gmap nat DataFrame) r df :
  h !! r = Some df → fresh (dom h) ≠ r.
Proof.
  intros Hr E. pose proof (fresh_not_live h) as F.
  rewrite E, Hr in F. discriminate.
Qed.

(** X16: with both factors equal to one, [scale_training_data] returns
    a copy: a new table equal to the input, which is itself unchanged. *)
Theorem scale_training_data_unit_factors (h : gmap nat DataFrame) r df xs :
  h !! r = Some df →
  getitem df "adjusted_wind_speed_59.1" = Ok (Float64 xs) →
  ∃ r' h',
    scale_training_data r (of_Z 1) scale_mid_default h = (Ok r', h')
    ∧ r' ≠ r
    ∧ h' !! r' = Some df
    ∧ h' !! r = Some df.
Proof.
  intros Hr HC.
  pose proof (scale_training_data_run h r df xs (of_Z 1) scale_mid_default Hr HC)
    as Run.
  cbv zeta in Run. unfold scale_mid_default in *.
  rewrite !mul_where_one in Run.
  rewrite (setitem_same_value _ _ _ HC) in Run.
  pose proof (copy_is_distinct h r df Hr) as N.
  eexists _, _. split; [exact Run|]. split; [exact N|].
  split; [apply lookup_insert_eq|]. now rewrite lookup_insert_ne.
Qed.

Lemma scale_training_data_unit_factors_witness :
  ∃ r' h',
    scale_training_data 0 (of_Z 1) scale_mid_default
      (<[0 := Samples.hourly_table]> ∅) = (Ok r', h')
    ∧ r' ≠ 0
    ∧ h' !! r' = Some Samples.hourly_table
    ∧ h' !! 0 = Some Samples.hourly_table.
Proof.
  apply (scale_training_data_unit_factors (<[0 := Samples.hourly_table]> ∅) 0
           Samples.hourly_table [Fin 3; Fin 4; Fin 11]); reflexivity.
Defined.

Lemma dropna_all_nan xs : (∀ x, In x xs → x = NaN) → dropna xs = [].
Proof.
  induction xs as [|x xs IH]; intros A; [reflexivity|].
  unfold dropna in *. simpl. rewrite (A x (or_introl eq_refl)). simpl.
  apply IH. intros y Hy. apply A. now right.
Qed.

Lemma ltb_nan_r x : ltb x NaN = false.
Proof. now destruct x. Qed.

Lemma forallb_negb_const {A} (xs : list A) :
  forallb negb (map (fun _ => false) xs) = true.
Proof. induction xs; simpl; auto. Qed.

Lemma thresholds_single x :
  gtb x (add (nanmean [x]) (nanstd [x])) = false
  ∧ ltb x (sub (nanmean [x]) (nanstd [x])) = false.
Proof.
  unfold nanmean, nanstd, nanvar, dropna, sum, count, gtb.
  destruct x as [a| | |];
    cbn [List.filter isnan negb map foldl length];
    change (Z.of_nat 1) with 1%Z; change (Z.of_nat 0) with 0%Z.
  2-4: split; f64_eval; reflexivity.
  unfold of_Z. cbn [add]. rewrite !div_finite by lra. cbn [sub neg add mul].
  rewrite div_finite by lra.
  replace (0 + ((0 + a) / 1 + - a) * ((0 + a) / 1 + - a))%R with 0%R by field.
  replace (0 / 1)%R with 0%R by field.
  cbn [sqrt]. unfold Rltb.
  destruct (Rlt_dec 0 0) as [C|_]; [lra|].
  rewrite sqrt_0. cbn [add neg ltb]. unfold Rltb.
  split; destruct (Rlt_dec _ _) as [C|_]; try reflexivity; lra.
Qed.

(** X17: when the wind-speed column holds no reading at all (it is empty
    or all missing) or a single row, no row lies beyond a threshold and
    [scale_training_data] returns a copy of the input whatever the
    factors. *)
Theorem scale_training_data_degenerate
    (h : gmap nat DataFrame) r df xs scale_up scale_mid :
  h !! r = Some df →
  getitem df "adjusted_wind_speed_59.1" = Ok (Float64 xs) →
  (∀ x, In x xs → x = NaN) ∨ length xs = 1 →
  ∃ r' h',
    scale_training_data r scale_up scale_mid h = (Ok r', h')
    ∧ r' ≠ r
    ∧ h' !! r' = Some df
    ∧ h' !! r = Some df.
Proof.
  intros Hr HC D.
  pose proof (scale_training_data_run h r df xs scale_up scale_mid Hr HC) as Run.
  cbv zeta in Run.
  assert (E : mul_where
                (map (fun x => ltb x (sub (nanmean xs) (nanstd xs))) xs) scale_mid
                (mul_where
                   (map (fun x => gtb x (add (nanmean xs) (nanstd xs))) xs)
                   scale_up xs) = xs).
  { destruct D as [A|L].
    - unfold nanmean at 1 2, nanstd, nanvar. rewrite (dropna_all_nan xs A).
      change (count []) with (of_Z 0). cbn [sum foldl map].
      replace (div (Fin 0) (of_Z 0)) with NaN by (f64_eval; reflexivity).
      cbn [sqrt add sub neg]. unfold gtb.
      rewrite (map_ext (fun x => ltb NaN x) (fun _ => false)) by reflexivity.
      rewrite (map_ext (fun x => ltb x NaN) (fun _ => false))
        by (intros; apply ltb_nan_r).
      rewrite !mul_where_none by apply forallb_negb_const. reflexivity.
    - destruct xs as [|x [|y xs]]; try discriminate L.
      destruct (thresholds_single x) as [G S].
      cbn [map mul_where]. now rewrite G, S. }
  rewrite E in Run. rewrite (setitem_same_value _ _ _ HC) in Run.
  pose proof (copy_is_distinct h r df Hr) as N.
  eexists _, _. split; [exact Run|]. split; [exact N|].
  split; [apply lookup_insert_eq|]. now rewrite lookup_insert_ne.
Qed.

Lemma scale_training_data_degenerate_witness :
  ∃ r' h',
    scale_training_data 0 (of_Z 2) (of_Z 3)
      (<[0 := Samples.single_reading_table]> ∅) = (Ok r', h')
    ∧ r' ≠ 0
    ∧ h' !! r' = Some Samples.single_reading_table
    ∧ h' !! 0 = Some Samples.single_reading_table.
Proof.
  apply (scale_training_data_degenerate
           (<[0 := Samples.single_reading_table]> ∅) 0
           Samples.single_reading_table [Fin 7]).
  - reflexivity.
  - reflexivity.
  - right. reflexivity.
Defined.

Section ResampleAgain.
Local Open Scope Z_scope.

Lemma foldr_min_in t0 ts : In (foldr Z.min t0 ts) (t0 :: ts).
Proof.
  induction ts as [|x ts IH]; simpl; [now left|].
  destruct (Z.min_spec x (foldr Z.min t0 ts)) as [[_ ->]|[_ ->]].
  - right. now left.
  - destruct IH as [IH|IH]; [now left|right; now right].
Qed.

Lemma foldr_max_in t0 ts : In (foldr Z.max t0 ts) (t0 :: ts).
Proof.
  induction ts as [|x ts IH]; simpl; [now left|].
  destruct (Z.max_spec x (foldr Z.max t0 ts)) as [[_ ->]|[_ ->]].
  - destruct IH as [IH|IH]; [now left|right; now right].
  - right. now left.
Qed.

(** The labels are an arithmetic progression from an aligned start. *)
Lemma bucket_starts_progression w ts :
  0 < w → ts ≠ [] →
  ∃ start n,
    start mod w = 0
    ∧ Spec.bucket_starts w ts
      = map (fun i => start + Z.of_nat i * w) (seq 0 (S n)).
Proof.
  intros W N. destruct ts as [|t0 ts]; [contradiction|].
  unfold Spec.bucket_starts.
  set (first := foldr Z.min t0 ts). set (last := foldr Z.max t0 ts).
  set (start := first - first mod w).
  assert (FL : first <= last).
  { transitivity t0; [apply foldr_min_le|apply foldr_max_ge]; now left. }
  assert (A : start mod w = 0) by now apply floor_aligned.
  pose proof (Z.mod_pos_bound first w W) as Hf.
  assert (Q : 0 <= (last - last mod w - start) / w).
  { rewrite (floor_div_gap w start last W A) by (unfold start; lia).
    apply Z.div_pos; unfold start; lia. }
  set (q := (last - last mod w - start) / w) in *.
  exists start, (Z.to_nat q).
  split; [exact A|]. do 2 f_equal. lia.
Qed.

Lemma progression_bounds start w n t :
  0 < w →
  In t (map (fun i => start + Z.of_nat i * w) (seq 0 (S n))) →
  start <= t <= start + Z.of_nat n * w.
Proof.
  intros W H. apply in_map_iff in H as (i & <- & Hi).
  apply in_seq in Hi. nia.
Qed.

Lemma bucket_starts_again w ts :
  0 < w → Spec.bucket_starts w (Spec.bucket_starts w ts) = Spec.bucket_starts w ts.
Proof.
  intros W. destruct ts as [|t0 ts]; [reflexivity|].
  destruct (bucket_starts_progression w (t0 :: ts) W ltac:(discriminate))
    as (start & n & A & ->).
  set (labels := map (fun i => start + Z.of_nat i * w) (seq 0 (S n))).
  set (rest := map (fun i => start + Z.of_nat i * w) (seq 1 n)).
  assert (L : labels = start :: rest).
  { unfold labels, rest. cbn [seq map]. f_equal. lia. }
  rewrite L at 1. unfold Spec.bucket_starts.
  assert (Hmin : foldr Z.min start rest = start).
  { pose proof (foldr_min_in start rest) as I. rewrite <- L in I.
    apply (progression_bounds _ _ _ _ W) in I.
    pose proof (foldr_min_le start rest start (or_introl eq_refl)). lia. }
  assert (Hmax : foldr Z.max start rest = start + Z.of_nat n * w).
  { pose proof (foldr_max_in start rest) as I. rewrite <- L in I.
    apply (progression_bounds _ _ _ _ W) in I.
    assert (In (start + Z.of_nat n * w) (start :: rest)) as I'.
    { rewrite <- L. apply in_map_iff. exists n. split; [reflexivity|].
      apply in_seq. lia. }
    pose proof (foldr_max_ge start rest _ I'). lia. }
  rewrite Hmin, Hmax, A, Z.sub_0_r.
  rewrite Z.mod_add, A, Z.sub_0_r by lia.
  replace (start + Z.of_nat n * w - start) with (Z.of_nat n * w) by ring.
  rewrite Z.div_mul by lia.
  replace (Z.to_nat (Z.of_nat n + 1)) with (S n) by lia.
  reflexivity.
Qed.

Lemma mask_list_all_false {A} (mask : list bool) (xs : list A) :
  (∀ b, In b mask → b = false) → mask_list mask xs = [].
Proof.
  revert xs. induction mask as [|b mask IH]; intros xs H; [reflexivity|].
  destruct xs as [|x xs]; [reflexivity|]. simpl.
  rewrite (H b (or_introl eq_refl)). apply IH. intros c Hc. apply H. now right.
Qed.

Lemma mask_list_one {A} (xs : list A) j k n x :
  (k <= j < k + n)%nat → length xs = n → xs !! (j - k)%nat = Some x →
  mask_list (map (fun i => Nat.eqb i j) (seq k n)) xs = [x].
Proof.
  revert xs k. induction n as [|n IH]; intros xs k H L Hx; [lia|].
  destruct xs as [|x0 xs]; [discriminate|]. cbn [seq map mask_list].
  destruct (Nat.eqb_spec k j) as [->|Ne].
  - rewrite Nat.sub_diag in Hx. injection Hx as ->. f_equal.
    apply mask_list_all_false. intros b Hb.
    apply in_map_iff in Hb as (i & <- & Hi). apply in_seq in Hi.
    apply Nat.eqb_neq. lia.
  - apply IH; [lia|now injection L|].
    replace (j - k)%nat with (S (j - S k)) in Hx by lia. exact Hx.
Qed.

Lemma nanmean_single x : nanmean [x] = x.
Proof.
  unfold nanmean, dropna, sum, count.
  destruct x as [a| | |];
    cbn [List.filter isnan negb foldl length];
    change (Z.of_nat 1) with 1; change (Z.of_nat 0) with 0;
    try (f64_eval; reflexivity).
  unfold of_Z. cbn [add]. rewrite div_finite by lra. f_equal. field.
Qed.

Lemma progression_bucket start w n j :
  0 < w → (j < n)%nat →
  map (in_bucket w (start + Z.of_nat j * w))
      (map (fun i => start + Z.of_nat i * w) (seq 0 n))
  = map (fun i => Nat.eqb i j) (seq 0 n).
Proof.
  intros W Hj. rewrite map_map. apply map_ext. intros i.
  unfold in_bucket.
  destruct (Nat.eqb_spec i j) as [->|Ne].
  - apply andb_true_iff. split; [apply Z.leb_le|apply Z.ltb_lt]; lia.
  - apply andb_false_iff.
    destruct (Nat.lt_ge_cases i j).
    + left. apply Z.leb_gt. nia.
    + right. apply Z.ltb_ge. nia.
Qed.

Lemma bucket_means_again w ts xs :
  0 < w →
  let labels := Spec.bucket_starts w ts in
  let ms := map (bucket_mean w ts xs) labels in
  map (bucket_mean w labels ms) labels = ms.
Proof.
  intros W. cbv zeta. destruct ts as [|t0 ts]; [reflexivity|].
  destruct (bucket_starts_progression w (t0 :: ts) W ltac:(discriminate))
    as (start & n & A & E).
  remember (Spec.bucket_starts w (t0 :: ts)) as labels eqn:HeqL. clear HeqL.
  remember (map (bucket_mean w (t0 :: ts) xs) labels) as ms eqn:Hms.
  assert (Len : length ms = S n).
  { rewrite Hms, length_map, E, length_map. apply length_seq. }
  clear Hms. subst labels.
  apply list_eq. intros j. rewrite list_lookup_fmap, list_lookup_fmap.
  destruct (Nat.lt_ge_cases j (S n)) as [Hj|Hj].
  - rewrite lookup_seq_lt by exact Hj. cbn [Nat.add fmap option_fmap option_map].
    destruct (ms !! j) as [x|] eqn:Hx.
    + f_equal. unfold bucket_mean.
      rewrite (progression_bucket start w (S n) j W Hj).
      rewrite (mask_list_one ms j 0 (S n) x); [apply nanmean_single|lia|exact Len|].
      now rewrite Nat.sub_0_r.
    + apply lookup_ge_None in Hx. lia.
  - rewrite lookup_seq_ge by exact Hj. cbn [fmap option_fmap option_map].
    symmetry. apply lookup_ge_None. lia.
Qed.

Lemma resampled_columns_again w ts rest :
  0 < w →
  Spec.resampled_columns w (Spec.bucket_starts w ts)
    (Spec.resampled_columns w ts rest)
  = Spec.resampled_columns w ts rest.
Proof.
  intros W. unfold Spec.resampled_columns. rewrite map_map.
  apply map_ext. intros [n s]. cbn [Spec.float_values floats].
  rewrite bucket_starts_again by exact W.
  now rewrite (bucket_means_again w ts (Spec.float_values s) W).
Qed.

Lemma resampled_columns_numeric w ts rest :
  forallb (fun c => is_numeric_dtype (snd c)) (Spec.resampled_columns w ts rest)
  = true.
Proof.
  unfold Spec.resampled_columns.
  induction rest as [|[n s] rest IH]; [reflexivity|]. simpl. exact IH.
Qed.

Lemma resampled_assign w ts k v rest :
  Spec.resampled_columns w ts (assign_col k v rest)
  = assign_col k
      (Float64 (map (bucket_mean w ts (Spec.float_values v)) (Spec.bucket_starts w ts)))
      (Spec.resampled_columns w ts rest).
Proof.
  unfold Spec.resampled_columns.
  induction rest as [|[n s] rest IH]; [reflexivity|]. cbn [assign_col map].
  destruct (String.eqb k n); [reflexivity|]. cbn [map]. now rewrite IH.
Qed.

Lemma assign_numeric k v (rest : list (string * Series)) :
  is_numeric_dtype v = true →
  forallb (fun c => is_numeric_dtype (snd c)) rest = true →
  forallb (fun c => is_numeric_dtype (snd c)) (assign_col k v rest) = true.
Proof.
  intros V. induction rest as [|[n s] rest IH]; simpl; [now rewrite V|].
  intros H. apply andb_true_iff in H as [A B].
  destruct (String.eqb k n); simpl; [now rewrite V, B|now rewrite A, IH].
Qed.

(** X18: resampling is idempotent on its own result: [hour3_format]
    applied to the table [hour3_format] returned gives an equal table, and
    so does [hourly_format] applied to the table [hourly_format]
    returned. *)
Theorem resample_idempotent parse (h : gmap nat DataFrame) r df ts :
  h !! r = Some df →
  getitem df "Timestamp" = Ok (Datetime64 None ts) →
  forallb (fun c => is_numeric_dtype (snd c)) (drop_col "Timestamp" (columns df)) = true →
  lookup_col "Timestamp" (drop_col "Timestamp" (columns df)) = None →
  (∃ r1 h1 out r2 h2,
     hour3_format r h = (Ok r1, h1)
     ∧ h1 !! r1 = Some out
     ∧ hour3_format r1 h1 = (Ok r2, h2)
     ∧ r2 ≠ r1
     ∧ h2 !! r2 = Some out)
  ∧ (∃ r1 h1 out r2 h2,
       hourly_format parse r h = (Ok r1, h1)
       ∧ h1 !! r1 = Some out
       ∧ hourly_format parse r1 h1 = (Ok r2, h2)
       ∧ r2 ≠ r1
       ∧ h2 !! r2 = Some out).
Proof.
  intros Hr HT HN HU.
  set (g := <[r := Spec.indexed_caller df ts]> h).
  set (r1 := fresh (dom g)).
  split.
  - pose proof (hour3_format_run h r df ts Hr HT HN HU) as Run.
    cbv zeta in Run. fold g r1 in Run.
    set (out := Spec.hour3_result df ts) in *.
    set (h1 := <[r1 := out]> g) in *.
    set (w := 6 * ns_per_hour).
    set (rest := Spec.resampled_columns w ts (drop_col "Timestamp" (columns df))).
    assert (H11 : h1 !! r1 = Some out) by apply lookup_insert_eq.
    assert (D : drop_col "Timestamp" (columns out) = rest) by reflexivity.
    assert (U : lookup_col "Timestamp" rest = None).
    { unfold rest. now rewrite lookup_resampled, HU. }
    pose proof (hour3_format_run h1 r1 out (Spec.bucket_starts w ts) H11 eq_refl)
      as Run2.
    rewrite D in Run2.
    specialize (Run2 (resampled_columns_numeric _ _ _) U). cbv zeta in Run2.
    set (g1 := <[r1 := Spec.indexed_caller out (Spec.bucket_starts w ts)]> h1) in *.
    assert (O : Spec.hour3_result out (Spec.bucket_starts w ts) = out).
    { unfold Spec.hour3_result at 1. cbv zeta. fold w. rewrite D. unfold rest.
      rewrite resampled_columns_again, bucket_starts_again by reflexivity.
      reflexivity. }
    rewrite O in Run2.
    assert (G1 : g1 !! r1 = Some (Spec.indexed_caller out (Spec.bucket_starts w ts)))
      by apply lookup_insert_eq.
    exists r1, h1, out, (fresh (dom g1)), (<[fresh (dom g1) := out]> g1).
    split; [exact Run|]. split; [exact H11|]. split; [exact Run2|].
    split; [exact (copy_is_distinct g1 r1 _ G1)|apply lookup_insert_eq].
  - pose proof (hourly_format_run parse h r df ts Hr HT HN HU) as Run.
    cbv zeta in Run. fold g r1 in Run.
    set (out := Spec.hourly_result df ts) in *.
    set (h1 := <[r1 := out]> g) in *.
    set (w := ns_per_hour).
    set (labels := Spec.bucket_starts w ts).
    set (hours := Int64 (map hour_of_year labels)).
    set (rest0 := Spec.resampled_columns w ts (drop_col "Timestamp" (columns df))).
    set (rest := assign_col "hour" hours rest0).
    assert (H11 : h1 !! r1 = Some out) by apply lookup_insert_eq.
    assert (D : drop_col "Timestamp" (columns out) = rest) by reflexivity.
    assert (U : lookup_col "Timestamp" rest = None).
    { unfold rest. rewrite lookup_assign_other by reflexivity.
      unfold rest0. now rewrite lookup_resampled, HU. }
    assert (Num : forallb (fun c => is_numeric_dtype (snd c)) rest = true).
    { apply assign_numeric; [reflexivity|apply resampled_columns_numeric]. }
    pose proof (hourly_format_run parse h1 r1 out labels H11 eq_refl) as Run2.
    rewrite D in Run2. specialize (Run2 Num U). cbv zeta in Run2.
    set (g1 := <[r1 := Spec.indexed_caller out labels]> h1) in *.
    assert (O : Spec.hourly_result out labels = out).
    { unfold Spec.hourly_result at 1. cbv zeta. rewrite D.
      unfold rest, rest0, hours, labels, w.
      rewrite resampled_assign, bucket_starts_again by reflexivity.
      rewrite assign_twice, resampled_columns_again by reflexivity.
      reflexivity. }
    rewrite O in Run2.
    assert (G1 : g1 !! r1 = Some (Spec.indexed_caller out labels))
      by apply lookup_insert_eq.
    exists r1, h1, out, (fresh (dom g1)), (<[fresh (dom g1) := out]> g1).
    split; [exact Run|]. split; [exact H11|]. split; [exact Run2|].
    split; [exact (copy_is_distinct g1 r1 _ G1)|apply lookup_insert_eq].
Qed.

Lemma resample_idempotent_witness :
  ∃ r1 h1 out r2 h2,
    hour3_format 0%nat (<[0%nat := Samples.ten_minute_table]> ∅) = (Ok r1, h1)
    ∧ h1 !! r1 = Some out
    ∧ hour3_format r1 h1 = (Ok r2, h2)
    ∧ r2 ≠ r1
    ∧ h2 !! r2 = Some out.
Proof.
  apply (resample_idempotent (fun _ => None)
           (<[0%nat := Samples.ten_minute_table]> ∅) 0%nat Samples.ten_minute_table
           [datetime 2021 1 2 3 10 0; datetime 2021 1 2 3 20 0;
            datetime 2021 1 2 5 0 0; datetime 2021 1 2 5 59 59]).
  - reflexivity.
  - reflexivity.
  - reflexivity.
  - reflexivity.
Defined.

End ResampleAgain.

(** ** Well-formed tables *)

Lemma series_len_values s : series_len s = length (values s).
Proof. destruct s; simpl; now rewrite ?length_map. Qed.

Lemma length_mask_list {A B} mask (xs : list A) (ys : list B) :
  length xs = length ys →
  length (mask_list mask xs) = length (mask_list mask ys).
Proof.
  revert xs ys. induction mask as [|b mask IH]; intros xs ys L; [reflexivity|].
  destruct xs as [|x xs], ys as [|y ys]; try discriminate L; [reflexivity|].
  injection L as L. destruct b; simpl; [f_equal|]; now apply IH.
Qed.

Lemma series_len_mask mask s s' :
  series_len s = series_len s' →
  series_len (mask_series mask s) = series_len (mask_series mask s').
Proof.
  intros L. rewrite !series_len_values, !values_mask_series.
  apply length_mask_list. now rewrite <- !series_len_values.
Qed.

Lemma wf_loc_mask df mask : wf_frame df → wf_frame (loc_mask df mask).
Proof.
  unfold wf_frame, loc_mask, nrows. cbn [columns index]. intros W.
  apply Forall_map. eapply Forall_impl; [exact W|].
  intros [n s] L. cbn [snd] in *. now apply series_len_mask.
Qed.

(** X19: on a well-formed table [concurrent_data] returns a well-formed
    table with as many rows as there are timestamps in the range, never
    more than the input has. *)
Theorem concurrent_data_well_formed
    (parse : string → option Z) (h : gmap nat DataFrame) r df tz ts
    start_date end_date a b :
  h !! r = Some df →
  wf_frame df →
  getitem df "Timestamp" = Ok (Datetime64 tz ts) →
  coerce_bound parse (Datetime64 tz ts) start_date = Ok (VTime tz a) →
  coerce_bound parse (Datetime64 tz ts) end_date = Ok (VTime tz b) →
  ∃ r' h' out,
    concurrent_data parse r start_date end_date h = (Ok r', h')
    ∧ h' !! r' = Some out
    ∧ wf_frame out
    ∧ nrows out
      = length (List.filter (fun t => (a <=? t)%Z && (t <=? b)%Z) ts)
    ∧ nrows out ≤ nrows df.
Proof.
  intros Hr W HT Ha Hb.
  pose proof (concurrent_data_run parse h r df tz ts _ _ a b Hr HT Ha Hb) as Run.
  set (p := fun t => (a <=? t)%Z && (t <=? b)%Z) in *.
  assert (L : nrows (loc_mask df (map p ts)) = length (List.filter p ts)).
  { unfold nrows, loc_mask. cbn [index].
    rewrite series_len_values, values_mask_series.
    rewrite <- (mask_list_filter p ts). apply length_mask_list.
    rewrite <- series_len_values. symmetry.
    exact (wf_getitem _ _ _ W HT). }
  eexists _, _, _. split; [exact Run|].
  split; [apply lookup_insert_eq|]. split; [now apply wf_loc_mask|].
  split; [exact L|].
  rewrite L, <- (wf_getitem _ _ _ W HT). cbn [series_len].
  apply filter_length_le.
Qed.

Lemma concurrent_data_well_formed_witness :
  ∃ r' h' out,
    concurrent_data (fun _ => None) 0
        (VTime None (datetime 2000 1 1 0 0 0))
        (VTime None (datetime 2000 1 1 1 0 0))
        (<[0 := Samples.hourly_table]> ∅) = (Ok r', h')
    ∧ h' !! r' = Some out
    ∧ wf_frame out
    ∧ nrows out = 2.
Proof.
  destruct (concurrent_data_well_formed (fun _ => None)
              (<[0 := Samples.hourly_table]> ∅) 0 Samples.hourly_table None
              [datetime 1999 12 31 23 0 0; datetime 2000 1 1 0 0 0;
               datetime 2000 1 1 1 0 0]
              (VTime None (datetime 2000 1 1 0 0 0))
              (VTime None (datetime 2000 1 1 1 0 0))
              (datetime 2000 1 1 0 0 0) (datetime 2000 1 1 1 0 0))
    as (r' & h' & out & Run & O & W & N & _).
  - reflexivity.
  - repeat constructor.
  - reflexivity.
  - reflexivity.
  - reflexivity.
  - exists r', h', out. split; [exact Run|]. split; [exact O|].
    split; [exact W|exact N].
Defined.

(** X20: on a well-formed lidar table [wind_shear] leaves the caller's
    table well formed with its rows, and returns a well-formed table of the
    same number of rows whose columns are 'Timestamp' and 'shear', in that
    order. *)
Theorem wind_shear_well_formed (h : gmap nat DataFrame) r df ts s102 s46 :
  h !! r = Some df →
  wf_frame df →
  getitem df "Spd 102m [m/s]" = Ok (Float64 s102) →
  getitem df "Spd 46m [m/s]" = Ok (Float64 s46) →
  getitem df "Timestamp" = Ok ts →
  ∃ r' h' df' out,
    wind_shear r h = (Ok r', h')
    ∧ h' !! r = Some df'
    ∧ h' !! r' = Some out
    ∧ wf_frame df' ∧ nrows df' = nrows df
    ∧ wf_frame out ∧ nrows out = nrows df
    ∧ map fst (columns out) = ["Timestamp"; "shear"].
Proof.
  intros Hr W H1 H0 HT.
  pose proof (wind_shear_run h r df ts s102 s46 Hr H1 H0 HT) as Run.
  cbv zeta in Run.
  set (shear := map (fun q => div (log q) (log (div (of_Z 102) (of_Z 46))))
                    (zip_with div s102 s46)) in *.
  set (df1 := setitem df "shear" (Float64 shear)) in *.
  set (g := <[r := df1]> h) in *.
  assert (G : g !! r = Some df1) by apply lookup_insert_eq.
  assert (L : length shear = nrows df).
  { unfold shear. rewrite length_map, length_zip_with.
    pose proof (wf_getitem _ _ _ W H1) as A.
    pose proof (wf_getitem _ _ _ W H0) as B. cbn [series_len] in A, B. lia. }
  eexists _, _, df1, _. split; [exact Run|].
  split; [rewrite lookup_insert_ne by exact (copy_is_distinct g r df1 G); exact G|].
  split; [apply lookup_insert_eq|].
  split; [apply wf_setitem; [exact W|exact L]|].
  split; [reflexivity|]. split; [|split; reflexivity].
  unfold wf_frame, nrows. cbn [columns index].
  repeat constructor; cbn [snd series_len].
  - exact (wf_getitem _ _ _ W HT).
  - exact L.
Qed.

Lemma wind_shear_well_formed_witness :
  ∃ r' h' df' out,
    wind_shear 0 (<[0 := Samples.lidar_table]> ∅) = (Ok r', h')
    ∧ h' !! 0 = Some df'
    ∧ h' !! r' = Some out
    ∧ wf_frame df'
    ∧ wf_frame out
    ∧ nrows out = 2.
Proof.
  destruct (wind_shear_well_formed (<[0 := Samples.lidar_table]> ∅) 0
              Samples.lidar_table
              (Datetime64 None [datetime 2021 1 2 3 0 0; datetime 2021 1 2 4 0 0])
              [Fin 10; Fin (-10)] [Fin 8; Fin (-8)])
    as (r' & h' & df' & out & Run & L & O & W1 & _ & W2 & N & _).
  - reflexivity.
  - repeat constructor.
  - reflexivity.
  - reflexivity.
  - reflexivity.
  - exists r', h', df', out. split; [exact Run|]. split; [exact L|].
    split; [exact O|]. split; [exact W1|]. split; [exact W2|exact N].
Defined.

(** X21: the table [scale_training_data] returns has the row labels and
    the column names of the input, in the same order; every column other
    than 'adjusted_wind_speed_59.1' is the input's, and a well-formed input
    gives a well-formed result. *)
Theorem scale_training_data_well_formed
    (h : gmap nat DataFrame) r df xs scale_up scale_mid :
  h !! r = Some df →
  wf_frame df →
  getitem df "adjusted_wind_speed_59.1" = Ok (Float64 xs) →
  ∃ r' h' out,
    scale_training_data r scale_up scale_mid h = (Ok r', h')
    ∧ h' !! r' = Some out
    ∧ wf_frame out
    ∧ index out = index df
    ∧ map fst (columns out) = map fst (columns df)
    ∧ ∀ name, String.eqb name "adjusted_wind_speed_59.1" = false →
        getitem out name = getitem df name.
Proof.
  intros Hr W HC.
  pose proof (scale_training_data_run h r df xs scale_up scale_mid Hr HC) as Run.
  cbv zeta in Run.
  eexists _, _, _. split; [exact Run|].
  split; [apply lookup_insert_eq|]. split; [|split; [reflexivity|split]].
  - apply wf_setitem; [exact W|]. cbn [series_len].
    rewrite !mul_where_length. exact (wf_getitem _ _ _ W HC).
  - unfold setitem. cbn [columns]. apply assign_names.
    apply getitem_lookup in HC. now rewrite HC.
  - intros name N. now apply getitem_setitem_other.
Qed.

Lemma scale_training_data_well_formed_witness :
  ∃ r' h' out,
    scale_training_data 0 (of_Z 2) (of_Z 1)
      (<[0 := Samples.hourly_table]> ∅) = (Ok r', h')
    ∧ h' !! r' = Some out
    ∧ wf_frame out
    ∧ index out = index Samples.hourly_table.
Proof.
  destruct (scale_training_data_well_formed (<[0 := Samples.hourly_table]> ∅) 0
              Samples.hourly_table [Fin 3; Fin 4; Fin 11] (of_Z 2) (of_Z 1))
    as (r' & h' & out & Run & O & W & I & _).
  - reflexivity.
  - repeat constructor.
  - reflexivity.
  - exists r', h', out. split; [exact Run|]. split; [exact O|].
    split; [exact W|exact I].
Defined.

(** ** Unreadable dates *)

Lemma mapR_raises {A B} (f : A → result B) e xs :
  (∀ x, In x xs → f x = Raise e ∨ ∃ y, f x = Ok y) →
  (∃ x, In x xs ∧ f x = Raise e) →
  mapR f xs = Raise e.
Proof.
  induction xs as [|x xs IH]; intros All (x0 & I & F); [contradiction|].
  cbn [mapR]. destruct (All x (or_introl eq_refl)) as [E|[y E]]; rewrite E;
    [reflexivity|].
  cbn [rbind]. rewrite IH; [reflexivity| |].
  - intros z Hz. apply All. now right.
  - destruct I as [->|I]; [congruence|]. now exists x0.
Qed.

(** X22: when the 'Date/time [UTC]' column holds texts and one of them
    does not read as a date, [format_era5] raises ValueError and leaves the
    heap unchanged. *)
Theorem format_era5_unreadable
    (parse : string → option Z) (h : gmap nat DataFrame) r df cells bad :
  h !! r = Some df →
  getitem df "Date/time [UTC]" = Ok (Object (map VStr cells)) →
  In bad cells →
  parse bad = None →
  format_era5 parse r h = (Raise ValueError, h).
Proof.
  intros Hr HC I P. unfold format_era5.
  rewrite (bind_ok _ _ _ _ _ (df_getitem_ok _ _ _ _ _ Hr HC)).
  apply bind_raise. unfold lift. f_equal.
  unfold to_datetime_utc. cbn [values].
  rewrite (mapR_raises (to_instant parse) ValueError (map VStr cells));
    [reflexivity| |].
  - intros v Hv. apply in_map_iff in Hv as (s & <- & _). cbn [to_instant].
    destruct (parse s); [right; eauto|now left].
  - exists (VStr bad). split; [now apply in_map|]. cbn [to_instant]. now rewrite P.
Qed.

Lemma format_era5_unreadable_witness :
  format_era5
    (fun s => if String.eqb s "2000-01-01 06:00:00"
              then Some (datetime 2000 1 1 6 0 0) else None)
    0 (<[0 := Samples.era5_text_table]> ∅)
  = (Raise ValueError, <[0 := Samples.era5_text_table]> ∅).
Proof.
  apply (format_era5_unreadable _ (<[0 := Samples.era5_text_table]> ∅) 0
           Samples.era5_text_table ["2000-01-01 06:00:00"; "n/a"] "n/a").
  - reflexivity.
  - reflexivity.
  - right. now left.
  - reflexivity.
Defined.

(** X23: [concurrent_data] raises TypeError, and leaves the heap
    unchanged, when the lower boundary cannot be compared with the datetime
    column: a text that does not read as a date, a timestamp whose zone
    awareness differs from the column's, or a number. *)
Theorem concurrent_data_bad_bound
    (parse : string → option Z) (h : gmap nat DataFrame) r df tz ts
    start_date end_date :
  h !! r = Some df →
  getitem df "Timestamp" = Ok (Datetime64 tz ts) →
  (∃ s, start_date = VStr s ∧ parse s = None)
  ∨ (∃ z a, tz = None ∧ start_date = VTime (Some z) a)
  ∨ (∃ z a, tz = Some z ∧ start_date = VTime None a)
  ∨ (∃ x, start_date = VFloat x) ∨ (∃ n, start_date = VInt n) →
  concurrent_data parse r start_date end_date h = (Raise TypeError, h).
Proof.
  intros Hr HT Bad. unfold concurrent_data.
  rewrite (bind_ok _ _ _ _ _ (df_getitem_ok _ _ _ _ _ Hr HT)).
  apply bind_raise. unfold lift. f_equal. unfold series_ge.
  destruct Bad
    as [(s & -> & P)|[(z & a & -> & ->)|[(z & a & -> & ->)|[(x & ->)|(n & ->)]]]].
  - cbn [coerce_bound]. now rewrite P.
  - reflexivity.
  - reflexivity.
  - cbn [coerce_bound rbind]. now destruct tz.
  - cbn [coerce_bound rbind]. now destruct tz.
Qed.

Lemma concurrent_data_bad_bound_witness :
  concurrent_data (fun _ => None) 0 (VStr "yesterday")
      (VTime None (datetime 2000 1 1 1 0 0))
      (<[0 := Samples.hourly_table]> ∅)
  = (Raise TypeError, <[0 := Samples.hourly_table]> ∅).
Proof.
  apply (concurrent_data_bad_bound (fun _ => None)
           (<[0 := Samples.hourly_table]> ∅) 0 Samples.hourly_table None
           [datetime 1999 12 31 23 0 0; datetime 2000 1 1 0 0 0;
            datetime 2000 1 1 1 0 0]).
  - reflexivity.
  - reflexivity.
  - left. exists "yesterday"%string. split; reflexivity.
Defined.
